(** * beego router: a shallow embedding of [router.go]

    The file follows [router.go] top to bottom: the Go library functions the
    router calls ([strings], [path], [strconv]), the data of the router
    ([controllerInfo], [ControllerRegister], [responseWriter]), registration
    ([Handler], [InsertFilter]), the reverse resolver ([URLFor], [geturl],
    [tourl]) and the dispatcher ([ServeHTTP], [recoverPanic]).  The theorems
    come last. *)

From Stdlib Require Import ZArith Lia Ascii String List DecimalString DecimalNat.
From stdpp Require Import base option list strings gmap.

Local Open Scope string_scope.

(** ** Go library functions used by the router *)

Module GoStr.

(** Go strings are byte strings and the functions below act on bytes.  The
    case conversions are modelled for ASCII text: they map the letters A-Z
    and a-z and leave every other byte as it is, whereas [strings.ToLower]
    and [strings.ToUpper] also map the letters outside ASCII. *)
Definition lower_ascii (c : ascii) : ascii :=
  let n := nat_of_ascii c in
  if (65 <=? n)%nat && (n <=? 90)%nat then ascii_of_nat (n + 32) else c.

Definition upper_ascii (c : ascii) : ascii :=
  let n := nat_of_ascii c in
  if (97 <=? n)%nat && (n <=? 122)%nat then ascii_of_nat (n - 32) else c.

Fixpoint map_string (f : ascii → ascii) (s : string) : string :=
  match s with
  | EmptyString => EmptyString
  | String c s' => String (f c) (map_string f s')
  end.

(** [strings.ToLower], [strings.ToUpper] *)
Definition ToLower : string → string := map_string lower_ascii.
Definition ToUpper : string → string := map_string upper_ascii.

(** [strings.HasPrefix] *)
Fixpoint HasPrefix (s pre : string) : bool :=
  match pre, s with
  | EmptyString, _ => true
  | String _ _, EmptyString => false
  | String a pre', String b s' => if Ascii.eqb a b then HasPrefix s' pre' else false
  end.

Fixpoint rev_string (acc s : string) : string :=
  match s with
  | EmptyString => acc
  | String c s' => rev_string (String c acc) s'
  end.

Definition reverse_string (s : string) : string := rev_string EmptyString s.

(** [strings.HasSuffix] *)
Definition HasSuffix (s suf : string) : bool :=
  HasPrefix (reverse_string s) (reverse_string suf).

(** [strings.Split(s, sep)] for a separator of one byte, the only kind the
    router passes (["."], ["/"]).  [cur] is the piece being read, reversed. *)
Fixpoint split_from (sep : ascii) (cur : string) (s : string) : list string :=
  match s with
  | EmptyString => [reverse_string cur]
  | String c s' =>
      if Ascii.eqb c sep then reverse_string cur :: split_from sep EmptyString s'
      else split_from sep (String c cur) s'
  end.

Definition Split (s : string) (sep : ascii) : list string := split_from sep EmptyString s.

(** [strings.Join] *)
Fixpoint Join (l : list string) (sep : string) : string :=
  match l with
  | [] => ""
  | [x] => x
  | x :: l' => x ++ sep ++ Join l' sep
  end.

(** [strings.Replace(s, old, new, n)] for a non-empty [old]: the first [n]
    occurrences, all of them when [n] is [None] (Go's negative count).
    [skip] counts the bytes of an occurrence that was just replaced. *)
Fixpoint replace_from (old new : string) (n : option nat) (skip : nat) (s : string) : string :=
  match s with
  | EmptyString => EmptyString
  | String c s' =>
      match skip with
      | S k => replace_from old new n k s'
      | O =>
          let hit := HasPrefix s old in
          match n with
          | Some O => String c (replace_from old new n O s')
          | Some (S m) =>
              if hit then new ++ replace_from old new (Some m) (String.length old - 1) s'
              else String c (replace_from old new n O s')
          | None =>
              if hit then new ++ replace_from old new None (String.length old - 1) s'
              else String c (replace_from old new n O s')
          end
      end
  end.

Definition Replace (s old new : string) (n : Z) : string :=
  match old with
  | EmptyString => s
  | _ => replace_from old new (if (n <? 0)%Z then None else Some (Z.to_nat n)) O s
  end.

Fixpoint in_cutset (c : ascii) (cutset : string) : bool :=
  match cutset with
  | EmptyString => false
  | String d cs => Ascii.eqb c d || in_cutset c cs
  end.

(** [strings.TrimLeft], [strings.TrimRight], [strings.Trim] *)
Fixpoint TrimLeft (s cutset : string) : string :=
  match s with
  | EmptyString => EmptyString
  | String c s' => if in_cutset c cutset then TrimLeft s' cutset else s
  end.

Definition TrimRight (s cutset : string) : string :=
  reverse_string (TrimLeft (reverse_string s) cutset).

Definition Trim (s cutset : string) : string := TrimRight (TrimLeft s cutset) cutset.

(** [strconv.Itoa] on the indices of a slice, and [fmt.Sprint] on integers *)
Definition Itoa (n : nat) : string := NilZero.string_of_uint (Nat.to_uint n).
Definition ItoaZ (z : Z) : string := NilZero.string_of_int (Z.to_int z).

(** [path.Clean] on the [/]-separated elements of a path: empty and ["."]
    elements go, [".."] removes the element before it, and is dropped at the
    root of a rooted path.  [out] is the cleaned path so far, reversed. *)
Fixpoint clean_elems (rooted : bool) (out : list string) (elems : list string) : list string :=
  match elems with
  | [] => rev out
  | e :: rest =>
      if String.eqb e "" || String.eqb e "." then clean_elems rooted out rest
      else if String.eqb e ".." then
        match out with
        | o :: out' =>
            if String.eqb o ".." then clean_elems rooted (e :: out) rest
            else clean_elems rooted out' rest
        | [] => if rooted then clean_elems rooted [] rest else clean_elems rooted [e] rest
        end
      else clean_elems rooted (e :: out) rest
  end.

Definition Clean (p : string) : string :=
  match p with
  | EmptyString => "."
  | _ =>
      let rooted := HasPrefix p "/" in
      let body := Join (clean_elems rooted [] (Split p "/"%char)) "/" in
      if rooted then "/" ++ body
      else match body with EmptyString => "." | _ => body end
  end.

(** [path.Join]: empty elements are ignored, the rest joined by [/] and
    cleaned; the result is empty when every element is. *)
Definition PathJoin (elems : list string) : string :=
  match filter (λ e, e ≠ "") elems with
  | [] => ""
  | l => Clean (Join l "/")
  end.

End GoStr.

(** ** The data of the router *)

(** default filter execution points *)
Definition BeforeStatic : Z := 0.
Definition BeforeRouter : Z := 1.
Definition BeforeExec : Z := 2.
Definition AfterExec : Z := 3.
Definition FinishRouter : Z := 4.

Definition routerTypeBeego : Z := 0.
Definition routerTypeRESTFul : Z := 1.
Definition routerTypeHandler : Z := 2.

(** [HTTPMETHOD], the supported http methods *)
Definition HTTPMETHOD_list : list string :=
  ["GET"; "POST"; "PUT"; "DELETE"; "PATCH"; "OPTIONS"; "HEAD"; "TRACE"; "CONNECT"].

Definition HTTPMETHOD : gmap string string :=
  list_to_map (map (λ m, (m, m)) HTTPMETHOD_list).

Definition urlPlaceholder : string := "{{placeholder}}".

(** A [reflect.Type], as far as the router looks at it. *)
Record reflectType := { PkgPath : string; Name : string }.

#[global] Instance reflectType_eq_dec : EqDecision reflectType.
Proof. solve_decision. Defined.

(** A value given to [panic]: the abort sentinel [ErrAbort], compared by
    identity, or any other value, known by its [fmt.Sprint] text. *)
Inductive PanicVal :=
  | ErrAbort
  | PanicText (text : string).

Definition Sprint (e : PanicVal) : string :=
  match e with
  | ErrAbort => "User stop run"
  | PanicText t => t
  end.

Definition is_ErrAbort (e : PanicVal) : bool :=
  match e with ErrAbort => true | _ => false end.

(** The [http.ResponseWriter] of the host, seen as the calls it received. *)
Inductive WriterCall :=
  | WHeaderSet (k v : string)
  | WWriteHeader (code : Z)
  | WWrite (p : string)
  | WFlush
  | WHijack.

Record hostWriter := {
  calls : list WriterCall;
  is_hijacker : bool;   (* the host writer implements [http.Hijacker] *)
  is_flusher : bool     (* the host writer implements [http.Flusher] *)
}.

Definition host_call (c : WriterCall) (h : hostWriter) : hostWriter :=
  {| calls := calls h ++ [c]; is_hijacker := is_hijacker h; is_flusher := is_flusher h |}.

(** [responseWriter] is a wrapper for the [http.ResponseWriter];
    [started] is set to true if the response was written to. *)
Record responseWriter := {
  writer : hostWriter;
  started : bool;
  status : Z
}.

(** [Header().Set(k, v)]: [Header] hands out the header map of the host. *)
Definition Header_Set (k v : string) (w : responseWriter) : responseWriter :=
  {| writer := host_call (WHeaderSet k v) (writer w); started := started w; status := status w |}.

Definition Write (p : string) (w : responseWriter) : responseWriter :=
  {| writer := host_call (WWrite p) (writer w); started := true; status := status w |}.

Definition WriteHeader (code : Z) (w : responseWriter) : responseWriter :=
  {| writer := host_call (WWriteHeader code) (writer w); started := true; status := code |}.

Definition Hijack (w : responseWriter) : responseWriter :=
  if is_hijacker (writer w)
  then {| writer := host_call WHijack (writer w); started := started w; status := status w |}
  else w.

Definition Flush (w : responseWriter) : responseWriter :=
  if is_flusher (writer w)
  then {| writer := host_call WFlush (writer w); started := started w; status := status w |}
  else w.

(** The request, and the part of [beecontext.Context] the router reads and
    writes.  [Params] is a Go map: [None] is the nil map. *)
Record Request := {
  Method : string;
  URLPath : string;
  Form : gmap string string    (* the values of the query and the form *)
}.

Record Context := {
  Params : option (gmap string string);
  RunController : option reflectType;
  RunMethod : string;
  Status : Z;                          (* [Output.Status] *)
  CruSession : option string
}.

(** What a request can be seen doing: the calls to the collaborators and to
    the handlers, each with the value [started] had when it was logged. *)
Inductive Phase :=
  | PhInit | PhPrepare | PhXSRFToken | PhCheckXSRFCookie | PhURLMapping
  | PhGet | PhPost | PhDelete | PhPut | PhHead | PhPatch | PhOptions
  | PhHandlerFunc | PhCall | PhRender | PhFinish.

Inductive op :=
  | OWrite (p : string)                         (* [ctx.ResponseWriter.Write] *)
  | OWriteHeader (code : Z)                     (* [ctx.ResponseWriter.WriteHeader] *)
  | OHeaderSet (k v : string)                   (* [ctx.ResponseWriter.Header().Set] *)
  | OFlush
  | OHijack
  | OSetStatus (code : Z)                       (* [ctx.Output.Status = code] *)
  | OSetParams (m : option (gmap string string)) (* [ctx.Input.Params = m] *)
  | OSetRun (t : option reflectType) (m : string) (* [ctx.Input.RunController], [RunMethod] *)
  | OPanic (e : PanicVal).

Inductive Event :=
  | EvOp (o : op)
  | EvFilter (pos : Z) (pattern : string)
  | EvStatic
  | EvSessionStart
  | EvSessionRelease
  | EvError
  | EvCopyBody
  | EvParseForm
  | EvMatch (verb path : string)
  | EvException (code : string)
  | EvRunFunction (pattern : string)
  | EvHandler (pattern : string)
  | EvController (t : reflectType) (runMethod : string) (ph : Phase)
  | EvAdmin
  | EvStatistics (method path name : string)
  | EvDebug (method path result : string) (pattern : option string)
  | EvFinalHeader (code : Z)
  | EvCritical (msg : string)
  | EvShowErr.

Record Obs := { ev : Event; at_started : bool }.

(** The state of one request: the wrapper [w], the context, what happened. *)
Record World := {
  w : responseWriter;
  context : Context;
  trace : list Obs
}.

(** ** Running code against the state of a request

    Code of the router and of its collaborators runs in a state and error
    monad over [World]: it ends normally with a value, or panics. *)
Inductive Outcome (A : Type) :=
  | Ok (a : A) (s : World)
  | Panicked (e : PanicVal) (s : World).
Arguments Ok {A} a s.
Arguments Panicked {A} e s.

Definition M (A : Type) : Type := World → Outcome A.

#[global] Instance M_ret : MRet M := λ A a s, Ok a s.

#[global] Instance M_bind : MBind M := λ A B k m s,
  match m s with
  | Ok a s' => k a s'
  | Panicked e s' => Panicked e s'
  end.

Definition panic {A} (e : PanicVal) : M A := λ s, Panicked e s.

Definition world_of {A} (o : Outcome A) : World :=
  match o with Ok _ s => s | Panicked _ s => s end.

Definition get : M World := λ s, Ok s s.

Definition set_w (f : responseWriter → responseWriter) : M unit :=
  λ s, Ok tt {| w := f (w s); context := context s; trace := trace s |}.

Definition set_context (f : Context → Context) : M unit :=
  λ s, Ok tt {| w := w s; context := f (context s); trace := trace s |}.

Definition log (e : Event) : M unit :=
  λ s, Ok tt {| w := w s; context := context s;
                trace := trace s ++ [{| ev := e; at_started := started (w s) |}] |}.

Definition with_Params (m : option (gmap string string)) (c : Context) : Context :=
  {| Params := m; RunController := RunController c; RunMethod := RunMethod c;
     Status := Status c; CruSession := CruSession c |}.

Definition with_Status (code : Z) (c : Context) : Context :=
  {| Params := Params c; RunController := RunController c; RunMethod := RunMethod c;
     Status := code; CruSession := CruSession c |}.

Definition with_Run (t : option reflectType) (m : string) (c : Context) : Context :=
  {| Params := Params c; RunController := t; RunMethod := m;
     Status := Status c; CruSession := CruSession c |}.

Definition with_CruSession (x : option string) (c : Context) : Context :=
  {| Params := Params c; RunController := RunController c; RunMethod := RunMethod c;
     Status := Status c; CruSession := x |}.

(** One operation of user code on the request: the methods of the wrapper
    and the fields of the context.  Each is logged once it is done. *)
Definition exec_op (o : op) : M unit :=
  match o with
  | OWrite p => set_w (Write p) ;; log (EvOp o)
  | OWriteHeader code => set_w (WriteHeader code) ;; log (EvOp o)
  | OHeaderSet k v => set_w (Header_Set k v) ;; log (EvOp o)
  | OFlush => set_w Flush ;; log (EvOp o)
  | OHijack => set_w Hijack ;; log (EvOp o)
  | OSetStatus code => set_context (with_Status code) ;; log (EvOp o)
  | OSetParams m => set_context (with_Params m) ;; log (EvOp o)
  | OSetRun t m => set_context (with_Run t m) ;; log (EvOp o)
  | OPanic e => log (EvOp o) ;; panic e
  end.

Fixpoint exec_ops (l : list op) : M unit :=
  match l with
  | [] => mret tt
  | o :: l' => exec_op o ;; exec_ops l'
  end.

(** User code ([FilterFunc], the methods of a controller, a collaborator)
    reads the state it is called in and performs operations. *)
Definition Callback : Type := World → list op.

Definition run (f : Callback) : M unit := λ s, exec_ops (f s) s.

(** The same for code that also returns a value. *)
Definition run_ret {A} (f : World → list op * A) : M A :=
  λ s, (exec_ops (fst (f s)) ;; mret (snd (f s))) s.

(** An [http.Handler] is given the writer of the host, not the wrapper. *)
Definition RawHandler : Type := World → list WriterCall * option PanicVal.

Definition host_calls (l : list WriterCall) (x : responseWriter) : responseWriter :=
  {| writer := foldl (λ h c, host_call c h) (writer x) l;
     started := started x; status := status x |}.

Definition run_raw (h : RawHandler) : M unit :=
  λ s, (set_w (host_calls (fst (h s))) ;;
        match snd (h s) with
        | Some e => panic e
        | None => mret tt
        end) s.

(** ** Routes, tries, filters *)

Record controllerInfo := {
  pattern : string;
  controllerType : option reflectType;
  methods : gmap string string;
  handler : RawHandler;
  runFunction : Callback;
  routerType : Z
}.

(** What a leaf of a trie holds ([interface{}]): a route, the [true] of a
    filter, or something else. *)
Inductive runObject :=
  | RObjController (c : controllerInfo)
  | RObjBool (b : bool)
  | RObjOther.

(** A compiled [regexp.Regexp]: its source text and its [MatchString]. *)
Record Regexp := { rx_String : string; rx_MatchString : string → bool }.

Record leafInfo := {
  wildcards : list string;
  regexps : option Regexp;
  leaf_runObject : runObject
}.

(** The trie of [tree.go], with the fields the router reads.  [fixrouters]
    is a Go map; the list gives its entries in the order [range] visits. *)
#[local] Set Warnings "-register-all".
Inductive Tree :=
  | mkTree (fixrouters : list (string * Tree)) (wildcard : option Tree) (leaves : list leafInfo).

Definition fixrouters (t : Tree) : list (string * Tree) :=
  match t with mkTree f _ _ => f end.
Definition wildcard (t : Tree) : option Tree :=
  match t with mkTree _ x _ => x end.
Definition leaves (t : Tree) : list leafInfo :=
  match t with mkTree _ _ l => l end.

Definition NewTree : Tree := mkTree [] None [].

Record FilterRouter := {
  filterFunc : Callback;
  tree : Tree;
  filter_pattern : string;
  returnOnOutput : bool
}.

(** [ControllerRegister] containers registered router rules, controller
    handlers and filters. *)
Record ControllerRegister := {
  routers : gmap string Tree;
  enableFilter : bool;
  filters : gmap Z (list FilterRouter)
}.

Definition NewControllerRegister : ControllerRegister :=
  {| routers := ∅; enableFilter := false; filters := ∅ |}.

(** ** Configuration and collaborators *)

(** The package variables the router reads. *)
Record Config := {
  RouterCaseSensitive : bool;
  RunMode : string;
  BeegoServerName : string;
  SessionOn : bool;
  CopyRequestBody : bool;
  EnableXSRF : bool;
  AutoRender : bool;
  EnableAdmin : bool;
  AccessLogs : bool;
  RecoverPanic : bool;
  EnableErrorsShow : bool;
  ErrorMaps : gset string;              (* the codes [ErrorMaps] has a handler for *)
  StaticDir : list string;              (* the keys of [StaticDir] *)
  DefaultAccessLogFilter : option (Request → Context → bool)
}.

(** A controller type that implements [ControllerInterface]. *)
Record Controller := {
  Init : string → string → Callback;    (* controller name, run method *)
  Prepare : Callback;
  XSRFToken : Callback;
  CheckXSRFCookie : Callback;
  URLMapping : Callback;
  Get : Callback;
  Post : Callback;
  Delete : Callback;
  Put : Callback;
  Head : Callback;
  Patch : Callback;
  Options : Callback;
  HandlerFunc : string → World → list op * bool;
  MethodByName : string → option Callback;
  Render : World → list op * option PanicVal;
  Finish : Callback
}.

(** Code of the framework that [router.go] calls and does not define. *)
Record Collaborators := {
  AddRouter : Tree → string → runObject → Tree;
  Match : Tree → string → option runObject * option (gmap string string);
  ValidRouter : FilterRouter → string → bool * option (gmap string string);
  serverStaticRouter : Callback;
  SessionStart : World → list op * option string;   (* [None]: an error *)
  SessionRelease : Callback;
  IsUpload : Request → bool;
  CopyBody : Callback;
  ParseFormOrMulitForm : Callback;
  Query : Request → Context → string → string;
  exception : string → Callback;
  controllers : reflectType → option Controller;
  FilterMonitorFunc : Request → bool;
  Callers : list string;                (* [runtime.Caller(i)], i = 1, 2, ..., as file:line *)
  showErr : PanicVal → string → Callback
}.

(** Calling a nil function or a method of a nil interface *)
Definition nil_dereference : PanicVal :=
  PanicText "runtime error: invalid memory address or nil pointer dereference".

Definition nil_Callback : Callback := λ _, [OPanic nil_dereference].
Definition nil_RawHandler : RawHandler := λ _, ([], Some nil_dereference).

(** A value of type [interface{}] given as an option or a parameter. *)
Inductive GoValue :=
  | VString (s : string)
  | VInt (z : Z)
  | VBool (b : bool).

(** [fmt.Sprint] *)
Definition SprintValue (v : GoValue) : string :=
  match v with
  | VString s => s
  | VInt z => GoStr.ItoaZ z
  | VBool b => if b then "true" else "false"
  end.

(** default log filter static file will not show *)
Definition logFilter_Filter (static_dir : list string) (r : Request) (_ : Context) : bool :=
  let requestPath := GoStr.Clean (URLPath r) in
  if String.eqb requestPath "/favicon.ico" || String.eqb requestPath "/robots.txt" then true
  else existsb (λ prefix, GoStr.HasPrefix requestPath prefix) static_dir.

(** ** Registration *)

Section Registration.
Context (cfg : Config) (C : Collaborators).

Definition addToRouter (p : ControllerRegister) (method pattern : string)
    (r : controllerInfo) : ControllerRegister :=
  let pattern := if negb (RouterCaseSensitive cfg) then GoStr.ToLower pattern else pattern in
  match routers p !! method with
  | Some t =>
      {| routers := <[method := AddRouter C t pattern (RObjController r)]> (routers p);
         enableFilter := enableFilter p; filters := filters p |}
  | None =>
      {| routers := <[method := AddRouter C NewTree pattern (RObjController r)]> (routers p);
         enableFilter := enableFilter p; filters := filters p |}
  end.

(** [AddMethod] add http method router.  A method that is not supported
    panics ([None]). *)
Definition AddMethod (p : ControllerRegister) (method pattern : string)
    (f : Callback) : option ControllerRegister :=
  if negb (String.eqb method "*") && negb (bool_decide (is_Some (HTTPMETHOD !! GoStr.ToUpper method)))
  then None
  else
    let methods : gmap string string :=
      if String.eqb method "*" then HTTPMETHOD
      else {[ GoStr.ToUpper method := GoStr.ToUpper method ]} in
    let route := {| pattern := pattern; controllerType := None; methods := methods;
                    handler := nil_RawHandler; runFunction := f;
                    routerType := routerTypeRESTFul |} in
    Some (foldl (λ p k,
                   if String.eqb k "*"
                   then foldl (λ p m, addToRouter p m pattern route) p HTTPMETHOD_list
                   else addToRouter p k pattern route)
                p (map fst (map_to_list methods))).

(** [Handler] add user defined Handler *)
Definition Handler (p : ControllerRegister) (pattern : string) (h : RawHandler)
    (options : list GoValue) : ControllerRegister :=
  let route := {| pattern := pattern; controllerType := None; methods := ∅;
                  handler := h; runFunction := nil_Callback;
                  routerType := routerTypeHandler |} in
  let pattern :=
    match options with
    | VBool _ :: _ => GoStr.PathJoin [pattern; "?:all"]
    | _ => pattern
    end in
  foldl (λ p m, addToRouter p m pattern route) p HTTPMETHOD_list.

(** add Filter into *)
Definition insertFilterRouter (p : ControllerRegister) (pos : Z)
    (mr : FilterRouter) : ControllerRegister :=
  {| routers := routers p;
     enableFilter := true;
     filters := <[pos := (default [] (filters p !! pos) ++ [mr])%list]> (filters p) |}.

(** [InsertFilter] Add a FilterFunc with pattern rule and action constant.
    The bool params is for setting the returnOnOutput value. *)
Definition InsertFilter (p : ControllerRegister) (pattern : string) (pos : Z)
    (filter : Callback) (params : list bool) : ControllerRegister :=
  let mr_pattern := pattern in
  let pattern := if negb (RouterCaseSensitive cfg) then GoStr.ToLower pattern else pattern in
  let mr := {| filterFunc := filter;
               tree := AddRouter C NewTree pattern (RObjBool true);
               filter_pattern := mr_pattern;
               returnOnOutput := match params with [] => true | b :: _ => b end |} in
  insertFilterRouter p pos mr.

End Registration.

(** ** The reverse resolver *)

(** The order in which [range] visits a Go map is not fixed by the
    language.  It is a parameter of the model: any enumeration of the
    entries of the map. *)
Record RangeOrder := {
  range_of : ∀ {V : Type}, gmap string V → list (string * V);
  range_of_perm : ∀ (V : Type) (m : gmap string V), range_of m ≡ₚ map_to_list m
}.

Section Reverse.
Context (R : RangeOrder).

Definition tourl (params : gmap string string) : string :=
  if decide (size params = 0) then ""
  else
    GoStr.TrimRight
      (foldl (λ u kv, u ++ fst kv ++ "=" ++ snd kv ++ "&") "?" (range_of R params)) "&".

(** Whether the leaf's route answers to [methodName] (the variable [find]). *)
Definition leaf_find (c : controllerInfo) (methodName httpMethod : string) : bool :=
  let find :=
    if bool_decide (is_Some (HTTPMETHOD !! GoStr.ToUpper methodName)) then
      if decide (size (methods c) = 0) then true
      else if bool_decide (methods c !! GoStr.ToUpper methodName = Some (GoStr.ToUpper methodName))
      then true
      else bool_decide (methods c !! "*" = Some methodName)
    else false in
  if find then true
  else
    existsb (λ kv, (String.eqb (fst kv) "*" || String.eqb (fst kv) httpMethod)
                   && String.eqb (snd kv) methodName)
            (map_to_list (methods c)).

(** The loop over the wildcards of a leaf without regexp: [None] is the
    [return false, ""] of the loop, otherwise the url and what is left of
    the parameters.  The parameters consumed are deleted in both cases. *)
Fixpoint fill_wildcards (ws : list string) (canskip : bool) (url : string)
    (params : gmap string string) : option string * gmap string string :=
  match ws with
  | [] => (Some url, params)
  | v :: ws' =>
      if String.eqb v ":" then fill_wildcards ws' true url params
      else
        match params !! v with
        | Some u =>
            fill_wildcards ws' canskip (GoStr.Replace url urlPlaceholder u 1) (delete v params)
        | None =>
            if canskip then fill_wildcards ws' false url params
            else (None, params)
        end
  end.

(** The loop over the source of the regexp.  The outer [None] is the panic
    of [l.wildcards[i]] out of range. *)
Fixpoint fill_regexp (src : string) (ws : list string) (i : nat) (startreg : bool)
    (regurl : string) (params : gmap string string) : option (string * gmap string string) :=
  match src with
  | EmptyString => Some (regurl, params)
  | String v src' =>
      if Ascii.eqb v "("%char then fill_regexp src' ws i true regurl params
      else if Ascii.eqb v ")"%char then
        match ws !! i with
        | None => None
        | Some name =>
            match params !! name with
            | Some x => fill_regexp src' ws (S i) false (regurl ++ x) (delete name params)
            | None => Some (regurl, params)
            end
        end
      else if negb startreg then
        fill_regexp src' ws i startreg (regurl ++ String v EmptyString) params
      else fill_regexp src' ws i startreg regurl params
  end.

(** What one leaf does once [find] holds.  [None]: a panic.  Otherwise
    [Some (Some r)] returns [r] from [geturl] and [Some None] goes on to the
    next leaf; the parameters are those left in the shared map. *)
Definition fill_leaf (l : leafInfo) (url : string) (params : gmap string string)
    : option (option (bool * string) * gmap string string) :=
  match regexps l with
  | None =>
      match wildcards l with
      | [] =>
          Some (Some (true, GoStr.Replace url ("/" ++ urlPlaceholder) "" 1 ++ tourl params), params)
      | [w0] =>
          match params !! w0 with
          | Some v =>
              let params := delete w0 params in
              Some (Some (true, GoStr.Replace url urlPlaceholder v 1 ++ tourl params), params)
          | None => Some (Some (false, ""), params)
          end
      | ws =>
          let both :=
            if bool_decide (List.length ws = 3) && bool_decide (ws !! 0 = Some ".") then
              match params !! ":path", params !! ":ext" with
              | Some p, Some e => Some (p, e)
              | _, _ => None
              end
            else None in
          match both with
          | Some (p, e) =>
              let params := delete ":ext" (delete ":path" params) in
              Some (Some (true, GoStr.Replace url urlPlaceholder (p ++ "." ++ e) (-1)
                                ++ tourl params), params)
          | None =>
              match fill_wildcards ws false url params with
              | (Some url, params) => Some (Some (true, url ++ tourl params), params)
              | (None, params) => Some (Some (false, ""), params)
              end
          end
      end
  | Some rx =>
      match fill_regexp (GoStr.Trim (rx_String rx) "^$") (wildcards l) 0 false "" params with
      | None => None
      | Some (regurl, params) =>
          if rx_MatchString rx regurl then
            let url := foldl (λ url p, GoStr.Replace url urlPlaceholder p 1) url
                             (GoStr.Split regurl "/"%char) in
            Some (Some (true, url ++ tourl params), params)
          else Some (None, params)
      end
  end.

(** Whether the leaf holds a controller route of the type [controllName]
    names.  [None]: the panic of a method call on a nil [reflect.Type]. *)
Definition leaf_controller (l : leafInfo) (controllName : string) : option (option controllerInfo) :=
  match leaf_runObject l with
  | RObjController c =>
      if negb (routerType c =? routerTypeBeego)%Z then Some None
      else
        match controllerType c with
        | None => None
        | Some t =>
            if GoStr.HasSuffix (GoStr.PathJoin [PkgPath t; Name t]) controllName
            then Some (Some c) else Some None
        end
  | _ => Some None
  end.

Fixpoint geturl_leaves (ls : list leafInfo) (url controllName methodName : string)
    (params : gmap string string) (httpMethod : string)
    : option (bool * string * gmap string string) :=
  match ls with
  | [] => Some (false, "", params)
  | l :: ls' =>
      match leaf_controller l controllName with
      | None => None
      | Some None => geturl_leaves ls' url controllName methodName params httpMethod
      | Some (Some c) =>
          if leaf_find c methodName httpMethod then
            match fill_leaf l url params with
            | None => None
            | Some (Some (ok, u), params) => Some (ok, u, params)
            | Some (None, params) =>
                geturl_leaves ls' url controllName methodName params httpMethod
            end
          else geturl_leaves ls' url controllName methodName params httpMethod
      end
  end.

(** [geturl]: the result of the Go function and the shared map [params] as
    the call leaves it; [None] is a panic. *)
Fixpoint geturl (t : Tree) (url controllName methodName : string)
    (params : gmap string string) (httpMethod : string)
    : option (bool * string * gmap string string) :=
  match t with
  | mkTree fix_ wild ls =>
      let after_wild params :=
        match wild with
        | Some wt =>
            match geturl wt (GoStr.PathJoin [url; urlPlaceholder]) controllName methodName
                         params httpMethod with
            | None => None
            | Some (true, u, params) => Some (true, u, params)
            | Some (false, _, params) =>
                geturl_leaves ls url controllName methodName params httpMethod
            end
        | None => geturl_leaves ls url controllName methodName params httpMethod
        end in
      (fix over_fix (l : list (string * Tree)) (params : gmap string string) :=
         match l with
         | [] => after_wild params
         | (k, subtree) :: l' =>
             match geturl subtree (GoStr.PathJoin [url; k]) controllName methodName
                          params httpMethod with
             | None => None
             | Some (true, u, params) => Some (true, u, params)
             | Some (false, _, params) => over_fix l' params
             end
         end) fix_ params
  end.

(** The map [URLFor] builds from its key-value arguments. *)
Fixpoint url_values (values : list GoValue) (params : gmap string string) : gmap string string :=
  match values with
  | k :: v :: rest => url_values rest (<[SprintValue k := SprintValue v]> params)
  | _ => params
  end.

Fixpoint URLFor_routers (l : list (string * Tree)) (controllName methodName : string)
    (params : gmap string string) : option string :=
  match l with
  | [] => Some ""
  | (m, t) :: l' =>
      match geturl t "/" controllName methodName params m with
      | None => None
      | Some (true, url, _) => Some url
      | Some (false, _, params) => URLFor_routers l' controllName methodName params
      end
  end.

(** [URLFor]: [None] is a panic. *)
Definition URLFor (p : ControllerRegister) (endpoint : string) (values : list GoValue)
    : option string :=
  let paths := GoStr.Split endpoint "."%char in
  if bool_decide (List.length paths ≤ 1)%nat then Some ""
  else if negb (List.length values mod 2 =? 0)%nat then Some ""
  else
    let params := url_values values ∅ in
    let controllName := GoStr.Join (take (List.length paths - 1) paths) "/" in
    let methodName := default "" (last paths) in
    URLFor_routers (range_of R (routers p)) controllName methodName params.

End Reverse.

(** ** The dispatcher *)

(** The local variables of [ServeHTTP] that live to the label [Admin]. *)
Record Locals := {
  runrouter : option reflectType;
  findrouter : bool;
  runMethod : string;
  routerInfo : option controllerInfo
}.

Definition Locals0 : Locals :=
  {| runrouter := None; findrouter := false; runMethod := ""; routerInfo := None |}.

(** [defer d] around [m]: [d] runs when [m] ends, normally or not; a panic
    of [d] replaces the one in flight. *)
Definition defer {A} (d : M unit) (m : M A) : M A :=
  λ s, match m s with
       | Ok a s' =>
           match d s' with
           | Ok _ s'' => Ok a s''
           | Panicked e s'' => Panicked e s''
           end
       | Panicked e s' =>
           match d s' with
           | Ok _ s'' => Panicked e s''
           | Panicked e' s'' => Panicked e' s''
           end
       end.

(** [http.Error(w, error, code)] of the Go library *)
Definition http_Error (error : string) (code : Z) : M unit :=
  exec_ops [OHeaderSet "Content-Type" "text/plain; charset=utf-8";
            OHeaderSet "X-Content-Type-Options" "nosniff";
            OWriteHeader code;
            OWrite (error ++ String (ascii_of_nat 10) EmptyString)].

(** The positional keys of a [:splat] value *)
Definition explode_splat (p : option (gmap string string)) : option (gmap string string) :=
  match p with
  | None => None
  | Some m =>
      match m !! ":splat" with
      | Some splat =>
          Some (foldl (λ m kv, <[GoStr.Itoa (fst kv) := snd kv]> m) m
                      (imap (λ k v, (k, v)) (GoStr.Split splat "/"%char)))
      | None => Some m
      end
  end.

Section Dispatcher.
Context (cfg : Config) (C : Collaborators) (R : RangeOrder).
Context (p : ControllerRegister) (r : Request).

Definition urlPath : string :=
  if negb (RouterCaseSensitive cfg) then GoStr.ToLower (URLPath r) else URLPath r.

(** [context.Input.Params[k] = v] for the parameters a filter captured *)
Definition merge_params (params : option (gmap string string)) (c : Context) : Context :=
  match params with
  | None => c
  | Some m =>
      foldl (λ c kv, with_Params (Some (<[fst kv := snd kv]> (default ∅ (Params c)))) c)
            c (range_of R m)
  end.

Fixpoint doFilter_loop (pos : Z) (l : list FilterRouter) : M bool :=
  match l with
  | [] => mret false
  | filterR :: l' =>
      s ← get;
      if returnOnOutput filterR && started (w s) then mret true
      else
        (if fst (ValidRouter C filterR urlPath) then
           set_context (merge_params (snd (ValidRouter C filterR urlPath))) ;;
           log (EvFilter pos (filter_pattern filterR)) ;;
           run (filterFunc filterR)
         else mret tt) ;;
        s ← get;
        if returnOnOutput filterR && started (w s) then mret true
        else doFilter_loop pos l'
  end.

(** defined filter function *)
Definition doFilter (pos : Z) : M bool :=
  if enableFilter p then
    match filters p !! pos with
    | Some l => doFilter_loop pos l
    | None => mret false
    end
  else mret false.

(** The write to the writer of the host at the end of [ServeHTTP]: it does
    not go through the wrapper. *)
Definition host_WriteHeader (code : Z) (x : responseWriter) : responseWriter :=
  {| writer := host_call (WWriteHeader code) (writer x); started := started x; status := status x |}.

(** The code from the label [Admin] on *)
Definition Admin (L : Locals) : M unit :=
  log EvAdmin ;;
  (if EnableAdmin cfg then
     if FilterMonitorFunc C r then
       log (EvStatistics (Method r) (URLPath r)
              (match runrouter L with Some t => Name t | None => "" end))
     else mret tt
   else mret tt) ;;
  (if String.eqb (RunMode cfg) "dev" || AccessLogs cfg then
     s ← get;
     let devinfo :=
       if findrouter L then
         match routerInfo L with
         | Some ri => EvDebug (Method r) (URLPath r) "match" (Some (pattern ri))
         | None => EvDebug (Method r) (URLPath r) "match" None
         end
       else EvDebug (Method r) (URLPath r) "notmatch" None in
     match DefaultAccessLogFilter cfg with
     | None => log devinfo
     | Some f => if negb (f r (context s)) then log devinfo else mret tt
     end
   else mret tt) ;;
  (* Call WriteHeader if status code has been set changed *)
  s ← get;
  if negb (Status (context s) =? 0)%Z then
    set_w (host_WriteHeader (Status (context s))) ;;
    log (EvFinalHeader (Status (context s)))
  else mret tt.

(** [recoverPanic], given what [recover()] returns *)
Definition recoverPanic (err : option PanicVal) : M unit :=
  match err with
  | None => mret tt
  | Some err =>
      if is_ErrAbort err then mret tt
      else if negb (RecoverPanic cfg) then panic err
      else if EnableErrorsShow cfg && bool_decide (Sprint err ∈ ErrorMaps cfg) then
        log (EvException (Sprint err)) ;;
        run (exception C (Sprint err))
      else
        log (EvCritical "the request url is ") ;;
        log (EvCritical ("Handler crashed with error" ++ Sprint err)) ;;
        foldr (λ frame k, log (EvCritical frame) ;; k) (mret tt) (Callers C) ;;
        let stack := foldl (λ stack frame, stack ++ frame ++ String (ascii_of_nat 10) EmptyString)
                           "" (Callers C) in
        if String.eqb (RunMode cfg) "dev" then
          log EvShowErr ;;
          run (showErr C err stack)
        else mret tt
  end.

(** The verb the trie is chosen by, and the verb a controller's method map
    is read with: a POST whose [_method] is PUT or DELETE counts as that. *)
Definition override_method (c : Context) : string :=
  let httpMethod := Method r in
  let httpMethod :=
    if String.eqb httpMethod "POST" && String.eqb (Query C r c "_method") "PUT"
    then "PUT" else httpMethod in
  if String.eqb httpMethod "POST" && String.eqb (Query C r c "_method") "DELETE"
  then "DELETE" else httpMethod.

(** The block [if !findrouter { ... }] *)
Definition lookup (L : Locals) : M Locals :=
  s ← get;
  let httpMethod := override_method (context s) in
  match routers p !! httpMethod with
  | Some t =>
      log (EvMatch httpMethod urlPath) ;;
      match fst (Match C t urlPath) with
      | Some (RObjController ri) =>
          let params := explode_splat (snd (Match C t urlPath)) in
          (match params with
           | Some _ => set_context (with_Params params)
           | None => mret tt
           end) ;;
          mret {| runrouter := runrouter L; findrouter := true;
                  runMethod := runMethod L; routerInfo := Some ri |}
      | _ => mret L
      end
  | None => mret L
  end.

(** The block [if !isRunable { ... }]: the life of a controller *)
Definition run_controller (L : Locals) : M unit :=
  match runrouter L with
  | None => panic (PanicText "reflect: New(nil)")
  | Some t =>
      match controllers C t with
      | None => panic (PanicText "controller is not ControllerInterface")
      | Some ec =>
          let ph x := log (EvController t (runMethod L) x) in
          ph PhInit ;; run (Init ec (Name t) (runMethod L)) ;;
          ph PhPrepare ;; run (Prepare ec) ;;
          (if EnableXSRF cfg then
             ph PhXSRFToken ;; run (XSRFToken ec) ;;
             s ← get;
             let q := Query C r (context s) "_method" in
             if String.eqb (Method r) "POST" || String.eqb (Method r) "DELETE"
                || String.eqb (Method r) "PUT"
                || (String.eqb (Method r) "POST"
                    && (String.eqb q "DELETE" || String.eqb q "PUT"))
             then ph PhCheckXSRFCookie ;; run (CheckXSRFCookie ec)
             else mret tt
           else mret tt) ;;
          ph PhURLMapping ;; run (URLMapping ec) ;;
          s ← get;
          (if negb (started (w s)) then
             (if String.eqb (runMethod L) "GET" then ph PhGet ;; run (Get ec)
              else if String.eqb (runMethod L) "POST" then ph PhPost ;; run (Post ec)
              else if String.eqb (runMethod L) "DELETE" then ph PhDelete ;; run (Delete ec)
              else if String.eqb (runMethod L) "PUT" then ph PhPut ;; run (Put ec)
              else if String.eqb (runMethod L) "HEAD" then ph PhHead ;; run (Head ec)
              else if String.eqb (runMethod L) "PATCH" then ph PhPatch ;; run (Patch ec)
              else if String.eqb (runMethod L) "OPTIONS" then ph PhOptions ;; run (Options ec)
              else
                ph PhHandlerFunc ;;
                done ← run_ret (HandlerFunc ec (runMethod L));
                if negb done then
                  match MethodByName ec (runMethod L) with
                  | Some f => ph PhCall ;; run f
                  | None => panic (PanicText "reflect: call of reflect.Value.Call on zero Value")
                  end
                else mret tt) ;;
             (* render template *)
             s ← get;
             if negb (started (w s)) && (Status (context s) =? 0)%Z then
               if AutoRender cfg then
                 ph PhRender ;;
                 err ← run_ret (Render ec);
                 match err with
                 | Some e => panic e
                 | None => mret tt
                 end
               else mret tt
             else mret tt
           else mret tt) ;;
          (* finish all runrouter. release resource *)
          ph PhFinish ;; run (Finish ec)
      end
  end.

(** From the after-exec filters to the end *)
Definition after_exec (L : Locals) : M unit :=
  stop ← doFilter AfterExec;
  if (stop : bool) then Admin L
  else doFilter FinishRouter ;; Admin L.

(** The block [if findrouter { ... }], after the before-exec filters *)
Definition dispatch (L : Locals) : M unit :=
  match routerInfo L with
  | Some ri =>
      if (routerType ri =? routerTypeRESTFul)%Z then
        if bool_decide (is_Some (methods ri !! Method r)) then
          log (EvRunFunction (pattern ri)) ;;
          run (runFunction ri) ;;
          after_exec L
        else
          log (EvException "405") ;;
          run (exception C "405") ;;
          Admin L
      else if (routerType ri =? routerTypeHandler)%Z then
        log (EvHandler (pattern ri)) ;;
        run_raw (handler ri) ;;
        after_exec L
      else
        s ← get;
        let method := override_method (context s) in
        let m :=
          match methods ri !! method with
          | Some m => m
          | None => match methods ri !! "*" with Some m => m | None => method end
          end in
        let L := {| runrouter := controllerType ri; findrouter := findrouter L;
                    runMethod := m; routerInfo := routerInfo L |} in
        run_controller L ;;
        after_exec L
  | None =>
      run_controller L ;;
      after_exec L
  end.

(** The block [if findrouter { ... }] *)
Definition found (L : Locals) : M unit :=
  (* execute middleware filters *)
  stop ← doFilter BeforeExec;
  if (stop : bool) then Admin L
  else dispatch L.

(** What a filter may have resolved: [RunController] and [RunMethod] *)
Definition resolved_by_filter (c : Context) : Locals :=
  match RunController c with
  | Some t =>
      if negb (String.eqb (RunMethod c) "") then
        {| runrouter := Some t; findrouter := true;
           runMethod := RunMethod c; routerInfo := None |}
      else Locals0
  | None => Locals0
  end.

(** From the end of the before-router filters on *)
Definition resolve : M unit :=
  s ← get;
  let L := resolved_by_filter (context s) in
  L ← (if negb (findrouter L) then lookup L else mret L);
  (* if no matches to url, throw a not found exception *)
  if negb (findrouter L) then
    log (EvException "404") ;;
    run (exception C "404") ;;
    Admin L
  else found L.

(** The before-router filters and what follows them *)
Definition before_router : M unit :=
  stop ← doFilter BeforeRouter;
  if (stop : bool) then Admin Locals0
  else resolve.

(** From the parsing of the form on: the part of [ServeHTTP] that runs
    with the session acquired, when sessions are on *)
Definition route : M unit :=
  (if negb (String.eqb (Method r) "GET") && negb (String.eqb (Method r) "HEAD") then
     (if CopyRequestBody cfg && negb (IsUpload C r)
      then log EvCopyBody ;; run (CopyBody C) else mret tt) ;;
     log EvParseForm ;; run (ParseFormOrMulitForm C)
   else mret tt) ;;
  before_router.

(** [ServeHTTP] between the [defer] of [recoverPanic] and its return *)
Definition ServeHTTP_body : M unit :=
  (* filter wrong httpmethod *)
  if negb (bool_decide (is_Some (HTTPMETHOD !! Method r))) then
    http_Error "Method Not Allowed" 405 ;;
    Admin Locals0
  else
    (* filter for static file *)
    stop ← doFilter BeforeStatic;
    if (stop : bool) then Admin Locals0
    else
      log EvStatic ;;
      run (serverStaticRouter C) ;;
      s ← get;
      if started (w s) then
        Admin {| runrouter := None; findrouter := true; runMethod := ""; routerInfo := None |}
      else if SessionOn cfg then
        (* session init *)
        log EvSessionStart ;;
        sess ← run_ret (SessionStart C);
        set_context (with_CruSession sess) ;;
        match sess with
        | None =>
            log EvError ;;
            log (EvException "503") ;;
            run (exception C "503")
        | Some _ =>
            defer (log EvSessionRelease ;; run (SessionRelease C)) route
        end
      else route.

Definition Context0 : Context :=
  {| Params := None; RunController := None; RunMethod := ""; Status := 0; CruSession := None |}.

(** The state [ServeHTTP] starts in: [w := &responseWriter{writer: rw}] *)
Definition World0 (rw : hostWriter) : World :=
  {| w := {| writer := rw; started := false; status := 0 |};
     context := Context0; trace := [] |}.

(** Implement http.Handler interface. *)
Definition ServeHTTP (rw : hostWriter) : Outcome unit :=
  match
    ((if String.eqb (RunMode cfg) "dev"
      then set_w (Header_Set "Server" (BeegoServerName cfg)) else mret tt) ;;
     ServeHTTP_body) (World0 rw)
  with
  | Ok _ s => Ok tt s
  | Panicked e s => recoverPanic (Some e) s
  end.

End Dispatcher.

(** ** An instance of the collaborators

    [tree.go], [filter.go] and the error pages are not part of [router.go].
    The examples below run the router against this small instance. *)
Module Toy.

(** Modelled from the spec: the Path Trie of [tree.go], for patterns made
    of literal segments, [:name] segments and a final catch-all ([*], or the
    [?:all] that [Handler] appends, which may also be absent).  Literal
    children come before the wildcard child, leaves in registration order. *)
Definition segments (path : string) : list string :=
  filter (λ e, e ≠ "") (GoStr.Split path "/"%char).

Fixpoint add_fix (k : string) (f : Tree → Tree) (l : list (string * Tree)) : list (string * Tree) :=
  match l with
  | [] => [(k, f NewTree)]
  | (k', t) :: l' => if String.eqb k k' then (k', f t) :: l' else (k', t) :: add_fix k f l'
  end.

Fixpoint add_segs (segs ws : list string) (obj : runObject) (t : Tree) : Tree :=
  match segs with
  | [] =>
      mkTree (fixrouters t) (wildcard t)
             (leaves t ++ [{| wildcards := ws; regexps := None; leaf_runObject := obj |}])
  | seg :: rest =>
      if String.eqb seg "*" then
        mkTree (fixrouters t)
               (Some (add_segs rest (ws ++ [":splat"]) obj (default NewTree (wildcard t))))
               (leaves t)
      else if String.eqb seg "?:all" then
        mkTree (fixrouters t)
               (Some (add_segs rest (ws ++ [":"; ":splat"]) obj (default NewTree (wildcard t))))
               (leaves t ++ [{| wildcards := ws ++ [":"; ":splat"]; regexps := None;
                                 leaf_runObject := obj |}])
      else if GoStr.HasPrefix seg ":" then
        mkTree (fixrouters t)
               (Some (add_segs rest (ws ++ [seg]) obj (default NewTree (wildcard t))))
               (leaves t)
      else
        mkTree (add_fix seg (add_segs rest ws obj) (fixrouters t)) (wildcard t) (leaves t)
  end.

Definition AddRouter (t : Tree) (pattern : string) (obj : runObject) : Tree :=
  add_segs (segments pattern) [] obj t.

(** The parameters of a leaf: its names bound to the values captured on the
    way, a final [:splat] taking all the values that are left. *)
Fixpoint bind_names (names vals : list string) (m : gmap string string)
    : option (gmap string string) :=
  match names, vals with
  | [], [] => Some m
  | [":splat"], _ => Some (<[":splat" := GoStr.Join vals "/"]> m)
  | n :: names', v :: vals' => bind_names names' vals' (<[n := v]> m)
  | _, _ => None
  end.

Definition match_leaf (vals : list string) (l : leafInfo)
    : option (runObject * option (gmap string string)) :=
  match filter (λ n, n ≠ ":") (wildcards l), vals with
  | [], [] => Some (leaf_runObject l, None)
  | names, _ =>
      match bind_names names vals ∅ with
      | Some m => Some (leaf_runObject l, Some m)
      | None => None
      end
  end.

Fixpoint match_leaves (ls : list leafInfo) (vals : list string)
    : option (runObject * option (gmap string string)) :=
  match ls with
  | [] => None
  | l :: ls' =>
      match match_leaf vals l with
      | Some x => Some x
      | None => match_leaves ls' vals
      end
  end.

Fixpoint find_fix (k : string) (l : list (string * Tree)) : option Tree :=
  match l with
  | [] => None
  | (k', t) :: l' => if String.eqb k k' then Some t else find_fix k l'
  end.

Fixpoint match_segs (segs vals : list string) (t : Tree)
    : option (runObject * option (gmap string string)) :=
  match segs with
  | [] => match_leaves (leaves t) vals
  | seg :: rest =>
      let by_wildcard :=
        match wildcard t with
        | Some wt =>
            match match_segs rest (vals ++ [seg]) wt with
            | Some x => Some x
            | None => match_leaves (leaves wt) (vals ++ seg :: rest)
            end
        | None => None
        end in
      match find_fix seg (fixrouters t) with
      | Some child =>
          match match_segs rest vals child with
          | Some x => Some x
          | None => by_wildcard
          end
      | None => by_wildcard
      end
  end.

Definition Match (t : Tree) (path : string) : option runObject * option (gmap string string) :=
  match path with
  | String "/" _ =>
      match match_segs (segments path) [] t with
      | Some (obj, params) => (Some obj, params)
      | None => (None, None)
      end
  | _ => (None, None)
  end.

(** Modelled from the spec: [ValidRouter] of [filter.go], a filter's pattern
    matched like a route. *)
Definition ValidRouter (f : FilterRouter) (url : string) : bool * option (gmap string string) :=
  match Match (tree f) url with
  | (Some (RObjBool b), params) => (b, params)
  | _ => (false, None)
  end.

(** Modelled from the spec: the error page of [exception], which writes the
    status and the code. *)
Definition exception (code : string) : Callback :=
  λ _, [OWriteHeader (if String.eqb code "404" then 404
                      else if String.eqb code "405" then 405 else 503);
        OWrite code].

Definition silent : Callback := λ _, [].

Definition collaborators (ctrl : reflectType → option Controller) : Collaborators :=
  Build_Collaborators
    AddRouter Match ValidRouter
    silent                                  (* serverStaticRouter *)
    (λ _, ([], Some "sid"))                 (* SessionStart *)
    silent                                  (* SessionRelease *)
    (λ _, false)                            (* IsUpload *)
    silent silent                           (* CopyBody, ParseFormOrMulitForm *)
    (λ r _ key, default "" (Form r !! key)) (* Query *)
    exception
    ctrl
    (λ _, true)                             (* FilterMonitorFunc *)
    ["router.go:600"]                       (* Callers *)
    (λ _ stack _, [OWrite stack]).          (* showErr *)

Definition config : Config :=
  {| RouterCaseSensitive := false; RunMode := "prod"; BeegoServerName := "beegoServer";
     SessionOn := false; CopyRequestBody := false; EnableXSRF := false;
     AutoRender := false; EnableAdmin := false; AccessLogs := false;
     RecoverPanic := true; EnableErrorsShow := true;
     ErrorMaps := {["404"; "405"; "503"]}; StaticDir := ["/static"];
     DefaultAccessLogFilter := Some (logFilter_Filter ["/static"]) |}.

(** [range] in the order of [map_to_list] *)
Definition range : RangeOrder :=
  {| range_of := λ V m, map_to_list m;
     range_of_perm := λ V m, reflexivity (map_to_list m) |}.

Definition host : hostWriter := {| calls := []; is_hijacker := false; is_flusher := true |}.

End Toy.

(** ** Notions the properties are stated with, and the data of the examples *)

(** [preserves I m]: the state [m] ends in, normally or by a panic,
    satisfies [I] when the state it starts in does. *)
Definition preserves {A} (I : World → Prop) (m : M A) : Prop :=
  ∀ s, I s → I (world_of (m s)).

(** A function on the wrapper that never takes [started] back *)
Definition keeps_started (f : responseWriter → responseWriter) : Prop :=
  ∀ x, started x = true → started (f x) = true.

(** [Stable Q I]: [I] survives the three ways the state changes, the log
    of an event in [Q], a step of the wrapper that keeps [started], and any
    change of the context. *)
Record Stable (Q : Event → Prop) (I : World → Prop) : Prop := {
  stable_log : ∀ e, Q e → preserves I (log e);
  stable_w : ∀ f, keeps_started f → preserves I (set_w f);
  stable_context : ∀ f, preserves I (set_context f)
}.

(** The events of the code from [Admin] on, and of user code *)
Definition admin_event (e : Event) : Prop :=
  match e with
  | EvAdmin | EvStatistics _ _ _ | EvDebug _ _ _ _ | EvFinalHeader _ => True
  | _ => False
  end.

Definition op_event (e : Event) : Prop :=
  match e with EvOp _ => True | _ => False end.

Definition filter_event (pos : Z) (e : Event) : Prop :=
  match e with EvFilter pos' _ => pos' = pos | _ => False end.

(** The values of [started] seen along a trace never go from true to false. *)
Definition started_sorted (t : list Obs) : Prop :=
  ∀ i j a b, (i ≤ j)%nat → t !! i = Some a → t !! j = Some b →
             at_started a = true → at_started b = true.

Definition started_inv (s : World) : Prop :=
  started_sorted (trace s)
  ∧ ∀ o, o ∈ trace s → at_started o = true → started (w s) = true.

(** A raw handler that writes to the host; a request without form values *)
Definition raw_file : RawHandler := λ _, ([WWrite "file"], None).

Definition request (method path : string) : Request :=
  {| Method := method; URLPath := path; Form := ∅ |}.

(** The state [s] after the events [es] were logged in it *)
Definition observed (s : World) (e : Event) : Obs :=
  {| ev := e; at_started := started (w s) |}.

Definition logged (s : World) (es : list Event) : World :=
  {| w := w s; context := context s; trace := trace s ++ map (observed s) es |}.

(** The text [recoverPanic] gives to [showErr]: the frames, one per line *)
Definition stack_of (frames : list string) : string :=
  foldl (λ stack frame, stack ++ frame ++ String (ascii_of_nat 10) EmptyString) "" frames.

(** User code of the examples, and the routes they register *)
Definition hello : Callback := λ _, [OWrite "hello"].
Definition created : Callback := λ _, [OSetStatus 201; OWriteHeader 201].

Definition routes_of (o : option ControllerRegister) : ControllerRegister :=
  default NewControllerRegister o.

(** [extends_with Q s0 s]: the trace of [s] is the trace of [s0] followed by
    events of [Q] only. *)
Definition extends_with (Q : Event → Prop) (s0 s : World) : Prop :=
  ∃ l, trace s = (trace s0 ++ l)%list ∧ Forall (λ o, Q (ev o)) l.

Definition page_routes (halt : bool) : ControllerRegister :=
  let C := Toy.collaborators (λ _, None) in
  let p := routes_of (AddMethod Toy.config C NewControllerRegister "get" "/page" Toy.silent) in
  let p := InsertFilter Toy.config C p "/page" AfterExec hello [halt] in
  InsertFilter Toy.config C p "/page" FinishRouter Toy.silent [false].

Definition about_routes : ControllerRegister :=
  let C := Toy.collaborators (λ _, None) in
  let p := routes_of (AddMethod Toy.config C NewControllerRegister "get" "/about" hello) in
  InsertFilter Toy.config C p "/:name" BeforeRouter Toy.silent [].

(** The events of the trie lookup and of the handlers of routes *)
Definition lookup_event (e : Event) : Prop :=
  match e with EvMatch _ _ => True | _ => False end.

Definition handler_event (e : Event) : Prop :=
  match e with
  | EvRunFunction _ | EvHandler _ | EvController _ _ _ => True
  | _ => False
  end.

Definition maintenance : Callback := λ _, [OWriteHeader 503; OWrite "maintenance"].

Definition guarded_routes : ControllerRegister :=
  let C := Toy.collaborators (λ _, None) in
  let p := routes_of (AddMethod Toy.config C NewControllerRegister "get" "/about" hello) in
  InsertFilter Toy.config C p "/about" BeforeRouter maintenance [true].

Definition item_routes : ControllerRegister :=
  routes_of (AddMethod Toy.config (Toy.collaborators (λ _, None)) NewControllerRegister
               "put" "/item" hello).

Definition post_as_put : Request :=
  {| Method := "POST"; URLPath := "/item"; Form := {[ "_method" := "PUT" ]} |}.




(** [consumes names params params']: [params'] is [params] without some of
    the parameters named in [names]. *)
Definition consumes (names : list string) (params params' : gmap string string) : Prop :=
  params' ⊆ params ∧ ∀ k, k ∉ names → params' !! k = params !! k.



Definition user_route : controllerInfo :=
  {| pattern := "/user";
     controllerType := Some {| PkgPath := "pkg"; Name := "UserController" |};
     methods := {[ "GET" := "Get" ]};
     handler := nil_RawHandler;
     runFunction := nil_Callback;
     routerType := routerTypeBeego |}.

(** What [Add("/user", &UserController{}, "get:Get")] registers *)
Definition user_routes : ControllerRegister :=
  addToRouter Toy.config (Toy.collaborators (λ _, None)) NewControllerRegister
    "GET" "/user" user_route.

(** The query string of the claim, in its words: the parameters in the
    order they were given, as [key=value], joined by [&] after a [?]. *)
Fixpoint given_pairs (values : list GoValue) : list (string * string) :=
  match values with
  | k :: v :: rest => (SprintValue k, SprintValue v) :: given_pairs rest
  | _ => []
  end.



(** More data of the examples: the routes of a raw handler with sub-paths,
    and the tries and routes the examples look at *)
Definition no_route : controllerInfo :=
  {| pattern := ""; controllerType := None; methods := ∅; handler := nil_RawHandler;
     runFunction := nil_Callback; routerType := routerTypeHandler |}.

Definition files_routes : ControllerRegister :=
  Handler Toy.config (Toy.collaborators (λ _, None)) NewControllerRegister
    "/files" raw_file [VBool true].

Definition files_trie : Tree := default NewTree (routers files_routes !! "GET").

Definition files_route : controllerInfo :=
  match fst (Toy.Match files_trie "/files/a/b/c") with
  | Some (RObjController ri) => ri
  | _ => no_route
  end.


(** ** Registration, continued *)

(** A controller as reflection shows it: the type it points to, and the
    names of the methods of the value, in the order of [rt.Method(i)]. *)
Record ControllerValue := {
  cv_type : reflectType;
  cv_methods : list string
}.

(** these beego.Controller's methods shouldn't reflect to AutoRouter *)
Definition exceptMethod : list string :=
  ["Init"; "Prepare"; "Finish"; "Render"; "RenderString";
   "RenderBytes"; "Redirect"; "Abort"; "StopRun"; "UrlFor"; "ServeJson"; "ServeJsonp";
   "ServeXml"; "Input"; "ParseForm"; "GetString"; "GetStrings"; "GetInt"; "GetBool";
   "GetFloat"; "GetFile"; "SaveToFile"; "StartSession"; "SetSession"; "GetSession";
   "DelSession"; "SessionRegenerateID"; "DestroySession"; "IsAjax"; "GetSecureCookie";
   "SetSecureCookie"; "XsrfToken"; "CheckXsrfCookie"; "XsrfFormHtml";
   "GetControllerAndAction"].

(** [ExceptMethodAppend] to append a slice's value into "exceptMethod"; the
    package variable is passed along. *)
Definition ExceptMethodAppend (except : list string) (action : string) : list string :=
  (except ++ [action])%list.

(** [utils.InSlice] *)
Definition InSlice (v : string) (sl : list string) : bool :=
  existsb (String.eqb v) sl.

(** [strings.TrimSuffix] *)
Fixpoint drop_string (n : nat) (s : string) : string :=
  match n, s with
  | S n', String _ s' => drop_string n' s'
  | _, _ => s
  end.

Definition TrimSuffix (s suffix : string) : string :=
  if GoStr.HasSuffix s suffix
  then GoStr.reverse_string (drop_string (String.length suffix) (GoStr.reverse_string s))
  else s.

Section MoreRegistration.
Context (cfg : Config) (C : Collaborators) (R : RangeOrder).

(** [for _, m := range HTTPMETHOD { p.addToRouter(m, pattern, route) }] *)
Definition addToRouter_all (p : ControllerRegister) (pattern : string)
    (route : controllerInfo) : ControllerRegister :=
  foldl (λ p m, addToRouter cfg C p m pattern route) p HTTPMETHOD_list.

(** The loop of [Add] over the verbs of one mapping, [get,post:ApiFunc];
    [None] is a panic. *)
Fixpoint Add_comma (c : ControllerValue) (name : string) (comma : list string)
    (methods : gmap string string) : option (gmap string string) :=
  match comma with
  | [] => Some methods
  | m :: rest =>
      if String.eqb m "*" || bool_decide (is_Some (HTTPMETHOD !! GoStr.ToUpper m)) then
        if bool_decide (name ∈ cv_methods c)
        then Add_comma c name rest (<[GoStr.ToUpper m := name]> methods)
        else None          (* method doesn't exist in the controller *)
      else None            (* is an invalid method mapping *)
  end.

(** The loop of [Add] over the mappings separated by [;] *)
Fixpoint Add_semi (c : ControllerValue) (semi : list string)
    (methods : gmap string string) : option (gmap string string) :=
  match semi with
  | [] => Some methods
  | v :: rest =>
      match GoStr.Split v ":"%char with
      | [verbs; name] =>
          match Add_comma c name (GoStr.Split verbs ","%char) methods with
          | Some methods => Add_semi c rest methods
          | None => None
          end
      | _ => None          (* method mapping format is invalid *)
      end
  end.

(** The method map [Add] builds from its mapping arguments *)
Definition Add_methods (c : ControllerValue) (mappingMethods : list string)
    : option (gmap string string) :=
  match mappingMethods with
  | [] => Some ∅
  | mm :: _ => Add_semi c (GoStr.Split mm ";"%char) ∅
  end.

(** [Add] controller handler and pattern rules to ControllerRegister;
    [None] is a panic. *)
Definition Add (p : ControllerRegister) (pattern : string) (c : ControllerValue)
    (mappingMethods : list string) : option ControllerRegister :=
  match Add_methods c mappingMethods with
  | None => None
  | Some methods =>
      let route := {| pattern := pattern; controllerType := Some (cv_type c);
                      methods := methods; handler := nil_RawHandler;
                      runFunction := nil_Callback; routerType := routerTypeBeego |} in
      if decide (size methods = 0) then Some (addToRouter_all p pattern route)
      else
        Some (foldl (λ p k,
                       if String.eqb k "*" then addToRouter_all p pattern route
                       else addToRouter cfg C p k pattern route)
                    p (map fst (range_of R methods)))
  end.

(** [AddAutoPrefix] Add auto router to ControllerRegister with prefix. *)
Definition AddAutoPrefix (except : list string) (p : ControllerRegister) (prefix : string)
    (c : ControllerValue) : ControllerRegister :=
  let controllerName := TrimSuffix (Name (cv_type c)) "Controller" in
  foldl (λ p name,
           if negb (InSlice name except) then
             let pattern := GoStr.PathJoin [prefix; GoStr.ToLower controllerName;
                                            GoStr.ToLower name; "*"] in
             let patternInit := GoStr.PathJoin [prefix; controllerName; name; "*"] in
             let patternfix := GoStr.PathJoin [prefix; GoStr.ToLower controllerName;
                                               GoStr.ToLower name] in
             let patternfixInit := GoStr.PathJoin [prefix; controllerName; name] in
             let route := {| pattern := pattern; controllerType := Some (cv_type c);
                             methods := {[ "*" := name ]}; handler := nil_RawHandler;
                             runFunction := nil_Callback; routerType := routerTypeBeego |} in
             foldl (λ p m,
                      let p := addToRouter cfg C p m pattern route in
                      let p := addToRouter cfg C p m patternInit route in
                      let p := addToRouter cfg C p m patternfix route in
                      addToRouter cfg C p m patternfixInit route)
                   p HTTPMETHOD_list
           else p)
        p (cv_methods c).

(** [AddAuto] router to ControllerRegister. *)
Definition AddAuto (except : list string) (p : ControllerRegister)
    (c : ControllerValue) : ControllerRegister :=
  AddAutoPrefix except p "/" c.

End MoreRegistration.

(** The verb shortcuts of the register ([Get] add get method, ...) *)
Module Shortcut.
Section Shortcuts.
Context (cfg : Config) (C : Collaborators).
Definition Get (p : ControllerRegister) (pattern : string) (f : Callback) :=
  AddMethod cfg C p "get" pattern f.
Definition Post (p : ControllerRegister) (pattern : string) (f : Callback) :=
  AddMethod cfg C p "post" pattern f.
Definition Put (p : ControllerRegister) (pattern : string) (f : Callback) :=
  AddMethod cfg C p "put" pattern f.
Definition Delete (p : ControllerRegister) (pattern : string) (f : Callback) :=
  AddMethod cfg C p "delete" pattern f.
Definition Head (p : ControllerRegister) (pattern : string) (f : Callback) :=
  AddMethod cfg C p "head" pattern f.
Definition Patch (p : ControllerRegister) (pattern : string) (f : Callback) :=
  AddMethod cfg C p "patch" pattern f.
Definition Options (p : ControllerRegister) (pattern : string) (f : Callback) :=
  AddMethod cfg C p "options" pattern f.
Definition Any (p : ControllerRegister) (pattern : string) (f : Callback) :=
  AddMethod cfg C p "*" pattern f.
End Shortcuts.
End Shortcut.

(** ** Notions of the further properties *)

(** The pattern as [addToRouter] and [InsertFilter] hand it to the trie *)
Definition folded (cfg : Config) (pattern : string) : string :=
  if negb (RouterCaseSensitive cfg) then GoStr.ToLower pattern else pattern.

(** Every trie of the register is the trie of a supported verb. *)
Definition verbs_supported (p : ControllerRegister) : Prop :=
  ∀ m, is_Some (routers p !! m) → m ∈ HTTPMETHOD_list.

(** The route [AddMethod] registers *)
Definition AddMethod_route (method pattern : string) (f : Callback) : controllerInfo :=
  {| pattern := pattern; controllerType := None;
     methods := if String.eqb method "*" then HTTPMETHOD
                else {[ GoStr.ToUpper method := GoStr.ToUpper method ]};
     handler := nil_RawHandler; runFunction := f; routerType := routerTypeRESTFul |}.

(** The route [Handler] registers *)
Definition Handler_route (pattern : string) (h : RawHandler) : controllerInfo :=
  {| pattern := pattern; controllerType := None; methods := ∅;
     handler := h; runFunction := nil_Callback; routerType := routerTypeHandler |}.

(** The method map holds supported verbs or ["*"], mapped to methods the
    controller has. *)
Definition valid_methods (c : ControllerValue) (ms : gmap string string) : Prop :=
  ∀ k v, ms !! k = Some v → (k = "*" ∨ k ∈ HTTPMETHOD_list) ∧ v ∈ cv_methods c.

(** The route [Add] registers for a method map *)
Definition Add_route (pattern : string) (c : ControllerValue) (ms : gmap string string)
    : controllerInfo :=
  {| pattern := pattern; controllerType := Some (cv_type c); methods := ms;
     handler := nil_RawHandler; runFunction := nil_Callback;
     routerType := routerTypeBeego |}.

(** The four calls of [http.Error(w, "Method Not Allowed", 405)] *)
Definition method_not_allowed : list WriterCall :=
  [WHeaderSet "Content-Type" "text/plain; charset=utf-8";
   WHeaderSet "X-Content-Type-Options" "nosniff";
   WWriteHeader 405;
   WWrite ("Method Not Allowed" ++ String (ascii_of_nat 10) EmptyString)].

(** The locals at [Admin] when the static server has answered *)
Definition Locals_static : Locals :=
  {| runrouter := None; findrouter := true; runMethod := ""; routerInfo := None |}.

(** The events up to the static server, and the events of a session *)
Definition static_stage_event (e : Event) : Prop :=
  op_event e ∨ filter_event BeforeStatic e ∨ e = EvStatic.

Definition session_failure_event (e : Event) : Prop :=
  static_stage_event e ∨ e = EvSessionStart ∨ e = EvError ∨ e = EvException "503".

(** The state with the session of [SessionStart] stored in the context *)
Definition with_session (sess : option string) (s : World) : World :=
  {| w := w s; context := with_CruSession sess (context s); trace := trace s |}.

(** The examples of the early exits: a static server that answers for
    [/static], a session store that fails, and sessions switched on. *)
Definition static_file : Callback :=
  λ s, [OWrite "body { }"].

Definition example_collaborators (static : Callback)
    (start : World → list op * option string) : Collaborators :=
  let C := Toy.collaborators (λ _, None) in
  Build_Collaborators
    (AddRouter C) (Match C) (ValidRouter C)
    static start
    (SessionRelease C) (IsUpload C) (CopyBody C) (ParseFormOrMulitForm C) (Query C)
    (exception C) (controllers C) (FilterMonitorFunc C) (Callers C) (showErr C).

Definition session_config : Config :=
  {| RouterCaseSensitive := false; RunMode := "prod"; BeegoServerName := "beegoServer";
     SessionOn := true; CopyRequestBody := false; EnableXSRF := false;
     AutoRender := false; EnableAdmin := false; AccessLogs := false;
     RecoverPanic := true; EnableErrorsShow := true;
     ErrorMaps := {["404"; "405"; "503"]}; StaticDir := ["/static"];
     DefaultAccessLogFilter := Some (logFilter_Filter ["/static"]) |}.

(** Whether a computation ended in a panic *)
Definition panicked {A} (o : Outcome A) : Prop :=
  match o with Ok _ _ => False | Panicked _ _ => True end.

(** The calls of a controller's action: the method of the verb,
    [HandlerFunc], and [Render] *)
Definition action_event (e : Event) : Prop :=
  match e with
  | EvController _ _ ph =>
      match ph with
      | PhGet | PhPost | PhDelete | PhPut | PhHead | PhPatch | PhOptions
      | PhHandlerFunc | PhRender => True
      | _ => False
      end
  | _ => False
  end.

(** Every action was called with the response not started. *)
Definition actions_unstarted (s : World) : Prop :=
  Forall (λ o, action_event (ev o) → at_started o = false) (trace s).

(** [panics_within I m]: when [m] panics from a state in [I], the state it
    panics in is in [I]. *)
Definition panics_within {A} (I : World → Prop) (m : M A) : Prop :=
  ∀ s e s', I s → m s = Panicked e s' → I s'.

(** A route whose function panics *)
Definition boom : Callback := λ _, [OWrite "so far"; OPanic (PanicText "boom")].

Definition boom_routes : ControllerRegister :=
  routes_of (AddMethod Toy.config (Toy.collaborators (λ _, None)) NewControllerRegister
               "get" "/boom" boom).




(** [strings.Count(s, sep)] for a separator of one byte *)
Fixpoint count_byte (sep : ascii) (s : string) : nat :=
  match s with
  | EmptyString => 0
  | String c s' => if Ascii.eqb c sep then S (count_byte sep s') else count_byte sep s'
  end.

(** The calls of the methods of a controller *)
Definition controller_event (e : Event) : Prop :=
  match e with EvController _ _ _ => True | _ => False end.

(** The call of [CheckXSRFCookie] *)
Definition xsrf_check_event (e : Event) : Prop :=
  match e with EvController _ _ PhCheckXSRFCookie => True | _ => False end.

(** [CheckXSRFCookie] was called only with [EnableXSRF] on and for a POST,
    a DELETE or a PUT. *)
Definition xsrf_checked_on_writes (cfg : Config) (r : Request) (s : World) : Prop :=
  Forall (λ o, xsrf_check_event (ev o) →
               EnableXSRF cfg = true ∧ Method r ∈ ["POST"; "DELETE"; "PUT"])
         (trace s).







(** Two routes of [UserController]: the first needs [:x] and [:y]. *)
Definition lossy_routes : ControllerRegister :=
  let C := Toy.collaborators (λ _, None) in
  addToRouter Toy.config C
    (addToRouter Toy.config C NewControllerRegister "GET" "/a/:x/:y" user_route)
    "GET" "/b" user_route.

(** A verb [Add] accepts in a mapping, and a mapping entry [Add] can read:
    [verbs:method] with accepted verbs, separated by commas, and a method
    the controller has *)
Definition verb_ok (m : string) : Prop :=
  m = "*" ∨ GoStr.ToUpper m ∈ HTTPMETHOD_list.

Definition entry_ok (c : ControllerValue) (v : string) : Prop :=
  ∃ verbs name,
    GoStr.Split v ":"%char = [verbs; name]
    ∧ name ∈ cv_methods c
    ∧ Forall verb_ok (GoStr.Split verbs ","%char).

(** Whether the key [k] of a method map sends the route to the trie of [m] *)
Definition Add_hits (k m : string) : bool :=
  if String.eqb k "*" then bool_decide (m ∈ HTTPMETHOD_list) else String.eqb m k.

(** The patterns [AddAutoPrefix] registers for a method, and the route *)
Definition auto_patterns (prefix controllerName name : string) : list string :=
  [GoStr.PathJoin [prefix; GoStr.ToLower controllerName; GoStr.ToLower name; "*"];
   GoStr.PathJoin [prefix; controllerName; name; "*"];
   GoStr.PathJoin [prefix; GoStr.ToLower controllerName; GoStr.ToLower name];
   GoStr.PathJoin [prefix; controllerName; name]].

Definition auto_route (c : ControllerValue) (prefix name : string) : controllerInfo :=
  {| pattern := GoStr.PathJoin [prefix;
                                GoStr.ToLower (TrimSuffix (Name (cv_type c)) "Controller");
                                GoStr.ToLower name; "*"];
     controllerType := Some (cv_type c);
     methods := {[ "*" := name ]}; handler := nil_RawHandler;
     runFunction := nil_Callback; routerType := routerTypeBeego |}.

(** A controller with two methods of its own and one of [beego.Controller] *)
Definition user_controller : ControllerValue :=
  {| cv_type := {| PkgPath := "pkg"; Name := "UserController" |};
     cv_methods := ["Get"; "Init"; "List"] |}.

(** * Properties *)

(** ** Examples *)

Example ToLower_ex : GoStr.ToLower "/User/:Id" = "/user/:id".
Proof. reflexivity. Qed.
Example Split_ex : GoStr.Split "a/b/c" "/"%char = ["a"; "b"; "c"].
Proof. reflexivity. Qed.
Example Split_empty_ex : GoStr.Split "" "/"%char = [""].
Proof. reflexivity. Qed.
Example Replace_ex : GoStr.Replace "/user/{{placeholder}}/x" "{{placeholder}}" "7" 1 = "/user/7/x".
Proof. reflexivity. Qed.
Example TrimRight_ex : GoStr.TrimRight "?a=1&b=2&" "&" = "?a=1&b=2".
Proof. reflexivity. Qed.
Example PathJoin_ex : GoStr.PathJoin ["/files"; "?:all"] = "/files/?:all".
Proof. reflexivity. Qed.
Example PathJoin_root_ex : GoStr.PathJoin ["/"; "user"] = "/user".
Proof. reflexivity. Qed.
Example Itoa_ex : GoStr.Itoa 12 = "12".
Proof. reflexivity. Qed.
Example explode_splat_ex :
  explode_splat (Some {[ ":splat" := "a/b/c" ]})
  = Some (list_to_map [(":splat", "a/b/c"); ("0", "a"); ("1", "b"); ("2", "c")]).
Proof. vm_compute. reflexivity. Qed.
Example raw_subpaths_ex :
  let C := Toy.collaborators (λ _, None) in
  let p := Handler Toy.config C NewControllerRegister "/files" raw_file [VBool true] in
  Params (context (world_of
    (ServeHTTP Toy.config C Toy.range p (request "GET" "/files/a/b/c") Toy.host)))
  = Some (list_to_map [(":splat", "a/b/c"); ("0", "a"); ("1", "b"); ("2", "c")]).
Proof. vm_compute. reflexivity. Qed.
Example URLFor_ex :
  let C := Toy.collaborators (λ _, None) in
  let p := addToRouter Toy.config C NewControllerRegister "GET" "/user/:id" user_route in
  URLFor Toy.range p "pkg.UserController.Get" [VString ":id"; VInt 7; VString "page"; VInt 2]
  = Some "/user/7?page=2".
Proof. vm_compute. reflexivity. Qed.
Example tourl_trailing_ex : tourl Toy.range {[ "a" := "x&" ]} = "?a=x".
Proof. vm_compute. reflexivity. Qed.
Example before_router_stop_ex :
  map ev (trace (world_of
    (ServeHTTP Toy.config (Toy.collaborators (λ _, None)) Toy.range guarded_routes
       (request "GET" "/about") Toy.host)))
  = [EvStatic; EvFilter BeforeRouter "/about"; EvOp (OWriteHeader 503);
     EvOp (OWrite "maintenance"); EvAdmin].
Proof. vm_compute. reflexivity. Qed.
Example not_allowed_ex :
  map ev (trace (world_of
    (ServeHTTP Toy.config (Toy.collaborators (λ _, None)) Toy.range item_routes
       post_as_put Toy.host)))
  = [EvStatic; EvParseForm; EvMatch "PUT" "/item"; EvException "405";
     EvOp (OWriteHeader 405); EvOp (OWrite "405"); EvAdmin].
Proof. vm_compute. reflexivity. Qed.
Example not_found_ex :
  map ev (trace (world_of
    (ServeHTTP Toy.config (Toy.collaborators (λ _, None)) Toy.range item_routes
       (request "GET" "/nothing") Toy.host)))
  = [EvStatic; EvException "404"; EvOp (OWriteHeader 404); EvOp (OWrite "404"); EvAdmin].
Proof. vm_compute. reflexivity. Qed.
Example wrong_method_ex :
  calls (writer (w (world_of
    (ServeHTTP Toy.config (Toy.collaborators (λ _, None)) Toy.range item_routes
       (request "BREW" "/item") Toy.host))))
  = [WHeaderSet "Content-Type" "text/plain; charset=utf-8";
     WHeaderSet "X-Content-Type-Options" "nosniff";
     WWriteHeader 405;
     WWrite ("Method Not Allowed" ++ String (ascii_of_nat 10) EmptyString)].
Proof. vm_compute. reflexivity. Qed.

(** ** Invariants of monadic code *)

Lemma preserves_ret {A} (I : World → Prop) (a : A) : preserves I (mret a).
Proof. intros s H. exact H. Qed.

Lemma preserves_panic {A} (I : World → Prop) (e : PanicVal) : preserves I (@panic A e).
Proof. intros s H. exact H. Qed.

Lemma preserves_get (I : World → Prop) : preserves I get.
Proof. intros s H. exact H. Qed.

Lemma preserves_bind {A B} (I : World → Prop) (m : M A) (k : A → M B) :
  preserves I m → (∀ a, preserves I (k a)) → preserves I (m ≫= k).
Proof.
  intros Hm Hk s Hs. specialize (Hm s Hs).
  unfold mbind, M_bind. destruct (m s) as [a s'|e s']; simpl in *.
  - apply Hk, Hm.
  - exact Hm.
Qed.

Lemma preserves_defer {A} (I : World → Prop) (d : M unit) (m : M A) :
  preserves I d → preserves I m → preserves I (defer d m).
Proof.
  intros Hd Hm s Hs. specialize (Hm s Hs). unfold defer.
  destruct (m s) as [a s'|e s']; simpl in Hm; specialize (Hd s' Hm);
    destruct (d s'); simpl in *; exact Hd.
Qed.

Lemma Write_keeps p : keeps_started (Write p).
Proof. intros x _. reflexivity. Qed.
Lemma WriteHeader_keeps code : keeps_started (WriteHeader code).
Proof. intros x _. reflexivity. Qed.
Lemma Header_Set_keeps k v : keeps_started (Header_Set k v).
Proof. intros x H. exact H. Qed.
Lemma Flush_keeps : keeps_started Flush.
Proof. intros x H. unfold Flush. destruct (is_flusher _); exact H. Qed.
Lemma Hijack_keeps : keeps_started Hijack.
Proof. intros x H. unfold Hijack. destruct (is_hijacker _); exact H. Qed.
Lemma host_calls_keeps l : keeps_started (host_calls l).
Proof. intros x H. exact H. Qed.

Create HintDb keeps.
#[local] Hint Resolve Write_keeps WriteHeader_keeps Header_Set_keeps Flush_keeps
  Hijack_keeps host_calls_keeps : keeps.

(** Case analysis down the code of a computation, for goals [preserves]. *)
Ltac pres_step :=
  match goal with
  | |- preserves _ (mbind _ _) => apply preserves_bind; [| intros ?]
  | |- preserves _ (mret _) => apply preserves_ret
  | |- preserves _ (panic _) => apply preserves_panic
  | |- preserves _ get => apply preserves_get
  | |- preserves _ (defer _ _) => apply preserves_defer
  | |- preserves _ (if ?b then _ else _) => destruct b
  | |- preserves _ (match ?x with _ => _ end) => destruct x
  | |- preserves _ (let _ := _ in _) => cbv zeta
  end.

Section Invariants.
Context (Q : Event → Prop) (I : World → Prop) (HI : Stable Q I).

Lemma exec_op_preserves o : (∀ o, Q (EvOp o)) → preserves I (exec_op o).
Proof.
  intros HQ. destruct o; simpl; repeat pres_step;
    first [ apply (stable_log _ _ HI), HQ
          | apply (stable_w _ _ HI); auto with keeps
          | apply (stable_context _ _ HI) ].
Qed.

Lemma exec_ops_preserves l : (∀ o, Q (EvOp o)) → preserves I (exec_ops l).
Proof.
  intros HQ. induction l as [|o l IH]; simpl.
  - apply preserves_ret.
  - apply preserves_bind; [apply exec_op_preserves, HQ | intros _; exact IH].
Qed.

Lemma run_preserves f : (∀ o, Q (EvOp o)) → preserves I (run f).
Proof. intros HQ s Hs. unfold run. apply exec_ops_preserves; assumption. Qed.

Lemma run_ret_preserves {A} (f : World → list op * A) :
  (∀ o, Q (EvOp o)) → preserves I (run_ret f).
Proof.
  intros HQ s Hs. unfold run_ret.
  apply (preserves_bind I (exec_ops (fst (f s))) (λ _, mret (snd (f s)))); try assumption.
  - apply exec_ops_preserves, HQ.
  - intros _. apply preserves_ret.
Qed.

Lemma run_raw_preserves h : preserves I (run_raw h).
Proof.
  intros s Hs. unfold run_raw.
  apply (preserves_bind I (set_w (host_calls (fst (h s))))
           (λ _, match snd (h s) with Some e => panic e | None => mret tt end));
    try assumption.
  - apply (stable_w _ _ HI). auto with keeps.
  - intros _. destruct (snd (h s)); [apply preserves_panic | apply preserves_ret].
Qed.

End Invariants.

Lemma host_WriteHeader_keeps code : keeps_started (host_WriteHeader code).
Proof. intros x H. exact H. Qed.
#[local] Hint Resolve host_WriteHeader_keeps : keeps.

Section DispatcherInvariants.
Context (cfg : Config) (C : Collaborators) (R : RangeOrder).
Context (p : ControllerRegister) (r : Request).
Context (Q : Event → Prop) (I : World → Prop) (HI : Stable Q I).

Lemma doFilter_loop_preserves pos l :
  (∀ e, op_event e → Q e) → (∀ e, filter_event pos e → Q e) →
  preserves I (doFilter_loop cfg C R r pos l).
Proof.
  intros Hop Hf. induction l as [|f l IH]; simpl.
  - apply preserves_ret.
  - repeat pres_step; try exact IH.
    + apply (stable_context _ _ HI).
    + apply (stable_log _ _ HI), Hf. reflexivity.
    + apply run_preserves with (Q := Q); [exact HI | intros o; apply Hop; exact Logic.I].
Qed.

Lemma doFilter_preserves pos :
  (∀ e, op_event e → Q e) → (∀ e, filter_event pos e → Q e) →
  preserves I (doFilter cfg C R p r pos).
Proof.
  intros Hop Hf. unfold doFilter. repeat pres_step.
  apply doFilter_loop_preserves; assumption.
Qed.

Lemma Admin_preserves L :
  (∀ e, admin_event e → Q e) → preserves I (Admin cfg C r L).
Proof.
  intros HQ. unfold Admin.
  repeat pres_step;
    first [ apply (stable_log _ _ HI), HQ; exact Logic.I
          | apply (stable_log _ _ HI), HQ;
            destruct (findrouter L); [destruct (routerInfo L) |]; exact Logic.I
          | apply (stable_w _ _ HI); auto with keeps ].
Qed.

End DispatcherInvariants.

(** Every part of the dispatcher keeps an invariant that is stable under
    all events. *)
Section WholeRequest.
Context (cfg : Config) (C : Collaborators) (R : RangeOrder).
Context (p : ControllerRegister) (r : Request).
Context (Q : Event → Prop) (I : World → Prop) (HI : Stable Q I) (HQ : ∀ e, Q e).

Ltac pres_leaf :=
  first [ apply (stable_log _ _ HI), HQ
        | apply (stable_w _ _ HI); auto with keeps
        | apply (stable_context _ _ HI)
        | apply run_preserves with (Q := Q); [exact HI | intros; apply HQ]
        | apply run_ret_preserves with (Q := Q); [exact HI | intros; apply HQ]
        | apply run_raw_preserves with (Q := Q); exact HI
        | apply exec_ops_preserves with (Q := Q); [exact HI | intros; apply HQ]
        | apply doFilter_preserves with (Q := Q); [exact HI | intros; apply HQ ..]
        | apply Admin_preserves with (Q := Q); [exact HI | intros; apply HQ] ].

Ltac pres_all := repeat first [ pres_step | pres_leaf ].

Lemma lookup_preserves L : preserves I (lookup cfg C p r L).
Proof. unfold lookup. pres_all. Qed.

Lemma run_controller_preserves L : preserves I (run_controller cfg C r L).
Proof. unfold run_controller. pres_all. Qed.

Lemma after_exec_preserves L : preserves I (after_exec cfg C R p r L).
Proof. unfold after_exec. pres_all. Qed.

Lemma dispatch_preserves L : preserves I (dispatch cfg C R p r L).
Proof.
  unfold dispatch.
  repeat first [ pres_step | pres_leaf
               | apply run_controller_preserves | apply after_exec_preserves ].
Qed.

Lemma found_preserves L : preserves I (found cfg C R p r L).
Proof. unfold found. repeat first [ pres_step | pres_leaf | apply dispatch_preserves ]. Qed.

Lemma resolve_preserves : preserves I (resolve cfg C R p r).
Proof.
  unfold resolve.
  repeat first [ pres_step | pres_leaf | apply lookup_preserves | apply found_preserves ].
Qed.

Lemma route_preserves : preserves I (route cfg C R p r).
Proof.
  unfold route, before_router.
  repeat first [ pres_step | pres_leaf | apply resolve_preserves ].
Qed.

Lemma ServeHTTP_body_preserves : preserves I (ServeHTTP_body cfg C R p r).
Proof.
  unfold ServeHTTP_body, http_Error.
  repeat first [ pres_step | pres_leaf | apply route_preserves ].
Qed.

Lemma recoverPanic_preserves err : preserves I (recoverPanic cfg C err).
Proof.
  unfold recoverPanic. repeat first [ pres_step | pres_leaf ].
  induction (Callers C) as [|frame l IH]; simpl; pres_all. exact IH.
Qed.

Lemma ServeHTTP_preserves rw :
  I (World0 rw) → I (world_of (ServeHTTP cfg C R p r rw)).
Proof.
  intros H0. unfold ServeHTTP.
  assert (Hb : preserves I
            ((if String.eqb (RunMode cfg) "dev"
              then set_w (Header_Set "Server" (BeegoServerName cfg)) else mret tt) ;;
             ServeHTTP_body cfg C R p r)).
  { repeat first [ pres_step | pres_leaf | apply ServeHTTP_body_preserves ]. }
  specialize (Hb _ H0). revert Hb.
  match goal with |- I (world_of ?o) → _ => destruct o as [a s|e s] end;
    intros Hb; simpl in Hb.
  - exact Hb.
  - exact (recoverPanic_preserves (Some e) s Hb).
Qed.

End WholeRequest.

(** ** The flag [started] *)

Lemma started_sorted_snoc t o :
  started_sorted t →
  (∀ a, a ∈ t → at_started a = true → at_started o = true) →
  started_sorted (t ++ [o]).
Proof.
  intros Ht Ho i j a b Hij Hi Hj Ha.
  destruct (decide (j < List.length t)%nat) as [Hlt|Hge].
  - rewrite lookup_app_l in Hi by lia. rewrite lookup_app_l in Hj by lia.
    exact (Ht i j a b Hij Hi Hj Ha).
  - assert (j = List.length t) as ->.
    { apply lookup_lt_Some in Hj. rewrite length_app in Hj. simpl in Hj. lia. }
    rewrite list_lookup_middle in Hj by reflexivity. injection Hj as <-.
    destruct (decide (i < List.length t)%nat) as [Hi'|Hi'].
    + rewrite lookup_app_l in Hi by lia.
      apply (Ho a); [eapply list_elem_of_lookup_2; exact Hi | exact Ha].
    + assert (i = List.length t) as -> by lia.
      rewrite list_lookup_middle in Hi by reflexivity. injection Hi as <-. exact Ha.
Qed.

Lemma started_inv_stable : Stable (λ _, True) started_inv.
Proof.
  split.
  - intros e _ s [Hs Hw]. simpl. split; simpl.
    + apply started_sorted_snoc; [exact Hs | exact Hw].
    + intros o Ho Hst. apply elem_of_app in Ho as [Ho|Ho].
      * exact (Hw o Ho Hst).
      * apply list_elem_of_singleton in Ho. subst o. exact Hst.
  - intros f Hf s [Hs Hw]. simpl. split; simpl.
    + exact Hs.
    + intros o Ho Hst. apply Hf, (Hw o Ho Hst).
  - intros f s [Hs Hw]. simpl. split; simpl; assumption.
Qed.

(** C10: within a request the flag [started] of the wrapper is monotone.
    It starts false; [Write] and [WriteHeader] set it; the header map,
    [Flush] and [Hijack] leave it as it is; no operation user code can do
    on the request takes it back; and in the trace of a whole [ServeHTTP],
    which logs every such operation and every call of the dispatcher with
    the flag's value, an event that saw it true is followed only by events
    that see it true, and the flag is true at the end. *)
Theorem started_is_monotone (cfg : Config) (C : Collaborators) (R : RangeOrder)
    (p : ControllerRegister) (r : Request) (rw : hostWriter) :
  started (w (World0 rw)) = false
  ∧ (∀ x d, started (Write d x) = true)
  ∧ (∀ x code, started (WriteHeader code x) = true)
  ∧ (∀ x k v, started (Header_Set k v x) = started x)
  ∧ (∀ x, started (Flush x) = started x)
  ∧ (∀ x, started (Hijack x) = started x)
  ∧ (∀ o s, started (w s) = true → started (w (world_of (exec_op o s))) = true)
  ∧ started_sorted (trace (world_of (ServeHTTP cfg C R p r rw)))
  ∧ (∀ o, o ∈ trace (world_of (ServeHTTP cfg C R p r rw)) → at_started o = true →
          started (w (world_of (ServeHTTP cfg C R p r rw))) = true).
Proof.
  repeat split.
  - intros x. unfold Flush. destruct (is_flusher _); reflexivity.
  - intros x. unfold Hijack. destruct (is_hijacker _); reflexivity.
  - intros o s Hs.
    destruct o; simpl; try exact Hs; try reflexivity.
    + unfold Flush. destruct (is_flusher _); exact Hs.
    + unfold Hijack. destruct (is_hijacker _); exact Hs.
  - apply (ServeHTTP_preserves cfg C R p r (λ _, True) started_inv started_inv_stable
             (λ _, Logic.I) rw).
    split; [intros i j a b _ Hi | intros o Ho]; simpl in *.
    + rewrite lookup_nil in Hi. discriminate.
    + apply elem_of_nil in Ho. contradiction.
  - apply (ServeHTTP_preserves cfg C R p r (λ _, True) started_inv started_inv_stable
             (λ _, Logic.I) rw).
    split; [intros i j a b _ Hi | intros o Ho]; simpl in *.
    + rewrite lookup_nil in Hi. discriminate.
    + apply elem_of_nil in Ho. contradiction.
Qed.

(** ** The filters *)



Section Filters.
Context (cfg : Config) (C : Collaborators) (R : RangeOrder).
Context (p : ControllerRegister) (r : Request).






End Filters.

(** ** Raw handlers *)

(** C9: [Handler] appends the catch-all [?:all] whenever its first option
    is a bool, whatever the bool: [false] registers the same routes as
    [true].  With [false] the nested path [/files/a/b/c] reaches the handler
    of [/files]; without the option it is not found. *)
Theorem Handler_option_value_ignored :
  (∀ cfg C p pattern h,
      Handler cfg C p pattern h [VBool false] = Handler cfg C p pattern h [VBool true])
  ∧ (let C := Toy.collaborators (λ _, None) in
     let p := Handler Toy.config C NewControllerRegister "/files" raw_file [VBool false] in
     map ev (trace (world_of
       (ServeHTTP Toy.config C Toy.range p (request "GET" "/files/a/b/c") Toy.host)))
     = [EvStatic; EvMatch "GET" "/files/a/b/c"; EvHandler "/files"; EvAdmin])
  ∧ (let C := Toy.collaborators (λ _, None) in
     let p := Handler Toy.config C NewControllerRegister "/files" raw_file [] in
     map ev (trace (world_of
       (ServeHTTP Toy.config C Toy.range p (request "GET" "/files/a/b/c") Toy.host)))
     = [EvStatic; EvMatch "GET" "/files/a/b/c"; EvException "404";
        EvOp (OWriteHeader 404); EvOp (OWrite "404"); EvAdmin]).
Proof.
  split; [intros cfg C p pattern h; unfold Handler; cbv beta iota zeta; reflexivity|].
  split; vm_compute; reflexivity.
Qed.

(** ** Recovery *)

Lemma log_frames (frames : list string) (k : M unit) (s : World) :
  (foldr (λ frame k, log (EvCritical frame) ;; k) (mret tt) frames ;; k) s
  = k (logged s (map EvCritical frames)).
Proof.
  revert s. induction frames as [|fr frames IH]; intros s.
  - unfold logged. simpl. rewrite app_nil_r. destruct s; reflexivity.
  - simpl. unfold mbind, M_bind in *. simpl. rewrite IH. f_equal.
    unfold logged, observed. simpl. rewrite <- app_assoc. reflexivity.
Qed.

(** C6, the claim as stated fails: with recovery on, error pages off
    ([EnableErrorsShow] false) and the code ["404"] registered, a panic whose
    text is ["404"] does not run the handler of that code; it is logged as a
    crash. *)
Lemma recoverPanic_registered_code_not_run :
  let cfg := {| RouterCaseSensitive := false; RunMode := "prod"; BeegoServerName := "";
                SessionOn := false; CopyRequestBody := false; EnableXSRF := false;
                AutoRender := false; EnableAdmin := false; AccessLogs := false;
                RecoverPanic := true; EnableErrorsShow := false;
                ErrorMaps := {["404"]}; StaticDir := [];
                DefaultAccessLogFilter := None |} in
  let C := Toy.collaborators (λ _, None) in
  RecoverPanic cfg = true
  ∧ Sprint (PanicText "404") ∈ ErrorMaps cfg
  ∧ map ev (trace (world_of (recoverPanic cfg C (Some (PanicText "404")) (World0 Toy.host))))
    = [EvCritical "the request url is ";
       EvCritical "Handler crashed with error404";
       EvCritical "router.go:600"].
Proof.
  split; [reflexivity|]. split; [|vm_compute; reflexivity].
  simpl. apply elem_of_singleton. reflexivity.
Qed.

(** C6, amended: the abort sentinel is swallowed, the state untouched; with
    recovery off any other panic goes on; with recovery on, error pages on
    and the text of the panic a registered code, the handler of that code
    runs and nothing is logged as a crash; in every other case with recovery
    on (error pages off, or the text not registered) the crash is logged
    with the frames of the call stack, and the diagnostic page is rendered
    with that stack in run mode ["dev"] only. *)
Theorem recoverPanic_cases (cfg : Config) (C : Collaborators) (e : PanicVal) (s : World) :
  recoverPanic cfg C None s = Ok tt s
  ∧ (e = ErrAbort → recoverPanic cfg C (Some e) s = Ok tt s)
  ∧ (e ≠ ErrAbort → RecoverPanic cfg = false →
     recoverPanic cfg C (Some e) s = Panicked e s)
  ∧ (e ≠ ErrAbort → RecoverPanic cfg = true →
     EnableErrorsShow cfg = true → Sprint e ∈ ErrorMaps cfg →
     recoverPanic cfg C (Some e) s
     = run (exception C (Sprint e)) (logged s [EvException (Sprint e)]))
  ∧ (e ≠ ErrAbort → RecoverPanic cfg = true →
     EnableErrorsShow cfg = false ∨ Sprint e ∉ ErrorMaps cfg →
     let crash := logged s (EvCritical "the request url is "
                            :: EvCritical ("Handler crashed with error" ++ Sprint e)
                            :: map EvCritical (Callers C)) in
     recoverPanic cfg C (Some e) s
     = if String.eqb (RunMode cfg) "dev"
       then run (showErr C e (stack_of (Callers C))) (logged crash [EvShowErr])
       else Ok tt crash).
Proof.
  assert (Hab : e ≠ ErrAbort → is_ErrAbort e = false) by (destruct e; [congruence | reflexivity]).
  repeat apply conj.
  - reflexivity.
  - intros ->. reflexivity.
  - intros Hne Hrec. unfold recoverPanic. rewrite (Hab Hne), Hrec. reflexivity.
  - intros Hne Hrec Hshow Hreg. unfold recoverPanic. rewrite (Hab Hne), Hrec, Hshow.
    rewrite bool_decide_eq_true_2 by exact Hreg. reflexivity.
  - intros Hne Hrec Hno crash. unfold recoverPanic. rewrite (Hab Hne), Hrec.
    assert (EnableErrorsShow cfg && bool_decide (Sprint e ∈ ErrorMaps cfg) = false) as ->.
    { destruct Hno as [-> | Hno]; [reflexivity|].
      rewrite bool_decide_eq_false_2 by exact Hno. apply andb_false_r. }
    cbn [negb]. unfold mbind at 1 2, M_bind at 1 2. cbn [log].
    rewrite log_frames. subst crash. unfold logged, observed. cbn.
    rewrite <- !app_assoc. cbn.
    destruct (String.eqb (RunMode cfg) "dev"); [|reflexivity].
    unfold mbind, M_bind, log, stack_of. cbn [w context trace].
    rewrite <- !app_assoc. reflexivity.
Qed.

(** ** Finalization *)

(** C7, the claim as stated fails: a handler sets the status 201 and writes
    it; at the end of the request the status is written to the host a
    second time, though it was not unwritten. *)
Lemma status_written_twice :
  let C := Toy.collaborators (λ _, None) in
  let p := routes_of (AddMethod Toy.config C NewControllerRegister "get" "/items" created) in
  let s := world_of (ServeHTTP Toy.config C Toy.range p (request "GET" "/items") Toy.host) in
  map ev (trace s)
  = [EvStatic; EvMatch "GET" "/items"; EvRunFunction "/items";
     EvOp (OSetStatus 201); EvOp (OWriteHeader 201); EvAdmin; EvFinalHeader 201]
  ∧ calls (writer (w s)) = [WWriteHeader 201; WWriteHeader 201].
Proof. vm_compute. split; reflexivity. Qed.

(** C7, amended: the code from [Admin] on ends normally, and writes the
    status of the output to the host exactly when that status is not zero,
    whether or not it was written before; the write does not go through the
    wrapper, whose [started] and [status] stay, and nothing else is written
    to the host. *)
Theorem Admin_writes_set_status (cfg : Config) (C : Collaborators) (r : Request)
    (L : Locals) (s : World) :
  ∃ s', Admin cfg C r L s = Ok tt s'
        ∧ calls (writer (w s'))
          = (calls (writer (w s))
             ++ (if (Status (context s) =? 0)%Z then []
                 else [WWriteHeader (Status (context s))]))%list
        ∧ started (w s') = started (w s)
        ∧ status (w s') = status (w s)
        ∧ context s' = context s.
Proof.
  unfold Admin, mbind, M_bind, get, log, mret, M_ret, set_w.
  destruct (EnableAdmin cfg), (FilterMonitorFunc C r),
    (String.eqb (RunMode cfg) "dev" || AccessLogs cfg), (DefaultAccessLogFilter cfg) as [f|];
    cbn [w context trace];
    try (destruct (negb (f r (context s))); cbn [w context trace]);
    destruct (Status (context s) =? 0)%Z; cbn;
    eexists; (split; [reflexivity|]); rewrite ?app_nil_r; repeat split; reflexivity.
Qed.

(** ** What a part of the request adds to the trace *)

Lemma extends_with_refl Q s0 : extends_with Q s0 s0.
Proof. exists []. split; [by rewrite app_nil_r | constructor]. Qed.

Lemma extends_with_stable Q s0 : Stable Q (extends_with Q s0).
Proof.
  split.
  - intros e He s [l [Hl HQ]]. simpl.
    exists (l ++ [{| ev := e; at_started := started (w s) |}])%list. split.
    + rewrite Hl, app_assoc. reflexivity.
    + apply Forall_app. split; [exact HQ | repeat constructor; exact He].
  - intros f _ s H. exact H.
  - intros f s H. exact H.
Qed.

Lemma extends_with_trans Q s0 s1 s2 :
  extends_with Q s0 s1 → extends_with Q s1 s2 → extends_with Q s0 s2.
Proof.
  intros [l1 [H1 Q1]] [l2 [H2 Q2]]. exists (l1 ++ l2)%list. split.
  - rewrite H2, H1, app_assoc. reflexivity.
  - apply Forall_app. split; assumption.
Qed.

(** ** The after-exec and finish filters *)

(** C4, the claim as stated fails: a request reaches the after-exec point,
    the after-exec filter, which halts on output, writes, and the finish
    filter of the same path is not run.  With an after-exec filter that does
    not halt on output the finish filter runs. *)
Lemma finish_skipped_after_stop :
  let C := Toy.collaborators (λ _, None) in
  map ev (trace (world_of
    (ServeHTTP Toy.config C Toy.range (page_routes true) (request "GET" "/page") Toy.host)))
  = [EvStatic; EvMatch "GET" "/page"; EvRunFunction "/page";
     EvFilter AfterExec "/page"; EvOp (OWrite "hello"); EvAdmin]
  ∧ map ev (trace (world_of
    (ServeHTTP Toy.config C Toy.range (page_routes false) (request "GET" "/page") Toy.host)))
  = [EvStatic; EvMatch "GET" "/page"; EvRunFunction "/page";
     EvFilter AfterExec "/page"; EvOp (OWrite "hello");
     EvFilter FinishRouter "/page"; EvAdmin].
Proof. vm_compute. split; reflexivity. Qed.

(** C4, amended: when the after-exec filters stop, the dispatcher goes to
    the code from [Admin] on and no finish filter runs; when they do not
    stop, the finish filters run and the code from [Admin] on follows,
    whether the finish filters stopped or not. *)
Theorem after_exec_stop_skips_finish (cfg : Config) (C : Collaborators) (R : RangeOrder)
    (p : ControllerRegister) (r : Request) (L : Locals) (s : World) :
  (∀ s', doFilter cfg C R p r AfterExec s = Ok true s' →
         after_exec cfg C R p r L s = Admin cfg C r L s'
         ∧ extends_with (λ e, ¬ filter_event FinishRouter e) s'
             (world_of (after_exec cfg C R p r L s)))
  ∧ (∀ s' stop s'', doFilter cfg C R p r AfterExec s = Ok false s' →
         doFilter cfg C R p r FinishRouter s' = Ok stop s'' →
         after_exec cfg C R p r L s = Admin cfg C r L s'').
Proof.
  split.
  - intros s' Hstop.
    assert (Heq : after_exec cfg C R p r L s = Admin cfg C r L s').
    { unfold after_exec, mbind, M_bind. rewrite Hstop. reflexivity. }
    split; [exact Heq|]. rewrite Heq.
    apply (Admin_preserves cfg C r _ _ (extends_with_stable _ s')).
    + intros [] He; simpl in *; tauto.
    + apply extends_with_refl.
  - intros s' stop s'' Hgo Hfin.
    unfold after_exec, mbind, M_bind. rewrite Hgo. cbn. rewrite Hfin. reflexivity.
Qed.

(** ** The lookup of the route *)

Lemma Itoa_parse (n : nat) :
  ∃ d, NilZero.uint_of_string (GoStr.Itoa n) = Some d ∧ Nat.of_uint d = n.
Proof.
  unfold GoStr.Itoa. destruct (Nat.to_uint n) eqn:E.
  1: { exists Decimal.zero. split; [reflexivity|].
       rewrite <- (DecimalNat.Unsigned.of_to n), E. reflexivity. }
  all: eexists; split;
    [ apply NilZero.usu; discriminate
    | rewrite <- E; apply DecimalNat.Unsigned.of_to ].
Qed.

Lemma Itoa_inj (a b : nat) : GoStr.Itoa a = GoStr.Itoa b → a = b.
Proof.
  intros H. destruct (Itoa_parse a) as [d [Hd <-]], (Itoa_parse b) as [d' [Hd' <-]].
  rewrite H in Hd. congruence.
Qed.

Lemma explode_from (l : list string) (m : gmap string string) (n : nat) :
  let m' := foldl (λ m kv, <[GoStr.Itoa (fst kv) := snd kv]> m) m
                  (imap (λ k v, ((n + k)%nat, v)) l) in
  (∀ i c, l !! i = Some c → m' !! GoStr.Itoa (n + i) = Some c)
  ∧ (∀ k, (∀ i, (i < List.length l)%nat → k ≠ GoStr.Itoa (n + i)) → m' !! k = m !! k).
Proof.
  revert m n. induction l as [|x l IH]; intros m n; cbn zeta.
  - split; [intros i c Hi; rewrite lookup_nil in Hi; discriminate | reflexivity].
  - cbn [imap foldl fst snd].
    assert (Hext : imap ((λ k v, ((n + k)%nat, v)) ∘ S) l
                   = imap (λ k v, ((S n + k)%nat, v)) l).
    { apply imap_ext. intros i y _. simpl. f_equal. lia. }
    rewrite Hext. specialize (IH (<[GoStr.Itoa (n + 0) := x]> m) (S n)).
    cbn zeta in IH. destruct IH as [IH1 IH2]. split.
    + intros [|i] c Hi; simpl in Hi.
      * injection Hi as <-. rewrite IH2.
        -- apply lookup_insert_eq.
        -- intros i _ Heq. apply Itoa_inj in Heq. lia.
      * replace (n + S i)%nat with (S n + i)%nat by lia. apply IH1, Hi.
    + intros k Hk. rewrite IH2.
      * apply lookup_insert_ne. intros Heq. apply (Hk 0%nat); [simpl; lia | congruence].
      * intros i Hi. replace (S n + i)%nat with (n + S i)%nat by lia.
        apply Hk. simpl. lia.
Qed.

Lemma explode_splat_spec (m : gmap string string) (splat : string) :
  m !! ":splat" = Some splat →
  ∃ m', explode_splat (Some m) = Some m'
        ∧ (∀ i c, GoStr.Split splat "/"%char !! i = Some c → m' !! GoStr.Itoa i = Some c)
        ∧ (∀ k, (∀ i, (i < List.length (GoStr.Split splat "/"%char))%nat → k ≠ GoStr.Itoa i) →
                m' !! k = m !! k).
Proof.
  intros Hs. unfold explode_splat. rewrite Hs. eexists. split; [reflexivity|].
  exact (explode_from (GoStr.Split splat "/"%char) m 0).
Qed.

(** C1, the claim as stated fails: the route [/about] matches and the trie
    returns the nil map with it, but the context does not hold that map
    afterwards: it keeps the parameter a before-router filter captured. *)
Lemma lookup_keeps_params_on_nil :
  let C := Toy.collaborators (λ _, None) in
  let s := world_of (ServeHTTP Toy.config C Toy.range about_routes
                       (request "GET" "/about") Toy.host) in
  match routers about_routes !! "GET" with
  | Some t =>
      match Match C t "/about" with
      | (Some (RObjController _), None) => True
      | _ => False
      end
  | None => False
  end
  ∧ map ev (trace s)
    = [EvStatic; EvFilter BeforeRouter "/:name"; EvMatch "GET" "/about";
       EvRunFunction "/about"; EvOp (OWrite "hello"); EvAdmin]
  ∧ Params (context s) = Some {[ ":name" := "about" ]}
  ∧ Params (context s) ≠ explode_splat None.
Proof.
  cbv zeta. split; [|split; [|split]].
  - vm_compute. exact Logic.I.
  - vm_compute. reflexivity.
  - vm_compute. reflexivity.
  - vm_compute. discriminate.
Qed.

(** C1, amended: for a request no filter has resolved, the trie is chosen
    by the verb of the request, a POST whose [_method] is PUT or DELETE
    counting as that verb, and asked for the path of the request (lower-cased
    unless routes are case sensitive).  When it returns a route, the route is
    found; the map returned with it, if it is not nil, replaces the
    parameters of the context, with the [/]-separated parts of a [:splat]
    entry added under the keys "0", "1", ...; if it is nil the parameters of
    the context stay as they were. *)
Theorem lookup_stores_params (cfg : Config) (C : Collaborators) (p : ControllerRegister)
    (r : Request) (L : Locals) (s : World) :
  let verb := override_method C r (context s) in
  let path := urlPath cfg r in
  verb = (if String.eqb (Method r) "POST" then
            if String.eqb (Query C r (context s) "_method") "PUT" then "PUT"
            else if String.eqb (Query C r (context s) "_method") "DELETE" then "DELETE"
            else "POST"
          else Method r)
  ∧ path = (if RouterCaseSensitive cfg then URLPath r else GoStr.ToLower (URLPath r))
  ∧ (routers p !! verb = None → lookup cfg C p r L s = Ok L s)
  ∧ (∀ t, routers p !! verb = Some t →
       (∀ ri, fst (Match C t path) = Some (RObjController ri) →
          lookup cfg C p r L s
          = Ok {| runrouter := runrouter L; findrouter := true;
                  runMethod := runMethod L; routerInfo := Some ri |}
               {| w := w s;
                  context := match explode_splat (snd (Match C t path)) with
                             | Some m => with_Params (Some m) (context s)
                             | None => context s
                             end;
                  trace := trace s ++ [observed s (EvMatch verb path)] |})
       ∧ ((∀ ri, fst (Match C t path) ≠ Some (RObjController ri)) →
          lookup cfg C p r L s = Ok L (logged s [EvMatch verb path])))
  ∧ explode_splat None = None
  ∧ (∀ m, m !! ":splat" = None → explode_splat (Some m) = Some m)
  ∧ (∀ m splat, m !! ":splat" = Some splat →
       ∃ m', explode_splat (Some m) = Some m'
             ∧ (∀ i c, GoStr.Split splat "/"%char !! i = Some c →
                       m' !! GoStr.Itoa i = Some c)
             ∧ (∀ k, (∀ i, (i < List.length (GoStr.Split splat "/"%char))%nat →
                           k ≠ GoStr.Itoa i) →
                     m' !! k = m !! k)).
Proof.
  cbv zeta. repeat apply conj.
  - unfold override_method.
    destruct (String.eqb (Method r) "POST") eqn:Em; cbn [andb].
    + apply String.eqb_eq in Em. rewrite Em.
      destruct (String.eqb (Query C r (context s) "_method") "PUT"); [reflexivity|].
      cbn. destruct (String.eqb (Query C r (context s) "_method") "DELETE"); reflexivity.
    + rewrite Em. reflexivity.
  - unfold urlPath. destruct (RouterCaseSensitive cfg); reflexivity.
  - intros Hnone. unfold lookup, mbind, M_bind, get. rewrite Hnone. reflexivity.
  - intros t H. split.
    2: { intros Hmiss. unfold lookup, mbind, M_bind, get. rewrite H. cbn [log].
         unfold logged. simpl.
         destruct (fst (Match C t (urlPath cfg r))) as [[ri| |]|] eqn:Em; try reflexivity.
         exfalso. exact (Hmiss ri eq_refl). }
    intros ri Hm. unfold lookup, mbind, M_bind, get. rewrite H. cbn [log].
    rewrite Hm. destruct (explode_splat _); reflexivity.
  - reflexivity.
  - intros m Hm. unfold explode_splat. rewrite Hm. reflexivity.
  - intros m splat. apply explode_splat_spec.
Qed.

(** ** A before-router filter that writes *)



(** ** Not found, not allowed *)

Section Misses.
Context (cfg : Config) (C : Collaborators) (R : RangeOrder).
Context (p : ControllerRegister) (r : Request).






End Misses.

Section LookupCases.
Context (cfg : Config) (C : Collaborators) (p : ControllerRegister) (r : Request).




End LookupCases.

Lemma extends_with_weaken (Q Q' : Event → Prop) s0 s :
  (∀ e, Q e → Q' e) → extends_with Q s0 s → extends_with Q' s0 s.
Proof.
  intros HQ [l [Hl Hall]]. exists l. split; [exact Hl|].
  eapply Forall_impl; [exact Hall | intros o; apply HQ].
Qed.




(** ** The reverse resolver *)










(** Induction on a trie: the property holds of a node when it holds of the
    children of the node. *)
Lemma Tree_induction (P : Tree → Prop) :
  (∀ fx wild ls,
      Forall (λ kt, P (snd kt)) fx → from_option P True wild → P (mkTree fx wild ls)) →
  ∀ t, P t.
Proof.
  intros step.
  exact (fix IH (t : Tree) : P t :=
           match t with
           | mkTree fx wild ls =>
               step fx wild ls
                 ((fix over (l : list (string * Tree)) : Forall (λ kt, P (snd kt)) l :=
                     match l with
                     | [] => List.Forall_nil _
                     | kt :: l' => List.Forall_cons _ kt l' (IH (snd kt)) (over l')
                     end) fx)
                 (match wild as o return from_option P True o with
                  | Some wt => IH wt
                  | None => Logic.I
                  end)
           end).
Qed.

Lemma consumes_refl names params : consumes names params params.
Proof. split; [reflexivity | intros; reflexivity]. Qed.

Lemma consumes_delete names params params' k :
  k ∈ names → consumes names (delete k params) params' → consumes names params params'.
Proof.
  intros Hk [Hsub Hkeep]. split.
  - etrans; [exact Hsub | apply delete_subseteq].
  - intros k' Hk'. rewrite Hkeep by exact Hk'. apply lookup_delete_ne. intros ->. exact (Hk' Hk).
Qed.

Lemma consumes_weaken names names' params params' :
  names ⊆ names' → consumes names params params' → consumes names' params params'.
Proof.
  intros Hn [Hsub Hkeep]. split; [exact Hsub|].
  intros k Hk. apply Hkeep. intros Hin. apply Hk, Hn, Hin.
Qed.

Section ReverseFacts.
Context (R : RangeOrder).

Lemma fill_wildcards_consumes ws canskip url params o params' :
  fill_wildcards ws canskip url params = (o, params') → consumes ws params params'.
Proof.
  revert canskip url params. induction ws as [|v ws IH]; intros canskip url params H.
  - injection H as _ <-. apply consumes_refl.
  - cbn [fill_wildcards] in H.
    assert (Hw : ∀ q, consumes ws q params' → consumes (v :: ws) q params').
    { intros q. apply consumes_weaken. set_solver. }
    destruct (String.eqb v ":"); [apply Hw, (IH _ _ _ H)|].
    destruct (params !! v) eqn:Ev.
    + apply (consumes_delete _ _ _ v); [set_solver|]. apply Hw, (IH _ _ _ H).
    + destruct canskip; [apply Hw, (IH _ _ _ H)|].
      injection H as _ <-. apply consumes_refl.
Qed.

Lemma fill_regexp_consumes src ws i startreg regurl params regurl' params' :
  fill_regexp src ws i startreg regurl params = Some (regurl', params') →
  consumes ws params params'.
Proof.
  revert i startreg regurl params.
  induction src as [|v src IH]; intros i startreg regurl params H.
  - injection H as _ <-. apply consumes_refl.
  - cbn [fill_regexp] in H.
    destruct (Ascii.eqb v "("); [exact (IH _ _ _ _ H)|].
    destruct (Ascii.eqb v ")").
    + destruct (ws !! i) as [name|] eqn:Ei; [|discriminate].
      destruct (params !! name).
      * apply (consumes_delete _ _ _ name); [|exact (IH _ _ _ _ H)].
        eapply list_elem_of_lookup_2, Ei.
      * injection H as _ <-. apply consumes_refl.
    + destruct (negb startreg); exact (IH _ _ _ _ H).
Qed.

End ReverseFacts.

Section ReverseResults.
Context (R : RangeOrder) (controllName methodName httpMethod : string).

Lemma fill_leaf_spec l url params res params' :
  fill_leaf R l url params = Some (res, params') →
  consumes (":path" :: ":ext" :: wildcards l) params params'
  ∧ ∀ u, res = Some (true, u) → ∃ base, u = base ++ tourl R params'.
Proof.
  unfold fill_leaf. intros H.
  assert (Hw : ∀ q q', consumes (wildcards l) q q' →
                       consumes (":path" :: ":ext" :: wildcards l) q q').
  { intros q q'. apply consumes_weaken. set_solver. }
  destruct (regexps l) as [rx|].
  - destruct (fill_regexp _ _ _ _ _ _) as [[regurl q]|] eqn:Er; [|discriminate].
    apply fill_regexp_consumes in Er.
    destruct (rx_MatchString rx regurl); injection H as <- <-; (split; [apply Hw, Er|]).
    + intros u [= <-]. eexists. reflexivity.
    + intros u [=].
  - destruct (wildcards l) as [|w0 [|w1 rest]] eqn:Ew.
    + injection H as <- <-. split; [apply consumes_refl|].
      intros u [= <-]. eexists. reflexivity.
    + destruct (params !! w0) eqn:E0; injection H as <- <-.
      * split.
        -- apply (consumes_delete _ _ _ w0); [set_solver | apply consumes_refl].
        -- intros u [= <-]. eexists. reflexivity.
      * split; [apply consumes_refl | intros u [=]].
    + set (ws := w0 :: w1 :: rest) in *.
      destruct (if bool_decide (List.length ws = 3) && bool_decide (ws !! 0%nat = Some ".")
                then match params !! ":path", params !! ":ext" with
                     | Some p, Some e => Some (p, e)
                     | _, _ => None
                     end
                else None) as [[pa ex]|].
      * injection H as <- <-. split.
        -- apply (consumes_delete _ _ _ ":path"); [set_solver|].
           apply (consumes_delete _ _ _ ":ext"); [set_solver | apply consumes_refl].
        -- intros u [= <-]. eexists. reflexivity.
      * destruct (fill_wildcards ws false url params) as [[url'|] q] eqn:Ef;
          apply fill_wildcards_consumes in Ef; injection H as <- <-;
          (split; [apply Hw, Ef|]).
        -- intros u [= <-]. eexists. reflexivity.
        -- intros u [=].
Qed.

Lemma geturl_leaves_spec ls url params ok u params' :
  geturl_leaves R ls url controllName methodName params httpMethod = Some (ok, u, params') →
  params' ⊆ params ∧ (ok = true → ∃ base, u = base ++ tourl R params').
Proof.
  revert params. induction ls as [|l ls IH]; intros params H; cbn [geturl_leaves] in H.
  - injection H as <- <- <-. split; [reflexivity | discriminate].
  - destruct (leaf_controller l controllName) as [[c|]|]; [| exact (IH _ H) | discriminate].
    destruct (leaf_find c methodName httpMethod); [|exact (IH _ H)].
    destruct (fill_leaf R l url params) as [[res q]|] eqn:Ef; [|discriminate].
    apply fill_leaf_spec in Ef as [[Hsub _] Hu].
    destruct res as [[ok' u']|].
    + injection H as <- <- <-. split; [exact Hsub|].
      intros ->. apply Hu. reflexivity.
    + destruct (IH _ H) as [Hsub' Hu']. split; [etrans; eassumption | exact Hu'].
Qed.


Lemma geturl_spec t url params ok u params' :
  geturl R t url controllName methodName params httpMethod = Some (ok, u, params') →
  params' ⊆ params ∧ (ok = true → ∃ base, u = base ++ tourl R params').
Proof.
  revert url params ok u params'.
  induction t as [fx wild ls Hfx Hwild] using Tree_induction.
  intros url params ok u params'. cbn [geturl].
  revert params. induction Hfx as [|[k sub] fx Hsub _ IHfx]; intros params H.
  - destruct wild as [wt|]; [|exact (geturl_leaves_spec _ _ _ _ _ _ H)].
    destruct (geturl R wt _ _ _ _ _) as [[[[] u1] q]|] eqn:Ew; [| |discriminate].
    + injection H as <- <- <-. exact (Hwild _ _ _ _ _ Ew).
    + destruct (Hwild _ _ _ _ _ Ew) as [Hq _].
      destruct (geturl_leaves_spec _ _ _ _ _ _ H) as [Hq' Hu].
      split; [etrans; eassumption | exact Hu].
  - cbn [snd] in Hsub.
    destruct (geturl R sub _ _ _ _ _) as [[[[] u1] q]|] eqn:Es; [| |discriminate].
    + injection H as <- <- <-. exact (Hsub _ _ _ _ _ Es).
    + destruct (Hsub _ _ _ _ _ Es) as [Hq _].
      destruct (IHfx _ H) as [Hq' Hu].
      split; [etrans; eassumption | exact Hu].
Qed.


End ReverseResults.

Section URLForFacts.
Context (R : RangeOrder).


Lemma URLFor_routers_found l controllName methodName params u :
  URLFor_routers R l controllName methodName params = Some u →
  u = ""
  ∨ ∃ m t params1 params',
      (m, t) ∈ l ∧ params1 ⊆ params
      ∧ geturl R t "/" controllName methodName params1 m = Some (true, u, params').
Proof.
  revert params. induction l as [|[m t] l IH]; intros params H; cbn [URLFor_routers] in H.
  - left. congruence.
  - destruct (geturl R t "/" controllName methodName params m) as [[[[] u1] q]|] eqn:Eg;
      [| |discriminate].
    + injection H as <-. right. exists m, t, params, q.
      split; [set_solver|]. split; [reflexivity | exact Eg].
    + apply geturl_spec in Eg as [Hq _].
      destruct (IH _ H) as [-> | (m' & t' & p1 & p' & Hin & Hsub & Hg)]; [by left|].
      right. exists m', t', p1, p'. split; [set_solver|].
      split; [etrans; eassumption | exact Hg].
Qed.

End URLForFacts.

(** What [geturl] leaves of the parameters *)






Section ReverseKeeps.
Context (R : RangeOrder) (controllName methodName httpMethod : string).



End ReverseKeeps.

Section URLForKeeps.
Context (R : RangeOrder).



End URLForKeeps.

(** A parameter can be lost on the way: the leaf of [/a/:x/:y] takes [:x]
    out of the parameters, gives up for want of [:y], and the leaf of [/b]
    that answers appends what is left, without [:x]. *)
Lemma parameter_lost_to_leaf_that_gave_up :
  URLFor Toy.range lossy_routes "pkg.UserController.Get"
    [VString ":x"; VInt 1; VString "q"; VInt 2]
  = Some "/b?q=2".
Proof. vm_compute. reflexivity. Qed.



(** ** The theorems at work on the examples *)

(** The lookup of [/files/a/b/c] stores the parameters of the match, the
    parts of [:splat] under "0", "1", "2". *)
Lemma lookup_stores_params_witness :
  Params (context (world_of
    (lookup Toy.config (Toy.collaborators (λ _, None)) files_routes
       (request "GET" "/files/a/b/c") Locals0 (World0 Toy.host))))
  = Some (list_to_map [(":splat", "a/b/c"); ("0", "a"); ("1", "b"); ("2", "c")]).
Proof.
  pose proof (lookup_stores_params Toy.config (Toy.collaborators (λ _, None)) files_routes
                (request "GET" "/files/a/b/c") Locals0 (World0 Toy.host)) as H.
  cbv zeta in H. destruct H as (_ & _ & _ & Hhit & _).
  destruct (Hhit files_trie) as [Hm _]; [vm_compute; reflexivity|].
  rewrite (Hm files_route); vm_compute; reflexivity.
Defined.


(** The after-exec filter of [/page] stops; no finish filter runs after it. *)
Lemma after_exec_stop_skips_finish_witness :
  let C := Toy.collaborators (λ _, None) in
  let r := request "GET" "/page" in
  let s' := world_of (doFilter Toy.config C Toy.range (page_routes true) r AfterExec
                        (World0 Toy.host)) in
  extends_with (λ e, ¬ filter_event FinishRouter e) s'
    (world_of (after_exec Toy.config C Toy.range (page_routes true) r Locals0
                 (World0 Toy.host))).
Proof.
  cbv zeta.
  destruct (after_exec_stop_skips_finish Toy.config (Toy.collaborators (λ _, None))
              Toy.range (page_routes true) (request "GET" "/page") Locals0
              (World0 Toy.host)) as [Hstop _].
  apply Hstop. vm_compute. reflexivity.
Defined.

(** A panic with the text of a registered code runs the page of the code. *)
Lemma recoverPanic_cases_witness :
  let C := Toy.collaborators (λ _, None) in
  recoverPanic Toy.config C (Some (PanicText "404")) (World0 Toy.host)
  = run (exception C "404") (logged (World0 Toy.host) [EvException "404"]).
Proof.
  cbv zeta.
  destruct (recoverPanic_cases Toy.config (Toy.collaborators (λ _, None))
              (PanicText "404") (World0 Toy.host)) as (_ & _ & _ & Hpage & _).
  apply Hpage; [discriminate | reflexivity | reflexivity |].
  apply (bool_decide_unpack _). vm_compute. exact Logic.I.
Defined.


(** * Further properties *)

(** ** Registration *)

Lemma HTTPMETHOD_supported (m : string) :
  is_Some (HTTPMETHOD !! m) ↔ m ∈ HTTPMETHOD_list.
Proof.
  split.
  - intros [v Hv]. unfold HTTPMETHOD in Hv.
    apply elem_of_list_to_map_2 in Hv. apply list_elem_of_fmap in Hv as [m' [[= -> _] Hin]].
    exact Hin.
  - intros Hin. unfold HTTPMETHOD_list in Hin.
    repeat (apply elem_of_cons in Hin as [-> | Hin]; [vm_compute; eauto|]).
    apply elem_of_nil in Hin. contradiction.
Qed.

Lemma HTTPMETHOD_list_NoDup : NoDup HTTPMETHOD_list.
Proof. apply (bool_decide_unpack _). vm_compute. exact Logic.I. Qed.

Section RegistrationFacts.
Context (cfg : Config) (C : Collaborators).

Lemma addToRouter_routers p m pattern route m' :
  routers (addToRouter cfg C p m pattern route) !! m'
  = if decide (m' = m)
    then Some (AddRouter C (default NewTree (routers p !! m)) (folded cfg pattern)
                 (RObjController route))
    else routers p !! m'.
Proof.
  unfold addToRouter, folded.
  destruct (routers p !! m) eqn:E; cbn [routers default];
    (destruct (decide (m' = m)) as [-> | Hne];
     [apply lookup_insert_eq | apply lookup_insert_ne; congruence]).
Qed.

Lemma addToRouter_filters p m pattern route :
  filters (addToRouter cfg C p m pattern route) = filters p
  ∧ enableFilter (addToRouter cfg C p m pattern route) = enableFilter p.
Proof. unfold addToRouter. destruct (routers p !! m); split; reflexivity. Qed.

Lemma addToRouter_fold_routers (l : list string) p pattern route m' :
  NoDup l →
  routers (foldl (λ p m, addToRouter cfg C p m pattern route) p l) !! m'
  = if decide (m' ∈ l)
    then Some (AddRouter C (default NewTree (routers p !! m')) (folded cfg pattern)
                 (RObjController route))
    else routers p !! m'.
Proof.
  intros Hnd. revert p. induction Hnd as [|m l Hm Hnd IH]; intros p.
  - simpl. destruct (decide (m' ∈ [])) as [Hin|]; [|reflexivity].
    apply elem_of_nil in Hin. contradiction.
  - cbn [foldl]. rewrite IH, !addToRouter_routers.
    destruct (decide (m' = m)) as [-> | Hne].
    + rewrite decide_False by exact Hm.
      rewrite decide_True by (apply elem_of_cons; by left). reflexivity.
    + destruct (decide (m' ∈ l)) as [Hin|Hnin].
      * rewrite decide_True by (apply elem_of_cons; by right). reflexivity.
      * rewrite decide_False; [reflexivity|].
        intros [Heq|Hin]%elem_of_cons; [congruence | contradiction].
Qed.

Lemma addToRouter_fold_filters (l : list string) p pattern route :
  filters (foldl (λ p m, addToRouter cfg C p m pattern route) p l) = filters p
  ∧ enableFilter (foldl (λ p m, addToRouter cfg C p m pattern route) p l) = enableFilter p.
Proof.
  revert p. induction l as [|m l IH]; intros p; [split; reflexivity|].
  cbn [foldl]. destruct (IH (addToRouter cfg C p m pattern route)) as [-> ->].
  apply addToRouter_filters.
Qed.

Lemma addToRouter_supported p m pattern route :
  m ∈ HTTPMETHOD_list → verbs_supported p →
  verbs_supported (addToRouter cfg C p m pattern route).
Proof.
  intros Hm Hp m' Hsome. rewrite addToRouter_routers in Hsome.
  destruct (decide (m' = m)) as [-> |]; [exact Hm | exact (Hp _ Hsome)].
Qed.

Lemma addToRouter_fold_supported (l : list string) p pattern route :
  l ⊆ HTTPMETHOD_list → verbs_supported p →
  verbs_supported (foldl (λ p m, addToRouter cfg C p m pattern route) p l).
Proof.
  revert p. induction l as [|m l IH]; intros p Hl Hp; [exact Hp|].
  cbn [foldl]. apply IH; [set_solver|]. apply addToRouter_supported; [set_solver | exact Hp].
Qed.

End RegistrationFacts.

Lemma supported_not_star (m : string) : m ∈ HTTPMETHOD_list → m ≠ "*".
Proof.
  intros Hin ->. revert Hin. apply (bool_decide_unpack _). vm_compute. exact Logic.I.
Qed.

Lemma HTTPMETHOD_keys : map fst (map_to_list HTTPMETHOD) ≡ₚ HTTPMETHOD_list.
Proof.
  unfold HTTPMETHOD. etrans.
  - apply Permutation_map, map_to_list_to_map.
    apply (bool_decide_unpack _). vm_compute. exact Logic.I.
  - vm_compute. reflexivity.
Qed.

(** X1: [Handler] puts its route, under the pattern (with [?:all] joined
    when the first option is a bool, lower-cased unless routes are case
    sensitive), in the trie of each of the nine supported verbs, once, a new
    trie where the verb had none; the tries of other verbs and the filters
    stay as they were. *)
Theorem Handler_registers_all_verbs (cfg : Config) (C : Collaborators)
    (p : ControllerRegister) (pattern : string) (h : RawHandler) (options : list GoValue) :
  let registered := match options with
                    | VBool _ :: _ => GoStr.PathJoin [pattern; "?:all"]
                    | _ => pattern
                    end in
  (∀ m, routers (Handler cfg C p pattern h options) !! m
        = if decide (m ∈ HTTPMETHOD_list)
          then Some (AddRouter C (default NewTree (routers p !! m)) (folded cfg registered)
                       (RObjController (Handler_route pattern h)))
          else routers p !! m)
  ∧ filters (Handler cfg C p pattern h options) = filters p
  ∧ enableFilter (Handler cfg C p pattern h options) = enableFilter p.
Proof.
  intros registered. unfold Handler. fold (Handler_route pattern h). fold registered.
  split; [|apply addToRouter_fold_filters].
  intros m. apply addToRouter_fold_routers, HTTPMETHOD_list_NoDup.
Qed.

Section AddMethodFacts.
Context (cfg : Config) (C : Collaborators).

Lemma AddMethod_single p method pattern f :
  method ≠ "*" → GoStr.ToUpper method ∈ HTTPMETHOD_list →
  AddMethod cfg C p method pattern f
  = Some (addToRouter cfg C p (GoStr.ToUpper method) pattern (AddMethod_route method pattern f)).
Proof.
  intros Hns Hin. unfold AddMethod, AddMethod_route.
  apply String.eqb_neq in Hns. rewrite Hns. cbn [negb andb].
  rewrite bool_decide_eq_true_2 by (apply HTTPMETHOD_supported, Hin). cbn [negb].
  rewrite map_to_list_singleton. cbn [map fst foldl].
  apply supported_not_star, String.eqb_neq in Hin. rewrite Hin. reflexivity.
Qed.

Lemma AddMethod_star_fold (l : list string) p pattern route :
  Forall (λ k, k ≠ "*") l →
  foldl (λ p k,
           if String.eqb k "*"
           then foldl (λ p m, addToRouter cfg C p m pattern route) p HTTPMETHOD_list
           else addToRouter cfg C p k pattern route) p l
  = foldl (λ p k, addToRouter cfg C p k pattern route) p l.
Proof.
  intros Hl. revert p. induction Hl as [|k l Hk _ IH]; intros p; [reflexivity|].
  cbn [foldl]. apply String.eqb_neq in Hk. rewrite Hk. apply IH.
Qed.

Lemma AddMethod_star p pattern f :
  AddMethod cfg C p "*" pattern f
  = Some (foldl (λ p k, addToRouter cfg C p k pattern (AddMethod_route "*" pattern f))
                p (map fst (map_to_list HTTPMETHOD))).
Proof.
  unfold AddMethod, AddMethod_route. cbn [String.eqb Ascii.eqb Bool.eqb negb andb].
  rewrite AddMethod_star_fold; [reflexivity|].
  apply Forall_forall. intros k Hk. apply supported_not_star.
  rewrite <- HTTPMETHOD_keys. exact Hk.
Qed.

End AddMethodFacts.

(** X2: [AddMethod] panics exactly for a method that is neither ["*"] nor,
    in upper case, a supported verb.  Otherwise a verb puts the route in the
    trie of its upper-case form only, and ["*"] in the tries of the nine
    supported verbs; other tries and the filters stay.  The case of the verb
    does not matter. *)
Theorem AddMethod_verbs (cfg : Config) (C : Collaborators) (p : ControllerRegister)
    (method pattern : string) (f : Callback) :
  (AddMethod cfg C p method pattern f = None
   ↔ method ≠ "*" ∧ GoStr.ToUpper method ∉ HTTPMETHOD_list)
  ∧ (∀ p', AddMethod cfg C p method pattern f = Some p' →
       let trie m := Some (AddRouter C (default NewTree (routers p !! m)) (folded cfg pattern)
                             (RObjController (AddMethod_route method pattern f))) in
       (method = "*" →
        ∀ m, routers p' !! m = if decide (m ∈ HTTPMETHOD_list) then trie m else routers p !! m)
       ∧ (method ≠ "*" →
          ∀ m, routers p' !! m
               = if decide (m = GoStr.ToUpper method) then trie m else routers p !! m)
       ∧ filters p' = filters p
       ∧ enableFilter p' = enableFilter p)
  ∧ (∀ method', method ≠ "*" → method' ≠ "*" →
       GoStr.ToUpper method = GoStr.ToUpper method' →
       AddMethod cfg C p method pattern f = AddMethod cfg C p method' pattern f).
Proof.
  repeat apply conj.
  - unfold AddMethod. intros H.
    destruct (String.eqb method "*") eqn:Es; [discriminate|].
    destruct (bool_decide (is_Some (HTTPMETHOD !! GoStr.ToUpper method))) eqn:Eb;
      [discriminate|].
    split; [apply String.eqb_neq, Es|].
    apply bool_decide_eq_false in Eb. intros Hin. apply Eb, HTTPMETHOD_supported, Hin.
  - intros [Hns Hnot]. unfold AddMethod.
    apply String.eqb_neq in Hns. rewrite Hns.
    rewrite bool_decide_eq_false_2; [reflexivity|].
    intros Hs. apply Hnot, HTTPMETHOD_supported, Hs.
  - intros p' Hp' trie.
    destruct (decide (method = "*")) as [-> | Hns].
    + rewrite AddMethod_star in Hp'. apply (inj Some) in Hp'. subst p'.
      split; [|split; [intros Hc; contradiction | apply addToRouter_fold_filters]].
      intros _ m. rewrite addToRouter_fold_routers by apply NoDup_fst_map_to_list.
      subst trie. cbv beta.
      destruct (decide (m ∈ HTTPMETHOD_list)) as [Hin|Hnin].
      * rewrite decide_True by (rewrite HTTPMETHOD_keys; exact Hin). reflexivity.
      * rewrite decide_False by (rewrite HTTPMETHOD_keys; exact Hnin). reflexivity.
    + destruct (decide (GoStr.ToUpper method ∈ HTTPMETHOD_list)) as [Hin|Hnin].
      * rewrite (AddMethod_single cfg C p method pattern f Hns Hin) in Hp'.
        apply (inj Some) in Hp'. subst p'.
        split; [intros Hc; contradiction|]. split; [|apply addToRouter_filters].
        intros _ m. rewrite addToRouter_routers. subst trie. cbv beta.
        destruct (decide (m = GoStr.ToUpper method)) as [-> |]; reflexivity.
      * exfalso. unfold AddMethod in Hp'. apply String.eqb_neq in Hns. rewrite Hns in Hp'.
        rewrite bool_decide_eq_false_2 in Hp'; [discriminate|].
        intros Hs. apply Hnin, HTTPMETHOD_supported, Hs.
  - intros method' Hns Hns' Hup. unfold AddMethod.
    apply String.eqb_neq in Hns, Hns'. rewrite Hns, Hns', Hup. reflexivity.
Qed.

Section AddFacts.
Context (cfg : Config) (C : Collaborators) (R : RangeOrder).

Lemma Add_comma_valid c name comma ms ms' :
  Add_comma c name comma ms = Some ms' → valid_methods c ms → valid_methods c ms'.
Proof.
  revert ms. induction comma as [|m rest IH]; intros ms H Hv; cbn [Add_comma] in H.
  - injection H as <-. exact Hv.
  - destruct (String.eqb m "*" || bool_decide (is_Some (HTTPMETHOD !! GoStr.ToUpper m)))
      eqn:Eok; [|discriminate].
    destruct (bool_decide (name ∈ cv_methods c)) eqn:En; [|discriminate].
    apply bool_decide_eq_true in En. apply (IH _ H).
    intros k v Hk. apply lookup_insert_Some in Hk as [[<- <-] | [_ Hk]]; [|exact (Hv _ _ Hk)].
    split; [|exact En].
    apply orb_true_iff in Eok as [Es | Es].
    + apply String.eqb_eq in Es. subst m. left. reflexivity.
    + apply bool_decide_eq_true in Es. right. apply HTTPMETHOD_supported, Es.
Qed.

Lemma Add_semi_valid c semi ms ms' :
  Add_semi c semi ms = Some ms' → valid_methods c ms → valid_methods c ms'.
Proof.
  revert ms. induction semi as [|v rest IH]; intros ms H Hv; cbn [Add_semi] in H.
  - injection H as <-. exact Hv.
  - destruct (GoStr.Split v ":"%char) as [|verbs [|name [|x l]]]; try discriminate.
    destruct (Add_comma c name _ ms) as [ms1|] eqn:Ec; [|discriminate].
    exact (IH _ H (Add_comma_valid _ _ _ _ _ Ec Hv)).
Qed.

Lemma Add_methods_valid c mappingMethods ms :
  Add_methods c mappingMethods = Some ms → valid_methods c ms.
Proof.
  unfold Add_methods. destruct mappingMethods as [|mm rest]; intros H.
  - injection H as <-. intros k v Hk. rewrite lookup_empty in Hk. discriminate.
  - apply (Add_semi_valid _ _ _ _ H). intros k v Hk. rewrite lookup_empty in Hk. discriminate.
Qed.

Lemma addToRouter_all_supported p pattern route :
  verbs_supported p → verbs_supported (addToRouter_all cfg C p pattern route).
Proof. apply addToRouter_fold_supported. reflexivity. Qed.

Lemma Add_fold_supported (keys : list string) p pattern route :
  Forall (λ k, k = "*" ∨ k ∈ HTTPMETHOD_list) keys → verbs_supported p →
  verbs_supported
    (foldl (λ p k, if String.eqb k "*" then addToRouter_all cfg C p pattern route
                   else addToRouter cfg C p k pattern route) p keys).
Proof.
  intros Hk. revert p. induction Hk as [|k keys Hk _ IH]; intros p Hp; [exact Hp|].
  cbn [foldl]. apply IH. destruct (String.eqb k "*") eqn:Es.
  - apply addToRouter_all_supported, Hp.
  - apply addToRouter_supported; [|exact Hp].
    destruct Hk as [-> | Hk]; [discriminate | exact Hk].
Qed.

Lemma Add_supported p pattern c mappingMethods p' :
  Add cfg C R p pattern c mappingMethods = Some p' → verbs_supported p → verbs_supported p'.
Proof.
  unfold Add. destruct (Add_methods c mappingMethods) as [ms|] eqn:Em; [|discriminate].
  apply Add_methods_valid in Em. destruct (decide (size ms = 0)); intros H Hp.
  - apply (inj Some) in H. subst p'. apply addToRouter_all_supported, Hp.
  - apply (inj Some) in H. subst p'. apply Add_fold_supported; [|exact Hp].
    apply Forall_forall. intros k Hk. apply list_elem_of_fmap in Hk as [[k' v] [-> Hkv]].
    rewrite (range_of_perm R) in Hkv. apply elem_of_map_to_list in Hkv.
    exact (proj1 (Em _ _ Hkv)).
Qed.

Lemma foldl_verbs_supported (g : ControllerRegister → string → ControllerRegister)
    (l : list string) (p : ControllerRegister) :
  (∀ p m, m ∈ HTTPMETHOD_list → verbs_supported p → verbs_supported (g p m)) →
  l ⊆ HTTPMETHOD_list → verbs_supported p → verbs_supported (foldl g p l).
Proof.
  intros Hg. revert p. induction l as [|m l IH]; intros p Hl Hp; [exact Hp|].
  cbn [foldl]. apply IH.
  - intros x Hx. apply Hl. apply elem_of_cons. by right.
  - apply Hg; [|exact Hp]. apply Hl. apply elem_of_cons. by left.
Qed.

Lemma AddAutoPrefix_supported except p prefix c :
  verbs_supported p → verbs_supported (AddAutoPrefix cfg C except p prefix c).
Proof.
  unfold AddAutoPrefix. generalize (cv_methods c) as names. intros names. revert p.
  induction names as [|name names IH]; intros p Hp; [exact Hp|].
  cbn [foldl]. apply IH. destruct (negb (InSlice name except)); [|exact Hp].
  cbv zeta. apply foldl_verbs_supported; [|reflexivity|exact Hp].
  intros q m Hm Hq. repeat apply addToRouter_supported; assumption.
Qed.

End AddFacts.

Lemma AddMethod_supported cfg C p method pattern f p' :
  AddMethod cfg C p method pattern f = Some p' → verbs_supported p → verbs_supported p'.
Proof.
  intros H Hp. destruct (decide (method = "*")) as [-> | Hns].
  - rewrite AddMethod_star in H. apply (inj Some) in H. subst p'.
    apply addToRouter_fold_supported; [|exact Hp].
    intros k Hk. rewrite <- HTTPMETHOD_keys. exact Hk.
  - destruct (decide (GoStr.ToUpper method ∈ HTTPMETHOD_list)) as [Hin|Hnin].
    + rewrite (AddMethod_single cfg C p method pattern f Hns Hin) in H.
      apply (inj Some) in H. subst p'. apply addToRouter_supported; assumption.
    + exfalso. unfold AddMethod in H. apply String.eqb_neq in Hns. rewrite Hns in H.
      rewrite bool_decide_eq_false_2 in H; [discriminate|].
      intros Hs. apply Hnin, HTTPMETHOD_supported, Hs.
Qed.

(** X3: every registration keeps the tries of the register within the
    nine supported verbs, the only ones [ServeHTTP] lets through: [Handler],
    [AddMethod], [Add] (whatever its mapping and the order its method map is
    ranged over), [AddAutoPrefix], and [InsertFilter], which leaves the
    tries alone. *)
Theorem registration_keeps_verbs_supported (cfg : Config) (C : Collaborators)
    (R : RangeOrder) (p : ControllerRegister) :
  verbs_supported p →
  (∀ pattern h options, verbs_supported (Handler cfg C p pattern h options))
  ∧ (∀ method pattern f p',
       AddMethod cfg C p method pattern f = Some p' → verbs_supported p')
  ∧ (∀ pattern c mappingMethods p',
       Add cfg C R p pattern c mappingMethods = Some p' → verbs_supported p')
  ∧ (∀ except prefix c, verbs_supported (AddAutoPrefix cfg C except p prefix c))
  ∧ (∀ pattern pos filter params,
       routers (InsertFilter cfg C p pattern pos filter params) = routers p).
Proof.
  intros Hp. repeat apply conj.
  - intros pattern h options. unfold Handler.
    apply addToRouter_fold_supported; [reflexivity | exact Hp].
  - intros method pattern f p' H. exact (AddMethod_supported _ _ _ _ _ _ _ H Hp).
  - intros pattern c mm p' H. exact (Add_supported _ _ _ _ _ _ _ _ H Hp).
  - intros except prefix c. apply AddAutoPrefix_supported, Hp.
  - reflexivity.
Qed.

(** The empty register has no trie at all. *)
Lemma registration_keeps_verbs_supported_witness :
  verbs_supported
    (Handler Toy.config (Toy.collaborators (λ _, None)) NewControllerRegister
       "/files" raw_file []).
Proof.
  apply (registration_keeps_verbs_supported Toy.config (Toy.collaborators (λ _, None))
           Toy.range NewControllerRegister).
  intros m [t Ht]. simpl in Ht. rewrite lookup_empty in Ht. discriminate.
Defined.

Lemma Split_not_nil (s : string) (sep : ascii) : GoStr.Split s sep ≠ [].
Proof.
  unfold GoStr.Split. generalize EmptyString as cur.
  induction s as [|x s IH]; intros cur; cbn [GoStr.split_from]; [discriminate|].
  destruct (Ascii.eqb x sep); [discriminate | apply IH].
Qed.

Lemma verb_ok_spec (m : string) :
  String.eqb m "*" || bool_decide (is_Some (HTTPMETHOD !! GoStr.ToUpper m)) = true
  ↔ verb_ok m.
Proof.
  unfold verb_ok. rewrite orb_true_iff, String.eqb_eq, bool_decide_eq_true.
  rewrite HTTPMETHOD_supported. reflexivity.
Qed.

Lemma Add_comma_Some c name comma ms :
  is_Some (Add_comma c name comma ms)
  ↔ Forall verb_ok comma ∧ (comma ≠ [] → name ∈ cv_methods c).
Proof.
  revert ms. induction comma as [|m rest IH]; intros ms; cbn [Add_comma].
  - split; [intros _; split; [apply List.Forall_nil | intros H; destruct (H eq_refl)]|].
    intros _. eexists. reflexivity.
  - destruct (String.eqb m "*" || bool_decide (is_Some (HTTPMETHOD !! GoStr.ToUpper m)))
      eqn:Eok.
    + apply verb_ok_spec in Eok.
      destruct (bool_decide (name ∈ cv_methods c)) eqn:En.
      * apply bool_decide_eq_true in En. rewrite IH. split.
        -- intros [Hall _]. split; [apply List.Forall_cons; assumption | intros _; exact En].
        -- intros [Hall _]. apply Forall_cons in Hall as [_ Hall].
           split; [exact Hall | intros _; exact En].
      * apply bool_decide_eq_false in En. split; [intros [x Hx]; discriminate Hx|].
        intros [_ Hn]. destruct En. apply Hn. discriminate.
    + split; [intros [x Hx]; discriminate Hx|].
      intros [Hall _]. apply Forall_cons in Hall as [Hm _].
      apply verb_ok_spec in Hm. rewrite Hm in Eok. discriminate Eok.
Qed.

Lemma Add_semi_None c semi ms :
  Add_semi c semi ms = None ↔ Exists (λ v, ¬ entry_ok c v) semi.
Proof.
  revert ms. induction semi as [|v rest IH]; intros ms; cbn [Add_semi].
  - split; [discriminate | intros H; inversion H].
  - assert (Hshape : (∀ verbs name, GoStr.Split v ":"%char ≠ [verbs; name]) →
                     (None = None :> option (gmap string string))
                     ↔ Exists (λ v, ¬ entry_ok c v) (v :: rest)).
    { intros Hne. split; [|reflexivity]. intros _. apply Exists_cons_hd.
      intros (verbs & name & Hs & _). exact (Hne _ _ Hs). }
    destruct (GoStr.Split v ":"%char) as [|verbs [|name [|x l]]] eqn:Es;
      try (apply Hshape; intros; discriminate).
    destruct (Add_comma c name (GoStr.Split verbs ","%char) ms) as [ms1|] eqn:Ec.
    + assert (Hok : entry_ok c v).
      { exists verbs, name. split; [exact Es|].
        destruct (proj1 (Add_comma_Some c name (GoStr.Split verbs ","%char) ms))
          as [Hall Hin];
          [rewrite Ec; eexists; reflexivity|].
        split; [apply Hin, Split_not_nil | exact Hall]. }
      rewrite IH. split; [intros H; apply Exists_cons_tl, H|].
      intros H. apply Exists_cons in H as [H | H]; [destruct (H Hok) | exact H].
    + split; [|reflexivity]. intros _. apply Exists_cons_hd.
      intros (verbs' & name' & Hs & Hin & Hall).
      rewrite Es in Hs. injection Hs as <- <-.
      destruct (proj2 (Add_comma_Some c name (GoStr.Split verbs ","%char) ms)) as [x Hx];
        [split; [exact Hall | intros _; exact Hin]|].
      rewrite Ec in Hx. discriminate Hx.
Qed.

Lemma Add_comma_dom c name comma ms ms' :
  Add_comma c name comma ms = Some ms' →
  (∀ k, is_Some (ms !! k) → is_Some (ms' !! k))
  ∧ ∀ m, m ∈ comma → is_Some (ms' !! GoStr.ToUpper m).
Proof.
  revert ms. induction comma as [|m rest IH]; intros ms H; cbn [Add_comma] in H.
  - injection H as <-. split; [auto|]. intros m Hm. inversion Hm.
  - destruct (_ || _); [|discriminate]. destruct (bool_decide _); [|discriminate].
    destruct (IH _ H) as [Hmono Hin]. split.
    + intros k Hk. apply Hmono. rewrite lookup_insert_is_Some. 
      destruct (decide (GoStr.ToUpper m = k)); [left; assumption | right; split; assumption].
    + intros m' Hm'. apply elem_of_cons in Hm' as [-> | Hm']; [|exact (Hin _ Hm')].
      apply Hmono. rewrite lookup_insert_eq. eexists. reflexivity.
Qed.

Lemma Add_semi_dom c semi ms ms' :
  Add_semi c semi ms = Some ms' →
  (∀ k, is_Some (ms !! k) → is_Some (ms' !! k))
  ∧ ∀ v verbs name m, v ∈ semi → GoStr.Split v ":"%char = [verbs; name] →
      m ∈ GoStr.Split verbs ","%char → is_Some (ms' !! GoStr.ToUpper m).
Proof.
  revert ms. induction semi as [|v rest IH]; intros ms H; cbn [Add_semi] in H.
  - injection H as <-. split; [auto|]. intros v verbs name m Hv. inversion Hv.
  - destruct (GoStr.Split v ":"%char) as [|verbs [|name [|x l]]] eqn:Es; try discriminate.
    destruct (Add_comma c name _ ms) as [ms1|] eqn:Ec; [|discriminate].
    destruct (Add_comma_dom _ _ _ _ _ Ec) as [Hmono1 Hin1].
    destruct (IH _ H) as [Hmono Hin]. split.
    + intros k Hk. apply Hmono, Hmono1, Hk.
    + intros v' verbs' name' m Hv' Hs Hm.
      apply elem_of_cons in Hv' as [-> | Hv']; [|exact (Hin _ _ _ _ Hv' Hs Hm)].
      rewrite Es in Hs. injection Hs as <- <-. apply Hmono, Hin1, Hm.
Qed.

Lemma Add_step_routers cfg C p k pattern route m :
  routers (if String.eqb k "*" then addToRouter_all cfg C p pattern route
           else addToRouter cfg C p k pattern route) !! m
  = if Add_hits k m
    then Some (AddRouter C (default NewTree (routers p !! m)) (folded cfg pattern)
                 (RObjController route))
    else routers p !! m.
Proof.
  unfold Add_hits, addToRouter_all. destruct (String.eqb k "*").
  - rewrite addToRouter_fold_routers by apply HTTPMETHOD_list_NoDup.
    destruct (decide (m ∈ HTTPMETHOD_list)) as [Hm|Hm].
    + rewrite bool_decide_eq_true_2 by exact Hm. reflexivity.
    + rewrite bool_decide_eq_false_2 by exact Hm. reflexivity.
  - rewrite addToRouter_routers. destruct (decide (m = k)) as [->|Hne].
    + rewrite String.eqb_refl. reflexivity.
    + apply String.eqb_neq in Hne. rewrite Hne. reflexivity.
Qed.

Lemma Add_fold_routers cfg C (l : list string) p pattern route m :
  routers (foldl (λ p k, if String.eqb k "*" then addToRouter_all cfg C p pattern route
                         else addToRouter cfg C p k pattern route) p l) !! m
  = foldl (λ o k, if Add_hits k m
                  then Some (AddRouter C (default NewTree o) (folded cfg pattern)
                               (RObjController route))
                  else o)
          (routers p !! m) l.
Proof.
  revert p. induction l as [|k l IH]; intros p; [reflexivity|].
  cbn [foldl]. rewrite IH, Add_step_routers. reflexivity.
Qed.

(** X4: the method map [Add] builds from a mapping holds only supported
    verbs, in upper case, or ["*"], each mapped to a method the controller
    has, and it holds every verb of the mapping.  [Add] reads its first
    mapping argument only, and panics exactly when one of the entries of
    that argument, separated by [;], is not of the form [verbs:method] with
    a method the controller has and with verbs, separated by commas, that
    are supported or ["*"].  Without a mapping the route goes, with an
    empty method map, to the tries of all nine verbs; with one it goes, for
    each key of the method map, to the trie of the key, or to the tries of
    the nine verbs for the key ["*"]. *)
Theorem Add_mapping_valid (cfg : Config) (C : Collaborators) (R : RangeOrder)
    (p : ControllerRegister) (pattern : string) (c : ControllerValue) :
  (∀ mappingMethods ms, Add_methods c mappingMethods = Some ms → valid_methods c ms)
  ∧ (∀ mm rest,
       Add cfg C R p pattern c (mm :: rest) = None
       ↔ Exists (λ v, ¬ entry_ok c v) (GoStr.Split mm ";"%char))
  ∧ (∀ mm rest ms,
       Add_methods c (mm :: rest) = Some ms →
       ∀ v verbs name m,
         v ∈ GoStr.Split mm ";"%char → GoStr.Split v ":"%char = [verbs; name] →
         m ∈ GoStr.Split verbs ","%char → is_Some (ms !! GoStr.ToUpper m))
  ∧ (∀ mm rest, Add cfg C R p pattern c (mm :: rest) = Add cfg C R p pattern c [mm])
  ∧ Add cfg C R p pattern c [] = Some (addToRouter_all cfg C p pattern (Add_route pattern c ∅))
  ∧ (∀ mappingMethods ms,
       Add_methods c mappingMethods = Some ms → ms ≠ ∅ →
       ∃ p', Add cfg C R p pattern c mappingMethods = Some p'
             ∧ filters p' = filters p
             ∧ ∀ m, routers p' !! m
                    = foldl (λ o k, if Add_hits k m
                                    then Some (AddRouter C (default NewTree o)
                                                 (folded cfg pattern)
                                                 (RObjController (Add_route pattern c ms)))
                                    else o)
                            (routers p !! m) (map fst (range_of R ms))).
Proof.
  repeat apply conj.
  - intros mm ms. apply Add_methods_valid.
  - intros mm rest. rewrite <- (Add_semi_None c _ ∅). unfold Add, Add_methods.
    destruct (Add_semi c (GoStr.Split mm ";"%char) ∅); [|split; reflexivity].
    destruct (decide _); split; discriminate.
  - intros mm rest ms H. exact (proj2 (Add_semi_dom _ _ _ _ H)).
  - intros mm rest. reflexivity.
  - reflexivity.
  - intros mm ms Hms Hne. unfold Add. rewrite Hms.
    rewrite decide_False by (intros Hz; apply Hne, map_size_empty_iff, Hz).
    fold (Add_route pattern c ms). eexists. split; [reflexivity|]. split.
    + generalize (map fst (range_of R ms)) as l. intros l. revert p.
      induction l as [|k l IH]; intros p; [reflexivity|].
      cbn [foldl]. rewrite IH. destruct (String.eqb k "*").
      * apply (proj1 (addToRouter_fold_filters cfg C _ _ _ _)).
      * apply (proj1 (addToRouter_filters cfg C _ _ _ _)).
    + intros m. apply Add_fold_routers.
Qed.

(** A mapping whose second entry names no method makes [Add] panic. *)
Lemma Add_mapping_valid_witness :
  Add Toy.config (Toy.collaborators (λ _, None)) Toy.range NewControllerRegister
    "/user" user_controller ["get,post:Get;put"] = None.
Proof.
  apply (proj2 (proj1 (proj2 (Add_mapping_valid Toy.config (Toy.collaborators (λ _, None))
                                Toy.range NewControllerRegister "/user" user_controller))
                  "get,post:Get;put" [])).
  change (GoStr.Split "get,post:Get;put" ";") with ["get,post:Get"; "put"].
  apply Exists_cons_tl, Exists_cons_hd.
  intros (verbs & name & Hs & _). discriminate Hs.
Defined.

Lemma InSlice_app (n : string) (l1 l2 : list string) :
  InSlice n (l1 ++ l2) = InSlice n l1 || InSlice n l2.
Proof. unfold InSlice. apply existsb_app. Qed.

Section AutoRoutes.
Context (cfg : Config) (C : Collaborators).

(** One verb gets the four patterns of a method. *)
Lemma auto_verb_routers p k (pats : list string) route m :
  routers (foldl (λ p pat, addToRouter cfg C p k pat route) p pats) !! m
  = if decide (m = k)
    then match pats with
         | [] => routers p !! m
         | _ => Some (foldl (λ t pat, AddRouter C t (folded cfg pat) (RObjController route))
                            (default NewTree (routers p !! m)) pats)
         end
    else routers p !! m.
Proof.
  revert p. induction pats as [|pat pats IH]; intros p.
  - cbn [foldl]. destruct (decide (m = k)); reflexivity.
  - cbn [foldl]. rewrite IH, addToRouter_routers.
    destruct (decide (m = k)) as [->|Hne]; [|reflexivity].
    destruct pats; reflexivity.
Qed.

Lemma auto_verbs_routers (l : list string) p (pats : list string) route m :
  NoDup l → pats ≠ [] →
  routers (foldl (λ p k, foldl (λ p pat, addToRouter cfg C p k pat route) p pats) p l) !! m
  = if decide (m ∈ l)
    then Some (foldl (λ t pat, AddRouter C t (folded cfg pat) (RObjController route))
                     (default NewTree (routers p !! m)) pats)
    else routers p !! m.
Proof.
  intros Hnd Hpats. revert p. induction Hnd as [|k l Hk Hnd IH]; intros p.
  - cbn [foldl]. rewrite decide_False by (intros H; inversion H). reflexivity.
  - cbn [foldl]. rewrite IH, auto_verb_routers.
    destruct (decide (m = k)) as [->|Hne].
    + rewrite decide_False by exact Hk. rewrite decide_True by left.
      destruct pats; [destruct (Hpats eq_refl) | reflexivity].
    + destruct (decide (m ∈ l)) as [Hin|Hnin].
      * rewrite decide_True by (right; exact Hin). reflexivity.
      * rewrite decide_False; [reflexivity|].
        intros H. apply elem_of_cons in H as [H|H]; [exact (Hne H) | exact (Hnin H)].
Qed.

Lemma AddAutoPrefix_routers except p prefix c m :
  routers (AddAutoPrefix cfg C except p prefix c) !! m
  = if decide (m ∈ HTTPMETHOD_list)
    then foldl (λ o name,
                  Some (foldl (λ t pat, AddRouter C t (folded cfg pat)
                                          (RObjController (auto_route c prefix name)))
                              (default NewTree o)
                              (auto_patterns prefix
                                 (TrimSuffix (Name (cv_type c)) "Controller") name)))
               (routers p !! m)
               (filter (λ n, InSlice n except = false) (cv_methods c))
    else routers p !! m.
Proof.
  unfold AddAutoPrefix. cbv zeta.
  generalize (cv_methods c) as names. intros names. revert p.
  induction names as [|n names IH]; intros p.
  - cbn [foldl]. rewrite filter_nil. destruct (decide _); reflexivity.
  - cbn [foldl]. rewrite IH. destruct (InSlice n except) eqn:En; cbn [negb].
    + rewrite filter_cons_False by (rewrite En; discriminate). reflexivity.
    + rewrite filter_cons_True by exact En. cbn [foldl].
      match goal with
      | |- context [routers ?X !! m] =>
          change X with
            (foldl (λ p k, foldl (λ p pat, addToRouter cfg C p k pat (auto_route c prefix n)) p
                             (auto_patterns prefix
                                (TrimSuffix (Name (cv_type c)) "Controller") n))
                   p HTTPMETHOD_list)
      end.
      rewrite (auto_verbs_routers HTTPMETHOD_list p _ _ m HTTPMETHOD_list_NoDup)
        by discriminate.
      destruct (decide (m ∈ HTTPMETHOD_list)); reflexivity.
Qed.

Lemma auto_fold_is_Some {A} (F : option A → string → A) (o : option A) (l : list string) :
  l ≠ [] → is_Some (foldl (λ o n, Some (F o n)) o l).
Proof.
  revert o. induction l as [|n [|n' l] IH]; intros o Hl.
  - destruct (Hl eq_refl).
  - eexists. reflexivity.
  - cbn [foldl]. apply (IH (Some (F o n))). discriminate.
Qed.

End AutoRoutes.

(** X5: [AddAutoPrefix] routes the methods of the controller that are not
    in the except list and no others.  For each of them, in the order of
    reflection, the trie of each of the nine verbs gets a route to the
    method under four patterns (with and without a final [*], in lower case
    and as written); the tries of other verbs stay as they were.  So a
    method that is not excepted has a route in the trie of every verb, and
    [AddAutoPrefix] registers what it would for the controller without its
    excepted methods, nothing when all are excepted; after
    [ExceptMethodAppend] the appended name is excepted too; the filters stay
    as they were. *)
Theorem AddAutoPrefix_skips_excepted (cfg : Config) (C : Collaborators)
    (except : list string) (p : ControllerRegister) (prefix : string) (c : ControllerValue) :
  (∀ m, routers (AddAutoPrefix cfg C except p prefix c) !! m
        = if decide (m ∈ HTTPMETHOD_list)
          then foldl (λ o name,
                        Some (foldl (λ t pat, AddRouter C t (folded cfg pat)
                                                (RObjController (auto_route c prefix name)))
                                    (default NewTree o)
                                    (auto_patterns prefix
                                       (TrimSuffix (Name (cv_type c)) "Controller") name)))
                     (routers p !! m)
                     (filter (λ n, InSlice n except = false) (cv_methods c))
          else routers p !! m)
  ∧ (∀ n m, n ∈ cv_methods c → InSlice n except = false → m ∈ HTTPMETHOD_list →
            is_Some (routers (AddAutoPrefix cfg C except p prefix c) !! m))
  ∧ AddAutoPrefix cfg C except p prefix c
  = AddAutoPrefix cfg C except p prefix
      {| cv_type := cv_type c;
         cv_methods := filter (λ n, InSlice n except = false) (cv_methods c) |}
  ∧ (Forall (λ n, InSlice n except = true) (cv_methods c) →
     AddAutoPrefix cfg C except p prefix c = p)
  ∧ (∀ action n, InSlice n (ExceptMethodAppend except action)
                 = InSlice n except || String.eqb n action)
  ∧ filters (AddAutoPrefix cfg C except p prefix c) = filters p
  ∧ enableFilter (AddAutoPrefix cfg C except p prefix c) = enableFilter p.
Proof.
  split; [intros m; apply AddAutoPrefix_routers|].
  split.
  { intros n m Hn Hex Hm. rewrite AddAutoPrefix_routers.
    rewrite decide_True by exact Hm.
    apply (auto_fold_is_Some
             (λ o name, foldl (λ t pat, AddRouter C t (folded cfg pat)
                                          (RObjController (auto_route c prefix name)))
                              (default NewTree o)
                              (auto_patterns prefix
                                 (TrimSuffix (Name (cv_type c)) "Controller") name))).
    intros Hnil.
    assert (Hin : n ∈ filter (λ n, InSlice n except = false) (cv_methods c))
      by (apply list_elem_of_filter; split; assumption).
    rewrite Hnil in Hin. inversion Hin. }
  unfold AddAutoPrefix. cbn [cv_type cv_methods].
  generalize (TrimSuffix (Name (cv_type c)) "Controller") as cname. intros cname.
  generalize (cv_methods c) as names. intros names.
  repeat apply conj.
  - revert p. induction names as [|n names IH]; intros p; [reflexivity|].
    cbn [foldl]. rewrite filter_cons. destruct (InSlice n except) eqn:En.
    + rewrite decide_False by discriminate. cbn [negb]. apply IH.
    + rewrite decide_True by reflexivity. cbn [negb foldl]. rewrite En. cbn [negb]. apply IH.
  - intros Hall. revert p. induction Hall as [|n names Hn _ IH]; intros p; [reflexivity|].
    cbn [foldl]. rewrite Hn. cbn [negb]. apply IH.
  - intros action n. unfold ExceptMethodAppend. rewrite InSlice_app.
    unfold InSlice at 2. cbn [existsb]. rewrite orb_false_r. reflexivity.
  - revert p. induction names as [|n names IH]; intros p; [reflexivity|].
    cbn [foldl]. rewrite IH. destruct (negb (InSlice n except)); [|reflexivity].
    cbv zeta. generalize HTTPMETHOD_list as l. intros l. revert p.
    induction l as [|m l IHl]; intros p; [reflexivity|].
    cbn [foldl]. rewrite IHl.
    repeat (etrans; [apply addToRouter_filters|]). reflexivity.
  - revert p. induction names as [|n names IH]; intros p; [reflexivity|].
    cbn [foldl]. rewrite IH. destruct (negb (InSlice n except)); [|reflexivity].
    cbv zeta. generalize HTTPMETHOD_list as l. intros l. revert p.
    induction l as [|m l IHl]; intros p; [reflexivity|].
    cbn [foldl]. rewrite IHl.
    repeat (etrans; [apply addToRouter_filters|]). reflexivity.
Qed.

(** [List] is not excepted and gets a route for GET; [Init] is excepted. *)
Lemma AddAutoPrefix_skips_excepted_witness :
  is_Some (routers (AddAutoPrefix Toy.config (Toy.collaborators (λ _, None)) exceptMethod
                      NewControllerRegister "/admin" user_controller) !! "GET").
Proof.
  apply (proj1 (proj2 (AddAutoPrefix_skips_excepted Toy.config (Toy.collaborators (λ _, None))
                         exceptMethod NewControllerRegister "/admin" user_controller))
           "List" "GET").
  - apply (bool_decide_unpack _). vm_compute. reflexivity.
  - vm_compute. reflexivity.
  - apply (bool_decide_unpack _). vm_compute. reflexivity.
Defined.

(** ** The dispatcher, continued *)

Lemma bind_Ok_inv {A B} (m : M A) (k : A → M B) (s s' : World) (b : B) :
  (m ≫= k) s = Ok b s' → ∃ a s1, m s = Ok a s1 ∧ k a s1 = Ok b s'.
Proof.
  unfold mbind, M_bind. destruct (m s) as [a s1|e s1]; [|discriminate].
  intros H. exists a, s1. split; [reflexivity | exact H].
Qed.

(** What the code from [Admin] on does to the state *)
Lemma Admin_effect (cfg : Config) (C : Collaborators) (r : Request) (L : Locals) (s : World) :
  ∃ s', Admin cfg C r L s = Ok tt s'
        ∧ w s' = (if (Status (context s) =? 0)%Z then w s
                  else host_WriteHeader (Status (context s)) (w s))
        ∧ context s' = context s
        ∧ extends_with admin_event s s'.
Proof.
  assert (Hext : extends_with admin_event s (world_of (Admin cfg C r L s))).
  { apply (Admin_preserves cfg C r _ _ (extends_with_stable admin_event s));
      [intros e He; exact He | apply extends_with_refl]. }
  revert Hext.
  unfold Admin, mbind, M_bind, get, log, mret, M_ret, set_w.
  destruct (EnableAdmin cfg), (FilterMonitorFunc C r),
    (String.eqb (RunMode cfg) "dev" || AccessLogs cfg), (DefaultAccessLogFilter cfg) as [f|];
    cbn [w context trace];
    try (destruct (negb (f r (context s))); cbn [w context trace]);
    destruct (Status (context s) =? 0)%Z; cbn [w context trace negb world_of];
    intros Hext; eexists; (split; [reflexivity|]); cbn [w context trace];
    (split; [destruct (w s); reflexivity|]); (split; [reflexivity | exact Hext]).
Qed.

Lemma http_Error_effect (error : string) (code : Z) (s : World) :
  ∃ s1, http_Error error code s = Ok tt s1
        ∧ w s1 = Write (error ++ String (ascii_of_nat 10) EmptyString)
                   (WriteHeader code
                      (Header_Set "X-Content-Type-Options" "nosniff"
                         (Header_Set "Content-Type" "text/plain; charset=utf-8" (w s))))
        ∧ context s1 = context s
        ∧ extends_with op_event s s1.
Proof.
  assert (Hext : extends_with op_event s (world_of (http_Error error code s))).
  { apply (exec_ops_preserves op_event _ (extends_with_stable op_event s));
      [intros o; exact Logic.I | apply extends_with_refl]. }
  revert Hext. unfold http_Error. cbn. intros Hext.
  eexists. split; [reflexivity|]. repeat split. exact Hext.
Qed.

(** X6: a request whose method is not one of the nine supported verbs is
    answered by [ServeHTTP] itself: the host gets the server header in run
    mode "dev", then the plain-text 405 "Method Not Allowed", and nothing
    else; no panic, the context untouched; no filter, static server,
    session, lookup or handler takes part: the trace holds the operations of
    the answer and events of the code from [Admin] on only. *)
Theorem unsupported_method_answered (cfg : Config) (C : Collaborators) (R : RangeOrder)
    (p : ControllerRegister) (r : Request) (rw : hostWriter) :
  Method r ∉ HTTPMETHOD_list →
  ∃ s', ServeHTTP cfg C R p r rw = Ok tt s'
        ∧ calls (writer (w s'))
          = (calls rw
             ++ (if String.eqb (RunMode cfg) "dev"
                 then [WHeaderSet "Server" (BeegoServerName cfg)] else [])
             ++ method_not_allowed)%list
        ∧ started (w s') = true
        ∧ status (w s') = 405%Z
        ∧ context s' = Context0
        ∧ Forall (λ o, op_event (ev o) ∨ admin_event (ev o)) (trace s').
Proof.
  intros Hnot.
  assert (Hb : bool_decide (is_Some (HTTPMETHOD !! Method r)) = false).
  { apply bool_decide_eq_false_2. intros Hs. apply Hnot, HTTPMETHOD_supported, Hs. }
  assert (Hbody : ∀ s, started (w s) = false → context s = Context0 → trace s = [] →
            ∃ s', ServeHTTP_body cfg C R p r s = Ok tt s'
                  ∧ calls (writer (w s')) = (calls (writer (w s)) ++ method_not_allowed)%list
                  ∧ started (w s') = true ∧ status (w s') = 405%Z
                  ∧ context s' = Context0
                  ∧ Forall (λ o, op_event (ev o) ∨ admin_event (ev o)) (trace s')).
  { intros s Hst Hctx Htr. unfold ServeHTTP_body. rewrite Hb. cbn [negb].
    unfold mbind, M_bind.
    destruct (http_Error_effect "Method Not Allowed" 405 s)
      as (s1 & -> & Hw1 & Hc1 & (l1 & Hl1 & HQ1)).
    destruct (Admin_effect cfg C r Locals0 s1) as (s' & -> & Hw & Hc & (l & Hl & HQ)).
    exists s'. split; [reflexivity|].
    rewrite Hc1, Hctx in Hw, Hc. cbn in Hw. rewrite Hw, Hw1, Hc, Hl, Hl1, Htr.
    cbn. rewrite <- !app_assoc. repeat split.
    apply Forall_app. split.
    - eapply Forall_impl; [exact HQ1 | intros o Ho; left; exact Ho].
    - eapply Forall_impl; [exact HQ | intros o Ho; right; exact Ho]. }
  unfold ServeHTTP. unfold mbind at 1, M_bind at 1.
  destruct (String.eqb (RunMode cfg) "dev"); cbn [set_w mret M_ret];
    match goal with |- context [ServeHTTP_body cfg C R p r ?s] =>
      destruct (Hbody s) as (s' & -> & Hcalls & Hst & Hstat & Hc & HQ);
        [reflexivity | reflexivity | reflexivity |]
    end;
    exists s'; (split; [reflexivity|]); rewrite Hcalls; cbn;
    rewrite ?app_nil_r, <- ?app_assoc; repeat split; assumption.
Qed.

Section EarlyExits.
Context (cfg : Config) (C : Collaborators) (R : RangeOrder).
Context (p : ControllerRegister) (r : Request).

(** The start of [ServeHTTP_body], up to the static server *)
Lemma static_stage (s s1 : World) (o : Outcome unit) :
  Method r ∈ HTTPMETHOD_list →
  doFilter cfg C R p r BeforeStatic s = Ok false s1 →
  run (serverStaticRouter C) (logged s1 [EvStatic]) = o →
  extends_with static_stage_event s (world_of o)
  ∧ ServeHTTP_body cfg C R p r s
    = match o with
      | Ok _ s2 =>
          if started (w s2) then Admin cfg C r Locals_static s2
          else if SessionOn cfg then
            (log EvSessionStart ;;
             sess ← run_ret (SessionStart C);
             set_context (with_CruSession sess) ;;
             match sess with
             | None => log EvError ;; log (EvException "503") ;; run (exception C "503")
             | Some _ => defer (log EvSessionRelease ;; run (SessionRelease C))
                           (route cfg C R p r)
             end) s2
          else route cfg C R p r s2
      | Panicked e s2 => Panicked e s2
      end.
Proof.
  intros Hm Hbs Ho. split.
  - subst o. apply (run_preserves static_stage_event _ (extends_with_stable _ s)).
    + intros op. left. exact Logic.I.
    + assert (H1 : extends_with static_stage_event s s1).
      { change s1 with (world_of (Ok false s1)). rewrite <- Hbs.
        apply (doFilter_preserves cfg C R p r _ _ (extends_with_stable _ s)).
        - intros e He. left. exact He.
        - intros e He. right. left. exact He.
        - apply extends_with_refl. }
      destruct H1 as [l [Hl HQ]]. exists (l ++ [observed s1 EvStatic])%list. split.
      * simpl. rewrite Hl, app_assoc. reflexivity.
      * apply Forall_app. split; [exact HQ|].
        apply List.Forall_cons; [|apply List.Forall_nil]. right. right. reflexivity.
  - unfold ServeHTTP_body.
    rewrite bool_decide_eq_true_2 by (apply HTTPMETHOD_supported, Hm). cbn [negb].
    unfold mbind at 1, M_bind at 1. rewrite Hbs.
    unfold mbind at 1, M_bind at 1. cbn [log].
    unfold mbind at 1, M_bind at 1.
    change {| w := w s1; context := context s1;
              trace := trace s1 ++ [{| ev := EvStatic; at_started := started (w s1) |}] |}
      with (logged s1 [EvStatic]).
    rewrite Ho. destruct o as [[] s2|e s2]; [|reflexivity].
    unfold mbind at 1, M_bind at 1, get. cbv beta iota.
    destruct (started (w s2)); [reflexivity|]. destruct (SessionOn cfg); reflexivity.
Qed.

(** X7: when the static server answers (the response has started after
    it), [ServeHTTP] goes to the code from [Admin] on, the request counted as
    matched; no session is started, no later filter runs, no trie is looked
    up, no handler is called. *)
Theorem static_answer_ends_request (s s1 s2 : World) :
  Method r ∈ HTTPMETHOD_list →
  doFilter cfg C R p r BeforeStatic s = Ok false s1 →
  run (serverStaticRouter C) (logged s1 [EvStatic]) = Ok tt s2 →
  started (w s2) = true →
  ServeHTTP_body cfg C R p r s = Admin cfg C r Locals_static s2
  ∧ extends_with (λ e, static_stage_event e ∨ admin_event e) s
      (world_of (ServeHTTP_body cfg C R p r s)).
Proof.
  intros Hm Hbs Hst Hstarted.
  destruct (static_stage s s1 _ Hm Hbs Hst) as [Hext Heq]. cbn [world_of] in Hext.
  rewrite Hstarted in Heq. split; [exact Heq|]. rewrite Heq.
  apply (Admin_preserves cfg C r _ _ (extends_with_stable _ s)).
  - intros e He. right. exact He.
  - eapply extends_with_weaken; [|exact Hext]. intros e He. left. exact He.
Qed.

(** X8: when sessions are on and the session cannot be started, [ServeHTTP]
    logs the error, raises the ["503"] exception and returns: the code from
    [Admin] on is not run (no statistics, no access log, no write-through of
    a status set before), nothing is released, no trie is looked up and no
    handler is called. *)
Theorem session_failure_returns (s s1 s2 s3 : World) :
  Method r ∈ HTTPMETHOD_list →
  doFilter cfg C R p r BeforeStatic s = Ok false s1 →
  run (serverStaticRouter C) (logged s1 [EvStatic]) = Ok tt s2 →
  started (w s2) = false →
  SessionOn cfg = true →
  run_ret (SessionStart C) (logged s2 [EvSessionStart]) = Ok None s3 →
  ServeHTTP_body cfg C R p r s
  = run (exception C "503")
        (logged (logged (with_session None s3) [EvError]) [EvException "503"])
  ∧ extends_with session_failure_event s (world_of (ServeHTTP_body cfg C R p r s))
  ∧ (∀ e, session_failure_event e →
          ¬ admin_event e ∧ e ≠ EvSessionRelease ∧ ¬ lookup_event e ∧ ¬ handler_event e).
Proof.
  intros Hm Hbs Hst Hnot Hon Hsess.
  destruct (static_stage s s1 _ Hm Hbs Hst) as [Hext Heq]. cbn [world_of] in Hext.
  rewrite Hnot, Hon in Heq.
  assert (Heq' : ServeHTTP_body cfg C R p r s
                 = run (exception C "503")
                       (logged (logged (with_session None s3) [EvError])
                          [EvException "503"])).
  { rewrite Heq. unfold mbind at 1, M_bind at 1. cbn [log].
    unfold mbind at 1, M_bind at 1.
    change {| w := w s2; context := context s2;
              trace := trace s2 ++ [{| ev := EvSessionStart; at_started := started (w s2) |}] |}
      with (logged s2 [EvSessionStart]).
    rewrite Hsess. reflexivity. }
  split; [exact Heq'|]. split.
  - rewrite Heq'.
    apply (run_preserves session_failure_event _ (extends_with_stable _ s)).
    + intros op. left. left. exact Logic.I.
    + assert (H3 : extends_with session_failure_event s s3).
      { change s3 with (world_of (Ok (None : option string) s3)). rewrite <- Hsess.
        apply (run_ret_preserves session_failure_event _ (extends_with_stable _ s)).
        - intros op. left. left. exact Logic.I.
        - destruct Hext as [l [Hl HQ]].
          exists (l ++ [observed s2 EvSessionStart])%list. split.
          + simpl. rewrite Hl, app_assoc. reflexivity.
          + apply Forall_app. split.
            * eapply Forall_impl; [exact HQ | intros o Ho; left; exact Ho].
            * apply List.Forall_cons; [|apply List.Forall_nil]. right. left. reflexivity. }
      destruct H3 as [l [Hl HQ]].
      exists (l ++ [observed (with_session None s3) EvError;
                    observed (with_session None s3) (EvException "503")])%list. split.
      * simpl. rewrite Hl, <- !app_assoc. reflexivity.
      * apply Forall_app. split; [exact HQ|].
        apply List.Forall_cons; [right; right; left; reflexivity|].
        apply List.Forall_cons; [right; right; right; reflexivity | apply List.Forall_nil].
  - intros e [[Ho | [Hf | ->]] | [-> | [-> | ->]]]; try (repeat split; simpl; tauto || congruence).
    + destruct e; simpl in *; try contradiction. repeat split; simpl; tauto || congruence.
    + destruct e; simpl in *; try contradiction. repeat split; simpl; tauto || congruence.
Qed.

(** X9: once the session is started, its release runs when the rest of
    the request ends, normally or by a panic: the release is logged after
    everything the rest of the request logged, and a panic of the rest of
    the request still leaves [ServeHTTP_body] as a panic. *)
Theorem session_released_at_end (s s1 s2 s3 : World) (sid : string) :
  Method r ∈ HTTPMETHOD_list →
  doFilter cfg C R p r BeforeStatic s = Ok false s1 →
  run (serverStaticRouter C) (logged s1 [EvStatic]) = Ok tt s2 →
  started (w s2) = false →
  SessionOn cfg = true →
  run_ret (SessionStart C) (logged s2 [EvSessionStart]) = Ok (Some sid) s3 →
  let o := route cfg C R p r (with_session (Some sid) s3) in
  (∃ l, trace (world_of (ServeHTTP_body cfg C R p r s))
        = (trace (world_of o) ++ observed (world_of o) EvSessionRelease :: l)%list
        ∧ Forall (λ x, op_event (ev x)) l)
  ∧ CruSession (context (with_session (Some sid) s3)) = Some sid
  ∧ (panicked o → panicked (ServeHTTP_body cfg C R p r s)).
Proof.
  intros Hm Hbs Hst Hnot Hon Hsess o.
  destruct (static_stage s s1 _ Hm Hbs Hst) as [_ Heq].
  rewrite Hnot, Hon in Heq.
  assert (Heq' : ServeHTTP_body cfg C R p r s
                 = defer (log EvSessionRelease ;; run (SessionRelease C))
                     (route cfg C R p r) (with_session (Some sid) s3)).
  { rewrite Heq. unfold mbind at 1, M_bind at 1. cbn [log].
    unfold mbind at 1, M_bind at 1.
    change {| w := w s2; context := context s2;
              trace := trace s2 ++ [{| ev := EvSessionStart; at_started := started (w s2) |}] |}
      with (logged s2 [EvSessionStart]).
    rewrite Hsess. reflexivity. }
  rewrite Heq'. unfold defer. fold o.
  assert (Hrel : ∀ s4, ∃ l,
            trace (world_of ((log EvSessionRelease ;; run (SessionRelease C)) s4))
            = (trace s4 ++ observed s4 EvSessionRelease :: l)%list
            ∧ Forall (λ x, op_event (ev x)) l).
  { intros s4. unfold mbind, M_bind. cbn [log].
    destruct (run_preserves op_event _ (extends_with_stable _ (logged s4 [EvSessionRelease]))
                (SessionRelease C) (λ _, Logic.I) _ (extends_with_refl _ _)) as [l [Hl HQ]].
    exists l. split; [|exact HQ].
    change {| w := w s4; context := context s4;
              trace := trace s4 ++ [{| ev := EvSessionRelease; at_started := started (w s4) |}] |}
      with (logged s4 [EvSessionRelease]).
    rewrite Hl. simpl. rewrite <- app_assoc. reflexivity. }
  split; [|split; [reflexivity|]].
  - destruct o as [[] s4|e s4]; cbn [world_of]; destruct (Hrel s4) as [l [Hl HQ]];
      exists l; (split; [|exact HQ]); rewrite <- Hl;
      destruct ((log EvSessionRelease ;; run (SessionRelease C)) s4); reflexivity.
  - destruct o as [[] s4|e s4]; [intros []|]. intros _.
    destruct ((log EvSessionRelease ;; run (SessionRelease C)) s4); exact Logic.I.
Qed.

End EarlyExits.

(** The theorems at work: a request for a style sheet, answered by the
    static server. *)
Lemma static_answer_ends_request_witness :
  let C := example_collaborators static_file (λ _, ([], None)) in
  let r := request "GET" "/static/site.css" in
  map ev (trace (world_of (ServeHTTP_body Toy.config C Toy.range item_routes r
                             (World0 Toy.host))))
  = [EvStatic; EvOp (OWrite "body { }"); EvAdmin]
  ∧ extends_with (λ e, static_stage_event e ∨ admin_event e) (World0 Toy.host)
      (world_of (ServeHTTP_body Toy.config C Toy.range item_routes r (World0 Toy.host))).
Proof.
  cbv zeta. split; [vm_compute; reflexivity|].
  refine (proj2 (static_answer_ends_request Toy.config
            (example_collaborators static_file (λ _, ([], None))) Toy.range item_routes
            (request "GET" "/static/site.css") (World0 Toy.host) (World0 Toy.host)
            (world_of (run static_file (logged (World0 Toy.host) [EvStatic]))) _ _ _ _));
    [apply (bool_decide_unpack _) | ..]; vm_compute; reflexivity.
Defined.

(** A request when the session store is down *)
Lemma session_failure_returns_witness :
  let C := example_collaborators Toy.silent (λ _, ([], None)) in
  let r := request "GET" "/item" in
  map ev (trace (world_of (ServeHTTP_body session_config C Toy.range item_routes r
                             (World0 Toy.host))))
  = [EvStatic; EvSessionStart; EvError; EvException "503";
     EvOp (OWriteHeader 503); EvOp (OWrite "503")].
Proof.
  cbv zeta.
  rewrite (proj1 (session_failure_returns session_config
            (example_collaborators Toy.silent (λ _, ([], None))) Toy.range item_routes
            (request "GET" "/item") (World0 Toy.host) (World0 Toy.host)
            (logged (World0 Toy.host) [EvStatic])
            (logged (logged (World0 Toy.host) [EvStatic]) [EvSessionStart])
            ltac:(apply (bool_decide_unpack _); vm_compute; reflexivity)
            ltac:(vm_compute; reflexivity) ltac:(vm_compute; reflexivity)
            ltac:(vm_compute; reflexivity) ltac:(vm_compute; reflexivity)
            ltac:(vm_compute; reflexivity))).
  vm_compute. reflexivity.
Defined.

(** A request with a session: the release comes last. *)
Lemma session_released_at_end_witness :
  let C := example_collaborators Toy.silent (λ _, ([], Some "sid")) in
  let r := request "PUT" "/item" in
  let o := route session_config C Toy.range item_routes r
             (with_session (Some "sid")
                (logged (logged (World0 Toy.host) [EvStatic]) [EvSessionStart])) in
  ∃ l, trace (world_of (ServeHTTP_body session_config C Toy.range item_routes r
                          (World0 Toy.host)))
       = (trace (world_of o) ++ observed (world_of o) EvSessionRelease :: l)%list
       ∧ Forall (λ x, op_event (ev x)) l.
Proof.
  cbv zeta.
  refine (proj1 (session_released_at_end session_config
            (example_collaborators Toy.silent (λ _, ([], Some "sid"))) Toy.range item_routes
            (request "PUT" "/item") (World0 Toy.host) (World0 Toy.host)
            (logged (World0 Toy.host) [EvStatic])
            (logged (logged (World0 Toy.host) [EvStatic]) [EvSessionStart]) "sid"
            _ _ _ _ _ _));
    [apply (bool_decide_unpack _) | ..]; vm_compute; reflexivity.
Defined.

(** A request with a verb the router does not know *)
Lemma unsupported_method_answered_witness :
  ∃ s', ServeHTTP Toy.config (Toy.collaborators (λ _, None)) Toy.range item_routes
          (request "BREW" "/item") Toy.host = Ok tt s'
        ∧ calls (writer (w s')) = method_not_allowed
        ∧ status (w s') = 405%Z.
Proof.
  destruct (unsupported_method_answered Toy.config (Toy.collaborators (λ _, None)) Toy.range
              item_routes (request "BREW" "/item") Toy.host) as [s' [H1 [H2 [_ [H4 _]]]]].
  - apply (bool_decide_unpack _). vm_compute. reflexivity.
  - exists s'. split; [exact H1|]. split; [exact H2 | exact H4].
Defined.

(** ** When the filters of a point stop the request *)

Section FilterStops.
Context (cfg : Config) (C : Collaborators) (R : RangeOrder).
Context (p : ControllerRegister) (r : Request).

Lemma doFilter_loop_stop pos l s s' :
  doFilter_loop cfg C R r pos l s = Ok true s' →
  started (w s') = true ∧ ∃ f, f ∈ l ∧ returnOnOutput f = true.
Proof.
  revert s. induction l as [|f l IH]; intros s H.
  - discriminate H.
  - cbn [doFilter_loop] in H. unfold mbind at 1, M_bind at 1, get at 1 in H.
    destruct (returnOnOutput f && started (w s)) eqn:E.
    + apply andb_true_iff in E as [Ef Es].
      injection H as <-. split; [exact Es|]. exists f. split; [left | exact Ef].
    + apply bind_Ok_inv in H as [[] [s1 [_ H]]].
      unfold mbind at 1, M_bind at 1, get at 1 in H.
      destruct (returnOnOutput f && started (w s1)) eqn:E1.
      * apply andb_true_iff in E1 as [Ef Es].
        injection H as <-. split; [exact Es|]. exists f. split; [left | exact Ef].
      * destruct (IH _ H) as [Hs [g [Hg Hr]]]. split; [exact Hs|].
        exists g. split; [right; exact Hg | exact Hr].
Qed.

(** X10: the filters of a point stop the request only when the response
    has started after a filter registered to return on output (the default
    of [InsertFilter]); a point with only filters registered with [false]
    never stops it, whatever they write. *)
Theorem doFilter_stops_on_output (pos : Z) (s s' : World) :
  doFilter cfg C R p r pos s = Ok true s' →
  started (w s') = true
  ∧ enableFilter p = true
  ∧ ∃ l f, filters p !! pos = Some l ∧ f ∈ l ∧ returnOnOutput f = true.
Proof.
  unfold doFilter. intros H.
  destruct (enableFilter p); [|discriminate H].
  destruct (filters p !! pos) as [l|]; [|discriminate H].
  destruct (doFilter_loop_stop _ _ _ _ H) as [Hs [f [Hf Hr]]].
  split; [exact Hs|]. split; [reflexivity|]. exists l, f. auto.
Qed.

End FilterStops.

(** The after-exec filter of [/page] writes and stops the request. *)
Lemma doFilter_stops_on_output_witness :
  let s := World0 Toy.host in
  let s' := world_of (doFilter Toy.config (Toy.collaborators (λ _, None)) Toy.range
                        (page_routes true) (request "GET" "/page") AfterExec s) in
  started (w s') = true
  ∧ enableFilter (page_routes true) = true
  ∧ ∃ l f, filters (page_routes true) !! AfterExec = Some l ∧ f ∈ l
           ∧ returnOnOutput f = true.
Proof.
  cbv zeta.
  apply (doFilter_stops_on_output Toy.config (Toy.collaborators (λ _, None)) Toy.range
           (page_routes true) (request "GET" "/page") AfterExec (World0 Toy.host)).
  vm_compute. reflexivity.
Defined.

(** ** The action of a controller and the flag [started] *)

Ltac ev_side :=
  cbn; intros;
  repeat match goal with e : Event |- _ => destruct e end;
  cbn in *;
  first [ tauto | congruence | intuition congruence
        | match goal with
          | H : ∀ e, ¬ controller_event e → ?Q e |- ?Q _ => apply H; cbn; tauto
          end ].

Ltac sel_leaf HI :=
  first [ apply (stable_log _ _ HI); ev_side
        | apply (stable_w _ _ HI); auto with keeps
        | apply (stable_context _ _ HI)
        | apply (run_preserves _ _ HI); ev_side
        | apply (run_ret_preserves _ _ HI); ev_side
        | apply (run_raw_preserves _ _ HI)
        | apply (exec_ops_preserves _ _ HI); ev_side
        | apply (doFilter_preserves _ _ _ _ _ _ _ HI); ev_side
        | apply (Admin_preserves _ _ _ _ _ HI); ev_side ].

Ltac sel_all HI := repeat first [ pres_step | sel_leaf HI ].

Lemma pointed_bind {A B} (I : World → Prop) (m : M A) (k : A → M B) (s : World) :
  I (world_of (m s)) → (∀ a, preserves I (k a)) → I (world_of ((m ≫= k) s)).
Proof.
  intros Hm Hk. unfold mbind, M_bind. destruct (m s) as [a s'|e s']; simpl in *.
  - apply Hk, Hm.
  - exact Hm.
Qed.

Lemma preserves_get_bind {A} (I : World → Prop) (k : World → M A) :
  (∀ s, I s → I (world_of (k s s))) → preserves I (get ≫= k).
Proof. intros H s Hs. exact (H s Hs). Qed.

Lemma actions_unstarted_stable : Stable (λ e, ¬ action_event e) actions_unstarted.
Proof.
  split.
  - intros e He s Hs. unfold actions_unstarted. simpl. apply Forall_app. split; [exact Hs|].
    apply List.Forall_cons; [|apply List.Forall_nil]. simpl. intros Ha. destruct (He Ha).
  - intros f _ s Hs. exact Hs.
  - intros f s Hs. exact Hs.
Qed.

Lemma log_unstarted {A} (e : Event) (m : M A) (s : World) :
  started (w s) = false → actions_unstarted s → preserves actions_unstarted m →
  actions_unstarted (world_of ((log e ;; m) s)).
Proof.
  intros Hst Hs Hm. unfold mbind, M_bind. cbn [log]. apply Hm.
  unfold actions_unstarted. simpl. apply Forall_app. split; [exact Hs|].
  apply List.Forall_cons; [|apply List.Forall_nil]. simpl. intros _. exact Hst.
Qed.

(** The dispatcher keeps an invariant that is stable under all events but
    the calls of a controller's methods, when the life of a controller keeps
    it. *)
Section ControllerEvents.
Context (cfg : Config) (C : Collaborators) (R : RangeOrder).
Context (p : ControllerRegister) (r : Request).
Context (Q : Event → Prop) (I : World → Prop) (HI : Stable Q I).
Context (HQ : ∀ e, ¬ controller_event e → Q e).
Context (Hctl : ∀ L, preserves I (run_controller cfg C r L)).

Lemma after_exec_keeps L : preserves I (after_exec cfg C R p r L).
Proof. unfold after_exec. sel_all HI. Qed.

Lemma dispatch_keeps L : preserves I (dispatch cfg C R p r L).
Proof.
  unfold dispatch.
  repeat first [ pres_step | sel_leaf HI | apply Hctl | apply after_exec_keeps ].
Qed.

Lemma route_keeps : preserves I (route cfg C R p r).
Proof.
  unfold route, before_router, resolve, found, lookup.
  repeat first [ pres_step | sel_leaf HI | apply dispatch_keeps ].
Qed.

Lemma ServeHTTP_body_keeps : preserves I (ServeHTTP_body cfg C R p r).
Proof.
  unfold ServeHTTP_body, http_Error.
  repeat first [ pres_step | sel_leaf HI | apply route_keeps ].
Qed.

Lemma recoverPanic_keeps err : preserves I (recoverPanic cfg C err).
Proof.
  unfold recoverPanic. sel_all HI.
  induction (Callers C) as [|frame l IH]; simpl; sel_all HI. exact IH.
Qed.

Lemma ServeHTTP_keeps rw : I (World0 rw) → I (world_of (ServeHTTP cfg C R p r rw)).
Proof.
  intros H0. unfold ServeHTTP.
  assert (Hb : preserves I
            ((if String.eqb (RunMode cfg) "dev"
              then set_w (Header_Set "Server" (BeegoServerName cfg)) else mret tt) ;;
             ServeHTTP_body cfg C R p r)).
  { repeat first [ pres_step | sel_leaf HI | apply ServeHTTP_body_keeps ]. }
  specialize (Hb _ H0). revert Hb.
  match goal with |- I (world_of ?o) → _ => destruct o as [a s|e s] end;
    intros Hb; simpl in Hb.
  - exact Hb.
  - exact (recoverPanic_keeps (Some e) s Hb).
Qed.

End ControllerEvents.

Section Actions.
Context (cfg : Config) (C : Collaborators) (R : RangeOrder).
Context (p : ControllerRegister) (r : Request).

Lemma run_controller_unstarted L : preserves actions_unstarted (run_controller cfg C r L).
Proof.
  pose proof actions_unstarted_stable as HI.
  unfold run_controller.
  destruct (runrouter L) as [t|]; [|apply preserves_panic].
  destruct (controllers C t) as [ec|]; [|apply preserves_panic].
  cbv zeta.
  do 7 (apply preserves_bind; [solve [sel_all HI] | intros _]).
  apply preserves_get_bind. intros s Hs.
  apply pointed_bind; [|intros _; sel_all HI].
  destruct (started (w s)) eqn:Hst; cbn [negb]; [exact Hs|].
  apply pointed_bind.
  - repeat match goal with
           | |- actions_unstarted (world_of ((if ?b then _ else _) s)) => destruct b
           end;
      (apply log_unstarted; [exact Hst | exact Hs | sel_all HI]).
  - intros _. apply preserves_get_bind. intros s1 Hs1.
    destruct (started (w s1)) eqn:Hst1; cbn [negb andb]; [exact Hs1|].
    destruct (Status (context s1) =? 0)%Z; [|exact Hs1].
    destruct (AutoRender cfg); [|exact Hs1].
    apply log_unstarted; [exact Hst1 | exact Hs1 | sel_all HI].
Qed.

(** X11: in a whole request the method of a controller for the verb
    ([Get], [Post], ...), [HandlerFunc] and [Render] are called only with the
    response not started: what a filter or an earlier method of the
    controller wrote keeps them from running. *)
Theorem actions_run_unstarted (rw : hostWriter) :
  actions_unstarted (world_of (ServeHTTP cfg C R p r rw)).
Proof.
  apply (ServeHTTP_keeps cfg C R p r _ _ actions_unstarted_stable).
  - intros e He Ha. destruct e; simpl in *; tauto.
  - exact run_controller_unstarted.
  - apply List.Forall_nil.
Qed.

End Actions.

(** ** The check of the XSRF cookie *)

Lemma xsrf_checked_stable cfg r :
  Stable (λ e, ¬ xsrf_check_event e) (xsrf_checked_on_writes cfg r).
Proof.
  split.
  - intros e He s Hs. unfold xsrf_checked_on_writes. simpl. apply Forall_app.
    split; [exact Hs|].
    apply List.Forall_cons; [|apply List.Forall_nil]. simpl. intros Ha. destruct (He Ha).
  - intros f _ s Hs. exact Hs.
  - intros f s Hs. exact Hs.
Qed.

Section XSRF.
Context (cfg : Config) (C : Collaborators) (R : RangeOrder).
Context (p : ControllerRegister) (r : Request).

Lemma run_controller_xsrf L :
  preserves (xsrf_checked_on_writes cfg r) (run_controller cfg C r L).
Proof.
  pose proof (xsrf_checked_stable cfg r) as HI.
  unfold run_controller.
  destruct (runrouter L) as [t|]; [|apply preserves_panic].
  destruct (controllers C t) as [ec|]; [|apply preserves_panic].
  cbv zeta.
  do 4 (apply preserves_bind; [solve [sel_all HI] | intros _]).
  apply preserves_bind; [|intros _; sel_all HI].
  destruct (EnableXSRF cfg) eqn:Ex; [|apply preserves_ret].
  do 2 (apply preserves_bind; [solve [sel_all HI] | intros _]).
  apply preserves_bind; [apply preserves_get | intros s1].
  match goal with |- preserves _ (if ?b then _ else _) => destruct b eqn:Ec end;
    [|apply preserves_ret].
  apply preserves_bind; [|intros _; sel_all HI].
  intros s Hs. unfold xsrf_checked_on_writes. simpl. apply Forall_app. split; [exact Hs|].
  apply List.Forall_cons; [|apply List.Forall_nil]. simpl. intros _.
  split; [exact Ex|].
  rewrite !orb_true_iff in Ec.
  destruct Ec as [[[Ec | Ec] | Ec] | Ec].
  - apply String.eqb_eq in Ec. rewrite Ec. set_solver.
  - apply String.eqb_eq in Ec. rewrite Ec. set_solver.
  - apply String.eqb_eq in Ec. rewrite Ec. set_solver.
  - apply andb_true_iff in Ec as [Ec _].
    apply String.eqb_eq in Ec. rewrite Ec. set_solver.
Qed.

(** X12: in a whole request [CheckXSRFCookie] is called only when
    [EnableXSRF] is on and the verb of the request is POST, DELETE or PUT;
    a GET, HEAD, PATCH or OPTIONS never has its XSRF cookie checked. *)
Theorem xsrf_checked_only_on_writes (rw : hostWriter) :
  xsrf_checked_on_writes cfg r (world_of (ServeHTTP cfg C R p r rw)).
Proof.
  apply (ServeHTTP_keeps cfg C R p r _ _ (xsrf_checked_stable cfg r)).
  - intros e He Ha. destruct e; simpl in *; tauto.
  - exact run_controller_xsrf.
  - apply List.Forall_nil.
Qed.

End XSRF.

(** ** A panic and the code from [Admin] on *)

Lemma panics_within_preserves {A} (I : World → Prop) (m : M A) :
  preserves I m → panics_within I m.
Proof. intros Hm s e s' Hs H. specialize (Hm s Hs). rewrite H in Hm. exact Hm. Qed.

Lemma panics_within_bind {A B} (I : World → Prop) (m : M A) (k : A → M B) :
  preserves I m → (∀ a, panics_within I (k a)) → panics_within I (m ≫= k).
Proof.
  intros Hm Hk s e s' Hs. specialize (Hm s Hs).
  unfold mbind, M_bind. destruct (m s) as [a s1|e1 s1]; simpl in Hm.
  - apply Hk, Hm.
  - intros [= <- <-]. exact Hm.
Qed.

Lemma panics_within_Admin (I : World → Prop) cfg C r L : panics_within I (Admin cfg C r L).
Proof.
  intros s e s' _ H. destruct (Admin_effect cfg C r L s) as [s1 [H1 _]].
  rewrite H1 in H. discriminate H.
Qed.

Ltac pw_step HI :=
  match goal with
  | |- panics_within _ (Admin _ _ _ _) => apply panics_within_Admin
  | |- panics_within _ (mbind _ _) =>
      apply panics_within_bind; [solve [sel_all HI] | intros ?]
  | |- panics_within _ (if ?b then _ else _) => destruct b
  | |- panics_within _ (match ?x with _ => _ end) => destruct x
  | |- panics_within _ (let _ := _ in _) => cbv zeta
  | |- panics_within _ _ => apply panics_within_preserves; solve [sel_all HI]
  end.

Section PanicAndAdmin.
Context (cfg : Config) (C : Collaborators) (R : RangeOrder).
Context (p : ControllerRegister) (r : Request) (s0 : World).

Let I : World → Prop := extends_with (λ e, ¬ admin_event e) s0.

Lemma after_exec_panics L : panics_within I (after_exec cfg C R p r L).
Proof.
  pose proof (extends_with_stable (λ e, ¬ admin_event e) s0) as HI.
  unfold after_exec. repeat pw_step HI.
Qed.

Lemma run_controller_no_admin L : preserves I (run_controller cfg C r L).
Proof.
  pose proof (extends_with_stable (λ e, ¬ admin_event e) s0) as HI.
  unfold run_controller. sel_all HI.
Qed.

Lemma dispatch_panics L : panics_within I (dispatch cfg C R p r L).
Proof.
  pose proof (extends_with_stable (λ e, ¬ admin_event e) s0) as HI.
  unfold dispatch.
  repeat first [ apply after_exec_panics
               | apply panics_within_bind;
                   [solve [apply run_controller_no_admin | sel_all HI] | intros ?]
               | pw_step HI ].
Qed.

Lemma route_panics : panics_within I (route cfg C R p r).
Proof.
  pose proof (extends_with_stable (λ e, ¬ admin_event e) s0) as HI.
  unfold route, before_router, resolve, found, lookup.
  repeat first [ apply dispatch_panics | pw_step HI ].
Qed.

End PanicAndAdmin.

(** X13: when the request panics on its way from the parsing of the form
    on (in a filter, a handler, a controller, an error page), the code
    from [Admin] on has not run since: the request is not counted by the
    statistics, no access log line is written, and a status set in the
    context is not written through to the response. *)
Theorem panic_skips_Admin (cfg : Config) (C : Collaborators) (R : RangeOrder)
    (p : ControllerRegister) (r : Request) (s s' : World) (e : PanicVal) :
  route cfg C R p r s = Panicked e s' →
  extends_with (λ e, ¬ admin_event e) s s'.
Proof.
  intros H. exact (route_panics cfg C R p r s s e s' (extends_with_refl _ s) H).
Qed.

Lemma panic_skips_Admin_witness :
  extends_with (λ e, ¬ admin_event e) (World0 Toy.host)
    (world_of (route Toy.config (Toy.collaborators (λ _, None)) Toy.range boom_routes
                 (request "GET" "/boom") (World0 Toy.host))).
Proof.
  apply (panic_skips_Admin Toy.config (Toy.collaborators (λ _, None)) Toy.range boom_routes
           (request "GET" "/boom") (World0 Toy.host) _ (PanicText "boom")).
  vm_compute. reflexivity.
Defined.

(** ** A route resolved by a filter *)

Section Resolved.
Context (cfg : Config) (C : Collaborators) (R : RangeOrder).
Context (p : ControllerRegister) (r : Request).



End Resolved.


(** ** The reverse resolver, continued *)

Lemma split_from_length (sep : ascii) (cur s : string) :
  List.length (GoStr.split_from sep cur s) = S (count_byte sep s).
Proof.
  revert cur. induction s as [|c s IH]; intros cur; [reflexivity|].
  cbn [GoStr.split_from count_byte].
  destruct (Ascii.eqb c sep); [cbn [List.length]; f_equal|]; apply IH.
Qed.

(** X15: [URLFor] returns the empty string, and does not panic, for an
    endpoint without a dot, for an odd number of values, and on a register
    without routes. *)
Theorem URLFor_degenerate (R : RangeOrder) (p : ControllerRegister) (endpoint : string)
    (values : list GoValue) :
  count_byte "." endpoint = 0%nat
  ∨ (List.length values mod 2 ≠ 0)%nat
  ∨ routers p = ∅ →
  URLFor R p endpoint values = Some "".
Proof.
  intros H. unfold URLFor. cbv zeta.
  destruct (bool_decide _) eqn:Elen; [reflexivity|].
  apply bool_decide_eq_false in Elen.
  unfold GoStr.Split in Elen. rewrite split_from_length in Elen.
  destruct (negb _) eqn:Eodd; [reflexivity|].
  apply negb_false_iff, Nat.eqb_eq in Eodd.
  destruct H as [H | [H | H]].
  - exfalso. apply Elen. rewrite H. apply le_n.
  - destruct (H Eodd).
  - assert (Hnil : range_of R (routers p) = []).
    { apply Permutation_nil_r. rewrite (range_of_perm R), H, map_to_list_empty.
      reflexivity. }
    rewrite Hnil. reflexivity.
Qed.

Lemma URLFor_degenerate_witness :
  URLFor Toy.range user_routes "UserController" [] = Some "".
Proof.
  apply URLFor_degenerate. left. reflexivity.
Defined.

Lemma url_values_union (n : nat) :
  ∀ values m, (List.length values ≤ n)%nat →
    url_values values m = list_to_map (reverse (given_pairs values)) ∪ m.
Proof.
  induction n as [|n IH]; intros values m Hn.
  - destruct values; [|simpl in Hn; lia].
    cbn [url_values given_pairs]. rewrite reverse_nil. cbn [list_to_map foldr].
    rewrite (left_id_L ∅ (∪)). reflexivity.
  - destruct values as [|k [|v rest]].
    + cbn [url_values given_pairs]. rewrite reverse_nil. cbn [list_to_map foldr].
      rewrite (left_id_L ∅ (∪)). reflexivity.
    + cbn [url_values given_pairs]. rewrite reverse_nil. cbn [list_to_map foldr].
      rewrite (left_id_L ∅ (∪)). reflexivity.
    + cbn [url_values given_pairs]. rewrite IH by (simpl in Hn; lia).
      rewrite reverse_cons, list_to_map_app. cbn [list_to_map foldr uncurry fst snd].
      rewrite insert_empty, <- (assoc_L (∪)), <- insert_union_singleton_l. reflexivity.
Qed.

(** X16: the parameters [URLFor] resolves with are the values taken two by
    two as key and value, both through [fmt.Sprint]; when a key is given
    more than once its last value is the one kept, and a key without a
    value at the end is dropped. *)
Theorem url_values_last_wins (values : list GoValue) (m : gmap string string) :
  url_values values m = list_to_map (reverse (given_pairs values)) ∪ m
  ∧ (∀ k v, url_values (k :: v :: values) m !! SprintValue k
            = match (list_to_map (reverse (given_pairs values)) : gmap string string)
                    !! SprintValue k with
              | Some v' => Some v'
              | None => Some (SprintValue v)
              end)
  ∧ (∀ k, url_values [k] m = m).
Proof.
  split; [|split].
  - apply (url_values_union (List.length values)). apply le_n.
  - intros k v. cbn [url_values].
    rewrite (url_values_union (List.length values)) by apply le_n.
    rewrite lookup_union, lookup_insert_eq.
    destruct (_ !! SprintValue k) as [v'|]; reflexivity.
  - intros k. reflexivity.
Qed.

(** ** The filter of the access log *)

(** X17: the default filter of the access log hides exactly the requests
    whose cleaned path is [/favicon.ico] or [/robots.txt] or starts with a
    key of [StaticDir]; the answer does not depend on the context nor on
    the order [range] visits [StaticDir] in. *)
Theorem logFilter_hides_static (static_dir static_dir' : list string) (r : Request)
    (c c' : Context) :
  static_dir ≡ₚ static_dir' →
  logFilter_Filter static_dir r c = logFilter_Filter static_dir' r c'
  ∧ (logFilter_Filter static_dir r c = true
     ↔ GoStr.Clean (URLPath r) = "/favicon.ico"
       ∨ GoStr.Clean (URLPath r) = "/robots.txt"
       ∨ ∃ prefix, prefix ∈ static_dir
                   ∧ GoStr.HasPrefix (GoStr.Clean (URLPath r)) prefix = true).
Proof.
  intros Hperm.
  assert (Hex : ∀ l, existsb (λ prefix, GoStr.HasPrefix (GoStr.Clean (URLPath r)) prefix) l = true
                     ↔ ∃ prefix, prefix ∈ l
                         ∧ GoStr.HasPrefix (GoStr.Clean (URLPath r)) prefix = true).
  { intros l. rewrite existsb_exists. split; intros [x [Hx Hp]]; exists x; split;
      try exact Hp; apply list_elem_of_In; exact Hx. }
  split.
  - unfold logFilter_Filter. cbv zeta.
    destruct (String.eqb _ "/favicon.ico" || String.eqb _ "/robots.txt"); [reflexivity|].
    apply eq_true_iff_eq. rewrite !Hex.
    split; intros [x [Hx Hp]]; exists x; (split; [|exact Hp]).
    + rewrite <- Hperm. exact Hx.
    + rewrite Hperm. exact Hx.
  - unfold logFilter_Filter. cbv zeta.
    destruct (String.eqb_spec (GoStr.Clean (URLPath r)) "/favicon.ico") as [E1|E1];
      cbn [orb]; [tauto|].
    destruct (String.eqb_spec (GoStr.Clean (URLPath r)) "/robots.txt") as [E2|E2];
      cbn [orb]; [tauto|].
    rewrite Hex. tauto.
Qed.

Lemma logFilter_hides_static_witness :
  logFilter_Filter ["/static"; "/files"] (request "GET" "/files/../static/site.css") Context0
  = logFilter_Filter ["/files"; "/static"] (request "GET" "/files/../static/site.css") Context0.
Proof.
  refine (proj1 (logFilter_hides_static ["/static"; "/files"] ["/files"; "/static"]
                   (request "GET" "/files/../static/site.css") Context0 Context0 _)).
  apply perm_swap.
Defined.

(** ** The shortcuts of the verbs *)

Section ShortcutFacts.
Context (cfg : Config) (C : Collaborators).

Lemma shortcut_single p method pattern f :
  bool_decide (method ≠ "*" ∧ GoStr.ToUpper method ∈ HTTPMETHOD_list) = true →
  AddMethod cfg C p method pattern f
  = Some (addToRouter cfg C p (GoStr.ToUpper method) pattern (AddMethod_route method pattern f)).
Proof.
  intros H. apply bool_decide_eq_true in H as [H1 H2]. apply AddMethod_single; assumption.
Qed.

(** X18: the shortcuts [Get], [Post], [Put], [Delete], [Head], [Patch] and
    [Options] never panic and add the route to the trie of their verb, in
    upper case, and to no other; [Any] never panics and gives every one of
    the nine verbs a trie. *)
Theorem shortcuts_register (p : ControllerRegister) (pattern : string) (f : Callback) :
  Shortcut.Get cfg C p pattern f
  = Some (addToRouter cfg C p "GET" pattern (AddMethod_route "get" pattern f))
  ∧ Shortcut.Post cfg C p pattern f
    = Some (addToRouter cfg C p "POST" pattern (AddMethod_route "post" pattern f))
  ∧ Shortcut.Put cfg C p pattern f
    = Some (addToRouter cfg C p "PUT" pattern (AddMethod_route "put" pattern f))
  ∧ Shortcut.Delete cfg C p pattern f
    = Some (addToRouter cfg C p "DELETE" pattern (AddMethod_route "delete" pattern f))
  ∧ Shortcut.Head cfg C p pattern f
    = Some (addToRouter cfg C p "HEAD" pattern (AddMethod_route "head" pattern f))
  ∧ Shortcut.Patch cfg C p pattern f
    = Some (addToRouter cfg C p "PATCH" pattern (AddMethod_route "patch" pattern f))
  ∧ Shortcut.Options cfg C p pattern f
    = Some (addToRouter cfg C p "OPTIONS" pattern (AddMethod_route "options" pattern f))
  ∧ (∃ p', Shortcut.Any cfg C p pattern f = Some p'
           ∧ filters p' = filters p
           ∧ ∀ m, m ∈ HTTPMETHOD_list → is_Some (routers p' !! m))
  ∧ (∀ verb m, m ≠ verb →
       routers (addToRouter cfg C p verb pattern (AddMethod_route verb pattern f)) !! m
       = routers p !! m).
Proof.
  repeat match goal with
         | |- _ = Some (addToRouter _ _ _ _ _ _) ∧ _ =>
             split; [apply shortcut_single; vm_compute; reflexivity|]
         end.
  split.
  - unfold Shortcut.Any. rewrite AddMethod_star. eexists. split; [reflexivity|]. split.
    + apply addToRouter_fold_filters.
    + intros m Hm. rewrite addToRouter_fold_routers by apply NoDup_fst_map_to_list.
      rewrite <- HTTPMETHOD_keys in Hm.
      destruct (decide (m ∈ map fst (map_to_list HTTPMETHOD))) as [_|Hn]; [|destruct (Hn Hm)].
      eexists. reflexivity.
  - intros verb m Hne. rewrite addToRouter_routers.
    destruct (decide (m = verb)) as [->|_]; [destruct (Hne eq_refl) | reflexivity].
Qed.

End ShortcutFacts.
